(** * clap-ftxui-support: the embedded terminal and the GUI life cycle

    A shallow embedding of
    - [include/ftxui-clap-support/ftxui-clap-editor.h] (module [Editor]),
    - [src/embedded-terminal.{h,cpp}] (module [Terminal]),
    - [src/embedded-terminal-linux.cpp] (module [X11]),
    - [src/embedded-terminal-windows.cpp] (module [Win32]),
    - [src/ftxui-clap-support.cpp] (module [Support]),
    followed by the properties of the size negotiation, the parameter queue,
    the window registry and the render loop.

    Conventions.  A C++ [int] is a [Z]; [/] on [int] is [Z.quot] (truncation
    towards zero); signed overflow, which C++ leaves undefined, is not
    modelled: a product of two [int]s is their product in [Z], which is the
    [int] of the code while it is in [int_range].  A pointer is its address, an [N], and [nullptr] is [0].
    A [std::unique_ptr<T>] is an [option T].  A [std::string] is a [string].
    The editor identifier [std::to_string(reinterpret_cast<uintptr_t>(editor))]
    is stdpp's decimal [pretty] on [N].  Calls into X11, Win32 and FTXUI are
    answered by an explicit record of answers, and the calls that change what
    is on screen are appended to a log. *)

From stdpp Require Import gmap strings list pretty.
From Equations Require Import Equations.
From Stdlib Require Import Ascii Floats.

Open Scope Z_scope.

(** The values of a C++ [int] of 32 bits. *)
Definition int_range (z : Z) : Prop := -2147483648 ≤ z ≤ 2147483647.

Abbreviation ptr := N (only parsing).
Abbreviation nullptr := 0%N (only parsing).

(** ** ftxui-clap-editor.h *)

Module Editor.

(** [ftxui::Component] is a shared pointer: its address, [nullptr] when
    empty. *)
Abbreviation Component := N (only parsing).

(** The virtual interface of [struct ftxui_clap_editor] that returns a value
    to the library.  [getPreferredSize] and [adjustSize] take [cols] and
    [rows] by reference: they get the current values and return the new
    ones.  The hooks that return nothing ([onGuiCreate], [onGuiDestroy],
    [onParameterUpdate]) are recorded in the call log of [Support]. *)
Record ftxui_clap_editor := {
  onCreateComponent : Component;
  getPreferredSize : Z → Z → Z * Z;
  adjustSize : Z → Z → bool * (Z * Z);
}.

(** The default body of [ftxui_clap_editor::getPreferredSize]. *)
Definition default_getPreferredSize (cols rows : Z) : Z * Z := (80, 24).

(** The default body of [ftxui_clap_editor::adjustSize]. *)
Definition default_adjustSize (cols rows : Z) : bool * (Z * Z) :=
  let cols := if cols <? 40 then 40 else cols in
  let rows := if rows <? 10 then 10 else rows in
  let cols := if cols >? 120 then 120 else cols in
  let rows := if rows >? 40 then 40 else rows in
  (true, (cols, rows)).

(** [struct ftxui_clap_terminal_options]: the size constraints. *)
Definition min_cols : Z := 40.
Definition min_rows : Z := 10.
Definition max_cols : Z := 120.
Definition max_rows : Z := 40.

(** [clap_window] of the CLAP headers, as far as [guiSetParentWith] reads
    it: the native parent handle under each platform's name. *)
Record clap_window := { cocoa : ptr; x11 : ptr; win32 : ptr }.

End Editor.

(** ** embedded-terminal.h, embedded-terminal.cpp *)

Module Terminal.

(** [embedded_terminal::editor_window]. *)
Record editor_window := {
  content : string;
  platform_handle : ptr;
  width : Z;
  height : Z;
  visible : bool;
}.

Definition set_content (w : editor_window) (c : string) : editor_window :=
  {| content := c; platform_handle := platform_handle w;
     width := width w; height := height w; visible := visible w |}.

Definition set_platform_handle (w : editor_window) (h : ptr) : editor_window :=
  {| content := content w; platform_handle := h;
     width := width w; height := height w; visible := visible w |}.

Definition set_size (w : editor_window) (wd ht : Z) : editor_window :=
  {| content := content w; platform_handle := platform_handle w;
     width := wd; height := ht; visible := visible w |}.

Definition set_visible (w : editor_window) (v : bool) : editor_window :=
  {| content := content w; platform_handle := platform_handle w;
     width := width w; height := height w; visible := v |}.

(** The seven [platform_*] members of [embedded_terminal], which each
    backend file defines, and the [#ifdef] of [guiSetParentWith] that picks
    the parent handle.  [statics] are the file-static globals of the
    backend, [native] the answers of the native API during one call. *)
Class Platform := {
  statics : Type;
  native : Type;
  statics_init : statics;
  platform_initialize : native → statics → bool * statics;
  platform_shutdown : statics → statics;
  platform_create_window :
    native → editor_window → ptr → Z → Z → Z → Z → statics →
    bool * editor_window * statics;
  platform_update_window : native → editor_window → statics → statics;
  platform_resize_window : editor_window → Z → Z → statics → statics;
  platform_show_window : editor_window → bool → statics → statics;
  platform_destroy_window : editor_window → statics → editor_window * statics;
  parent_handle_of : Editor.clap_window → ptr;
}.

(** The data of one [embedded_terminal]: the map [editors_]. *)
Record embedded_terminal := { editors_ : gmap string editor_window }.

Section registry.
Context {P : Platform}.

(** [embedded_terminal::embedded_terminal()] *)
Definition new : embedded_terminal := {| editors_ := ∅ |}.

(** [embedded_terminal::initialize] *)
Definition initialize (x : native) (g : statics) : bool * statics :=
  platform_initialize x g.

(** [embedded_terminal::shutdown]: every window is destroyed, the map is
    cleared, the backend is shut down.  The order in which an
    [unordered_map] is traversed is unspecified; the model takes the
    order of [map_to_list]. *)
Definition shutdown (t : embedded_terminal) (g : statics)
  : embedded_terminal * statics :=
  let g := foldr (λ kw g, (platform_destroy_window kw.2 g).2) g
                 (map_to_list (editors_ t)) in
  ({| editors_ := ∅ |}, platform_shutdown g).

(** [embedded_terminal::update_content] *)
Definition update_content (x : native) (editor_id content : string)
    (t : embedded_terminal) (g : statics) : embedded_terminal * statics :=
  match editors_ t !! editor_id with
  | Some w =>
      let w := set_content w content in
      ({| editors_ := <[editor_id := w]> (editors_ t) |},
       platform_update_window x w g)
  | None => (t, g)
  end.

(** [embedded_terminal::remove_editor] *)
Definition remove_editor (editor_id : string)
    (t : embedded_terminal) (g : statics) : embedded_terminal * statics :=
  match editors_ t !! editor_id with
  | Some w =>
      let '(_, g) := platform_destroy_window w g in
      ({| editors_ := delete editor_id (editors_ t) |}, g)
  | None => (t, g)
  end.

(** [embedded_terminal::create_window] *)
Definition create_window (x : native) (editor_id : string)
    (parent_handle : ptr) (px py width height : Z)
    (t : embedded_terminal) (g : statics)
  : bool * embedded_terminal * statics :=
  let window :=
    {| content := ""; platform_handle := nullptr;
       width := width; height := height; visible := false |} in
  match platform_create_window x window parent_handle px py width height g with
  | (false, _, g) => (false, t, g)
  | (true, window, g) =>
      (true, {| editors_ := <[editor_id := window]> (editors_ t) |}, g)
  end.

(** [embedded_terminal::resize_window] *)
Definition resize_window (editor_id : string) (width height : Z)
    (t : embedded_terminal) (g : statics) : embedded_terminal * statics :=
  match editors_ t !! editor_id with
  | Some w =>
      let w := set_size w width height in
      ({| editors_ := <[editor_id := w]> (editors_ t) |},
       platform_resize_window w width height g)
  | None => (t, g)
  end.

(** [embedded_terminal::show_window] *)
Definition show_window (editor_id : string) (visible : bool)
    (t : embedded_terminal) (g : statics) : embedded_terminal * statics :=
  match editors_ t !! editor_id with
  | Some w =>
      let w := set_visible w visible in
      ({| editors_ := <[editor_id := w]> (editors_ t) |},
       platform_show_window w visible g)
  | None => (t, g)
  end.

End registry.

(** The fallback of embedded-terminal.cpp for a platform that is neither
    macOS, Windows nor Linux: nothing can be initialised or created. *)
#[local] Instance fallback : Platform := {|
  statics := unit;
  native := unit;
  statics_init := tt;
  platform_initialize := λ _ g, (false, g);
  platform_shutdown := λ g, g;
  platform_create_window := λ _ w _ _ _ _ _ g, (false, w, g);
  platform_update_window := λ _ _ g, g;
  platform_resize_window := λ _ _ _ g, g;
  platform_show_window := λ _ _ g, g;
  platform_destroy_window := λ w g, (w, g);
  parent_handle_of := λ _, nullptr;
|}.

End Terminal.

(** ** embedded-terminal-linux.cpp *)

Module X11.
Import Terminal.

(** The Xlib and Xft requests that the backend sends to the display. *)
Inductive request :=
| CreateSimpleWindow (parent : ptr) (x y width height : Z) (child : ptr)
| SelectInput (w : ptr)
| MapWindow (w : ptr)
| UnmapWindow (w : ptr)
| ResizeWindow (w : ptr) (width height : Z)
| DestroyWindow (w : ptr)
| FillRectangle (w : ptr) (x y width height : Z)
| DrawStringUtf8 (w : ptr) (x y : Z) (text : string)
| Flush
| CloseDisplay.

(** What Xlib, Xft and the X server answer during one call.
    [XOpenDisplay]: whether a connection is obtained.
    [XCreateSimpleWindow parent]: the identifier of the new window, [0] on
    failure.  [XGetWindowAttributes]: width and height of the window, [None]
    on failure.  [XftFontOpenName name]: for a font that can be opened, the
    advance [xOff] of the glyph "M" and the font height. *)
Record answers := {
  XOpenDisplay : bool;
  DefaultRootWindow : ptr;
  XCreateSimpleWindow : ptr → ptr;
  XGetWindowAttributes : option (Z * Z);
  XCreateGC : bool;
  XftDrawCreate : bool;
  XftFontOpenName : string → option (Z * Z);
}.

(** [class LinuxTerminalRenderer]; a resource pointer is kept as "non-null". *)
Record LinuxTerminalRenderer := {
  window_ : ptr;
  xft_draw_ : bool;
  font_ : bool;
  gc_ : bool;
  char_width_ : Z;
  char_height_ : Z;
  width_ : Z;
  height_ : Z;
}.

(** [LinuxTerminalRenderer::LinuxTerminalRenderer(display, window)] *)
Definition renderer_new (window : ptr) : LinuxTerminalRenderer :=
  {| window_ := window; xft_draw_ := false; font_ := false; gc_ := false;
     char_width_ := 8; char_height_ := 16; width_ := 0; height_ := 0 |}.

(** [LinuxTerminalRenderer::initialize].  The two colours cannot make it
    fail and are left out. *)
Definition renderer_initialize (x : answers) (r : LinuxTerminalRenderer)
  : bool * LinuxTerminalRenderer :=
  match XGetWindowAttributes x with
  | None => (false, r)
  | Some (w, h) =>
      let r := {| window_ := window_ r; xft_draw_ := xft_draw_ r;
                  font_ := font_ r; gc_ := gc_ r;
                  char_width_ := char_width_ r; char_height_ := char_height_ r;
                  width_ := w; height_ := h |} in
      if negb (XCreateGC x) then (false, r) else
      let r := {| window_ := window_ r; xft_draw_ := xft_draw_ r;
                  font_ := font_ r; gc_ := true;
                  char_width_ := char_width_ r; char_height_ := char_height_ r;
                  width_ := width_ r; height_ := height_ r |} in
      if negb (XftDrawCreate x) then (false, r) else
      let r := {| window_ := window_ r; xft_draw_ := true;
                  font_ := font_ r; gc_ := gc_ r;
                  char_width_ := char_width_ r; char_height_ := char_height_ r;
                  width_ := width_ r; height_ := height_ r |} in
      let font :=
        match XftFontOpenName x "monospace-12" with
        | Some f => Some f
        | None =>
            match XftFontOpenName x "fixed-12" with
            | Some f => Some f
            | None => XftFontOpenName x "fixed"
            end
        end in
      match font with
      | None => (false, r)
      | Some (xoff, fheight) =>
          (true,
           {| window_ := window_ r; xft_draw_ := xft_draw_ r;
              font_ := true; gc_ := gc_ r;
              char_width_ := xoff; char_height_ := fheight;
              width_ := width_ r; height_ := height_ r |})
      end
  end.

(** The newline that [std::getline] stops at. *)
Definition newline : ascii := "010"%char.

(** One [std::getline(stream, line)] on a stream that has characters left:
    the characters before the first newline, and what is left of the stream
    once that newline is consumed. *)
Fixpoint getline (stream : string) : string * string :=
  match stream with
  | EmptyString => (EmptyString, EmptyString)
  | String c rest =>
      if Ascii.eqb c newline then (EmptyString, rest)
      else let '(line, rest) := getline rest in (String c line, rest)
  end.

(** [LinuxTerminalRenderer::parse_terminal_content]: the loop
    [while (std::getline(stream, line)) lines.push_back(line)].  At the end
    of the stream [getline] extracts nothing and the loop stops. *)
Equations? parse_terminal_content (stream : string) : list string
  by wf (String.length stream) lt :=
parse_terminal_content EmptyString := [];
parse_terminal_content (String c s) :=
  (getline (String c s)).1 :: parse_terminal_content (getline (String c s)).2.
Proof.
  clear parse_terminal_content.
  change (String.length (getline (String c s)).2 < String.length (String c s))%nat.
  revert c. induction s as [|d s IH]; intros c; simpl.
  - destruct (Ascii.eqb c newline); simpl; lia.
  - destruct (Ascii.eqb c newline); simpl; [lia|].
    specialize (IH d). simpl in IH.
    destruct (Ascii.eqb d newline); simpl in *; [lia|].
    destruct (getline s); simpl in *. lia.
Qed.

(** The loop [for (const auto &line : lines)] of [render], from the current
    [y_offset]. *)
Fixpoint render_lines (r : LinuxTerminalRenderer) (y_offset : Z)
    (lines : list string) : list request :=
  match lines with
  | [] => []
  | line :: rest =>
      if y_offset >? height_ r then []
      else
        (if String.eqb line "" then []
         else [DrawStringUtf8 (window_ r) 5 y_offset line])
        ++ render_lines r (y_offset + char_height_ r) rest
  end.

(** [LinuxTerminalRenderer::render]: the requests it sends. *)
Definition render (r : LinuxTerminalRenderer) (content : string) : list request :=
  if negb (xft_draw_ r) || negb (font_ r) then []
  else
    [FillRectangle (window_ r) 0 0 (width_ r) (height_ r)]
    ++ render_lines r (char_height_ r) (parse_terminal_content content)
    ++ [Flush].

(** [LinuxTerminalRenderer::resize] *)
Definition resize (r : LinuxTerminalRenderer) (width height : Z)
  : LinuxTerminalRenderer :=
  {| window_ := window_ r; xft_draw_ := xft_draw_ r; font_ := font_ r;
     gc_ := gc_ r; char_width_ := char_width_ r; char_height_ := char_height_ r;
     width_ := width; height_ := height |}.

(** The statics [g_renderers] and [g_display] of the file, and the requests
    sent so far. *)
Record globals := {
  g_renderers : gmap ptr LinuxTerminalRenderer;
  g_display : bool;
  sent : list request;
}.

Definition send (rs : list request) (g : globals) : globals :=
  {| g_renderers := g_renderers g; g_display := g_display g;
     sent := sent g ++ rs |}.

Definition set_renderers (m : gmap ptr LinuxTerminalRenderer) (g : globals)
  : globals :=
  {| g_renderers := m; g_display := g_display g; sent := sent g |}.

Definition set_display (d : bool) (g : globals) : globals :=
  {| g_renderers := g_renderers g; g_display := d; sent := sent g |}.

(** [embedded_terminal::platform_initialize] *)
Definition platform_initialize (x : answers) (g : globals) : bool * globals :=
  if negb (g_display g) then
    if negb (XOpenDisplay x) then (false, g)
    else (true, set_display true g)
  else (true, g).

(** [embedded_terminal::platform_shutdown] *)
Definition platform_shutdown (g : globals) : globals :=
  let g := set_renderers ∅ g in
  if g_display g then set_display false (send [CloseDisplay] g) else g.

(** [embedded_terminal::platform_create_window] *)
Definition platform_create_window (x : answers) (window : editor_window)
    (parent_handle : ptr) (px py width height : Z) (g : globals)
  : bool * editor_window * globals :=
  if negb (g_display g) then (false, window, g) else
  let parent_window :=
    if N.eqb parent_handle 0 then DefaultRootWindow x else parent_handle in
  let child_window := XCreateSimpleWindow x parent_window in
  let g := send [CreateSimpleWindow parent_window px py width height
                                    child_window] g in
  if N.eqb child_window 0 then (false, window, g) else
  let g := send [SelectInput child_window; MapWindow child_window] g in
  let '(ok, renderer) := renderer_initialize x (renderer_new child_window) in
  if negb ok then (false, window, send [DestroyWindow child_window] g) else
  let window := set_platform_handle window child_window in
  let g := set_renderers (<[child_window := renderer]> (g_renderers g)) g in
  (true, window, send [Flush] g).

(** [embedded_terminal::platform_update_window] *)
Definition platform_update_window (x : answers) (window : editor_window)
    (g : globals) : globals :=
  match g_renderers g !! platform_handle window with
  | Some r => send (render r (content window)) g
  | None => g
  end.

(** [embedded_terminal::platform_resize_window] *)
Definition platform_resize_window (window : editor_window) (width height : Z)
    (g : globals) : globals :=
  let x_window := platform_handle window in
  if negb (N.eqb x_window 0) && g_display g then
    let g := send [ResizeWindow x_window width height] g in
    let g :=
      match g_renderers g !! x_window with
      | Some r => set_renderers (<[x_window := resize r width height]>
                                   (g_renderers g)) g
      | None => g
      end in
    send [Flush] g
  else g.

(** [embedded_terminal::platform_show_window] *)
Definition platform_show_window (window : editor_window) (visible : bool)
    (g : globals) : globals :=
  let x_window := platform_handle window in
  if negb (N.eqb x_window 0) && g_display g then
    send [if visible then MapWindow x_window else UnmapWindow x_window; Flush] g
  else g.

(** [embedded_terminal::platform_destroy_window] *)
Definition platform_destroy_window (window : editor_window) (g : globals)
  : editor_window * globals :=
  let x_window := platform_handle window in
  if negb (N.eqb x_window 0) && g_display g then
    let g := set_renderers (delete x_window (g_renderers g)) g in
    (set_platform_handle window nullptr,
     send [DestroyWindow x_window; Flush] g)
  else (window, g).

(** The backend that is compiled under [__linux__]. *)
#[local] Instance platform : Platform := {|
  statics := globals;
  native := answers;
  statics_init := {| g_renderers := ∅; g_display := false; sent := [] |};
  Terminal.platform_initialize := platform_initialize;
  Terminal.platform_shutdown := platform_shutdown;
  Terminal.platform_create_window := platform_create_window;
  Terminal.platform_update_window := platform_update_window;
  Terminal.platform_resize_window := platform_resize_window;
  Terminal.platform_show_window := platform_show_window;
  Terminal.platform_destroy_window := platform_destroy_window;
  parent_handle_of := Editor.x11;
|}.

(** The texts of the strings that a list of requests draws, in order. *)
Definition drawn_text (rs : list request) : list string :=
  omap (λ r, match r with DrawStringUtf8 _ _ _ text => Some text | _ => None end)
       rs.

(** Whether a string has a newline. *)
Fixpoint has_newline (s : string) : bool :=
  match s with
  | EmptyString => false
  | String c s => Ascii.eqb c newline || has_newline s
  end.

(** The lines of a list, each followed by a newline. *)
Fixpoint unlines (lines : list string) : string :=
  match lines with
  | [] => EmptyString
  | line :: lines => line +:+ String newline (unlines lines)
  end.

(** In the words of the specification: how many lines fit the height of the
    window, and the request that draws line [i] (counted from 0) with the
    left margin of 5 pixels, one line height below the line before it; an
    empty line takes its height and draws nothing. *)
Definition lines_that_fit (r : LinuxTerminalRenderer) : nat :=
  Z.to_nat (height_ r / char_height_ r).

Definition draw_line (r : LinuxTerminalRenderer) (i : nat) (line : string)
  : list request :=
  if String.eqb line "" then []
  else [DrawStringUtf8 (window_ r) 5 ((Z.of_nat i + 1) * char_height_ r) line].

End X11.

(** ** embedded-terminal-windows.cpp *)

Module Win32.
Import Terminal.

(** The window procedure [TerminalWindowProc] runs in the message loop of
    the host and is not part of the model. *)

(** The Win32 and Direct2D calls that change a window or its surface.
    [DrawTextLayout w x y text length max_width max_height]: the layout of
    the first [length] wide characters of the conversion of [text], in a box
    of [max_width] by [max_height], drawn at [(x, y)]. *)
Inductive request :=
| CreateChildWindow (parent : ptr) (x y width height : Z) (child : ptr)
| DestroyWindow (w : ptr)
| SetWindowPos (w : ptr) (width height : Z)
| ShowWindow (w : ptr) (show : bool)
| InvalidateRect (w : ptr)
| BeginDraw (w : ptr)
| Clear (w : ptr)
| DrawTextLayout (w : ptr) (x y : float) (text : string) (length : Z)
                 (max_width max_height : float)
| EndDraw (w : ptr)
| ResizeTarget (w : ptr) (width height : Z)
| UnregisterClass.

(** What Win32, Direct2D and DirectWrite answer during one call; a [bool]
    is [SUCCEEDED(hr)].  [CreateWindowEx parent]: the new handle, [0] on
    failure.  [GetMetrics]: width and height of the layout of "M", [None]
    when that layout cannot be created.  [MultiByteToWideChar content]: the
    number of wide characters of the conversion of [content.c_str()], which
    ends at the first NUL character, the terminator included. *)
Record answers := {
  RegisterClassEx : bool;
  CreateWindowEx : ptr → ptr;
  D2D1CreateFactory : bool;
  DWriteCreateFactory : bool;
  CreateTextFormat : string → bool;
  CreateHwndRenderTarget : bool;
  CreateSolidColorBrush : string → bool;
  GetMetrics : option (float * float);
  MultiByteToWideChar : string → Z;
  CreateTextLayout : bool;
}.

(** [class WindowsTerminalRenderer]; a [ComPtr] is kept as "non-null". *)
Record WindowsTerminalRenderer := {
  hwnd_ : ptr;
  d2d_factory_ : bool;
  render_target_ : bool;
  dwrite_factory_ : bool;
  text_format_ : bool;
  text_brush_ : bool;
  background_brush_ : bool;
  char_width_ : float;
  char_height_ : float;
}.

(** [WindowsTerminalRenderer::WindowsTerminalRenderer(hwnd)] *)
Definition renderer_new (hwnd : ptr) : WindowsTerminalRenderer :=
  {| hwnd_ := hwnd; d2d_factory_ := false; render_target_ := false;
     dwrite_factory_ := false; text_format_ := false; text_brush_ := false;
     background_brush_ := false;
     char_width_ := 8%float; char_height_ := 16%float |}.

(** [WindowsTerminalRenderer::initialize] *)
Definition renderer_initialize (x : answers) (r : WindowsTerminalRenderer)
  : bool * WindowsTerminalRenderer :=
  let mk d2d rt dw tf tb bb cw ch :=
    {| hwnd_ := hwnd_ r; d2d_factory_ := d2d; render_target_ := rt;
       dwrite_factory_ := dw; text_format_ := tf; text_brush_ := tb;
       background_brush_ := bb; char_width_ := cw; char_height_ := ch |} in
  let cw := char_width_ r in
  let ch := char_height_ r in
  if negb (D2D1CreateFactory x) then (false, r) else
  if negb (DWriteCreateFactory x)
  then (false, mk true false false false false false cw ch) else
  let hr :=
    if CreateTextFormat x "Consolas" then true
    else CreateTextFormat x "Courier New" in
  if negb hr then (false, mk true false true false false false cw ch) else
  if negb (CreateHwndRenderTarget x)
  then (false, mk true false true true false false cw ch) else
  if negb (CreateSolidColorBrush x "White")
  then (false, mk true true true true false false cw ch) else
  if negb (CreateSolidColorBrush x "Black")
  then (false, mk true true true true true false cw ch) else
  match GetMetrics x with
  | Some (mw, mh) => (true, mk true true true true true true mw mh)
  | None => (true, mk true true true true true true cw ch)
  end.

(** [WindowsTerminalRenderer::render]: the calls it makes. *)
Definition render (x : answers) (r : WindowsTerminalRenderer)
    (content : string) : list request :=
  if negb (render_target_ r) then []
  else
    [BeginDraw (hwnd_ r); Clear (hwnd_ r)]
    ++ (let wide_size := MultiByteToWideChar x content in
        if wide_size >? 0 then
          if CreateTextLayout x then
            [DrawTextLayout (hwnd_ r) 5%float 5%float content (wide_size - 1)
                            1000%float 1000%float]
          else []
        else [])
    ++ [EndDraw (hwnd_ r)].

(** [WindowsTerminalRenderer::resize]: the calls it makes. *)
Definition resize (r : WindowsTerminalRenderer) (width height : Z)
  : list request :=
  if render_target_ r then [ResizeTarget (hwnd_ r) width height] else [].

(** The statics [g_renderers] and [g_class_registered] of the file, and the
    calls made so far. *)
Record globals := {
  g_renderers : gmap ptr WindowsTerminalRenderer;
  g_class_registered : bool;
  sent : list request;
}.

Definition send (rs : list request) (g : globals) : globals :=
  {| g_renderers := g_renderers g;
     g_class_registered := g_class_registered g; sent := sent g ++ rs |}.

Definition set_renderers (m : gmap ptr WindowsTerminalRenderer) (g : globals)
  : globals :=
  {| g_renderers := m; g_class_registered := g_class_registered g;
     sent := sent g |}.

Definition set_class_registered (b : bool) (g : globals) : globals :=
  {| g_renderers := g_renderers g; g_class_registered := b; sent := sent g |}.

(** [embedded_terminal::platform_initialize] *)
Definition platform_initialize (x : answers) (g : globals) : bool * globals :=
  if negb (g_class_registered g) then
    if negb (RegisterClassEx x) then (false, g)
    else (true, set_class_registered true g)
  else (true, g).

(** [embedded_terminal::platform_shutdown] *)
Definition platform_shutdown (g : globals) : globals :=
  let g := set_renderers ∅ g in
  if g_class_registered g
  then set_class_registered false (send [UnregisterClass] g)
  else g.

(** [embedded_terminal::platform_create_window] *)
Definition platform_create_window (x : answers) (window : editor_window)
    (parent_handle : ptr) (px py width height : Z) (g : globals)
  : bool * editor_window * globals :=
  let parent_hwnd := parent_handle in
  if N.eqb parent_hwnd 0 then (false, window, g) else
  let child_hwnd := CreateWindowEx x parent_hwnd in
  let g := send [CreateChildWindow parent_hwnd px py width height
                                   child_hwnd] g in
  if N.eqb child_hwnd 0 then (false, window, g) else
  let '(ok, renderer) := renderer_initialize x (renderer_new child_hwnd) in
  if negb ok then (false, window, send [DestroyWindow child_hwnd] g) else
  let window := set_platform_handle window child_hwnd in
  let g := set_renderers (<[child_hwnd := renderer]> (g_renderers g)) g in
  (true, window, g).

(** [embedded_terminal::platform_update_window] *)
Definition platform_update_window (x : answers) (window : editor_window)
    (g : globals) : globals :=
  match g_renderers g !! platform_handle window with
  | Some r =>
      send (render x r (content window)
            ++ [InvalidateRect (platform_handle window)]) g
  | None => g
  end.

(** [embedded_terminal::platform_resize_window] *)
Definition platform_resize_window (window : editor_window) (width height : Z)
    (g : globals) : globals :=
  let hwnd := platform_handle window in
  if negb (N.eqb hwnd 0) then
    let g := send [SetWindowPos hwnd width height] g in
    match g_renderers g !! hwnd with
    | Some r => send (resize r width height) g
    | None => g
    end
  else g.

(** [embedded_terminal::platform_show_window] *)
Definition platform_show_window (window : editor_window) (visible : bool)
    (g : globals) : globals :=
  let hwnd := platform_handle window in
  if negb (N.eqb hwnd 0) then send [ShowWindow hwnd visible] g else g.

(** [embedded_terminal::platform_destroy_window] *)
Definition platform_destroy_window (window : editor_window) (g : globals)
  : editor_window * globals :=
  let hwnd := platform_handle window in
  if negb (N.eqb hwnd 0) then
    let g := set_renderers (delete hwnd (g_renderers g)) g in
    (set_platform_handle window nullptr, send [DestroyWindow hwnd] g)
  else (window, g).

(** The backend that is compiled under [_WIN32]. *)
#[local] Instance platform : Platform := {|
  statics := globals;
  native := answers;
  statics_init := {| g_renderers := ∅; g_class_registered := false; sent := [] |};
  Terminal.platform_initialize := platform_initialize;
  Terminal.platform_shutdown := platform_shutdown;
  Terminal.platform_create_window := platform_create_window;
  Terminal.platform_update_window := platform_update_window;
  Terminal.platform_resize_window := platform_resize_window;
  Terminal.platform_show_window := platform_show_window;
  Terminal.platform_destroy_window := platform_destroy_window;
  parent_handle_of := Editor.win32;
|}.

(** The strings that the layouts drawn by a list of calls are made from, in
    order; a layout has the first [length] wide characters of its string. *)
Definition drawn_text (rs : list request) : list string :=
  omap (λ r, match r with
             | DrawTextLayout _ _ _ text _ _ _ => Some text
             | _ => None
             end) rs.

End Win32.

(** ** ftxui-clap-support.cpp *)

Module Support.
Import Terminal.

(** [struct FTXUIContext] *)
Record FTXUIContext := {
  editor : ptr;
  component : Editor.Component;
  terminal : option embedded_terminal;
  cols : Z;
  rows : Z;
  visible : bool;
}.

(** [FTXUIContext::FTXUIContext(ed)] *)
Definition FTXUIContext_new (ed : ptr) : FTXUIContext :=
  {| editor := ed; component := nullptr; terminal := None;
     cols := 80; rows := 24; visible := false |}.

Definition set_component (k : Editor.Component) (c : FTXUIContext) : FTXUIContext :=
  {| editor := editor c; component := k; terminal := terminal c;
     cols := cols c; rows := rows c; visible := visible c |}.

Definition set_terminal (t : option embedded_terminal) (c : FTXUIContext)
  : FTXUIContext :=
  {| editor := editor c; component := component c; terminal := t;
     cols := cols c; rows := rows c; visible := visible c |}.

Definition set_cols_rows (n m : Z) (c : FTXUIContext) : FTXUIContext :=
  {| editor := editor c; component := component c; terminal := terminal c;
     cols := n; rows := m; visible := visible c |}.

Definition set_visible (v : bool) (c : FTXUIContext) : FTXUIContext :=
  {| editor := editor c; component := component c; terminal := terminal c;
     cols := cols c; rows := rows c; visible := v |}.

(** [struct parameter_update] *)
Record parameter_update := {
  param_id : N;
  value : float;
  update_editor : ptr;
}.

(** The calls of the library into the hooks of an editor that return
    nothing, and the call of the component factory. *)
Inductive hook_call :=
| onGuiCreate (editor : ptr)
| onGuiDestroy (editor : ptr)
| onCreateComponent (editor : ptr)
| onParameterUpdate (editor : ptr).

Section support.
Context {P : Platform}.

(** The editor object behind each address: its virtual functions.  The one
    data member, [ctx], changes and is part of the state below. *)
Variable obj : ptr → Editor.ftxui_clap_editor.

(** What the outside answers during one call of the library or one iteration
    of the render thread: the native API, FTXUI's
    [Render(screen, component->Render()); screen.ToString()] for a component
    on a screen of the given columns and rows, and whether the constructor of
    [std::thread] starts the thread rather than throw. *)
Record world := {
  api : native;
  Screen_ToString : Editor.Component → Z → Z → string;
  thread_starts : bool;
}.

(** The globals of the file, the [ctx] member of every editor object (absent
    when it is [nullptr]), the statics of the backend, and the hook calls
    made so far.  [g_render_thread] is whether the thread is running.
    [leaked] are the contexts that were allocated, that no editor points to
    any more and that were never deleted. *)
Record state := {
  g_terminal : option embedded_terminal;
  g_active_editors : list ptr;
  g_render_thread : bool;
  g_should_stop : bool;
  g_parameter_queue : list parameter_update;
  ctx : gmap ptr FTXUIContext;
  backend : statics;
  calls : list hook_call;
  leaked : list FTXUIContext;
}.

(** The state when the library is loaded. *)
Definition init : state :=
  {| g_terminal := None; g_active_editors := []; g_render_thread := false;
     g_should_stop := false; g_parameter_queue := []; ctx := ∅;
     backend := statics_init; calls := []; leaked := [] |}.

Definition set_g_terminal (t : option embedded_terminal) (s : state) : state :=
  {| g_terminal := t; g_active_editors := g_active_editors s;
     g_render_thread := g_render_thread s; g_should_stop := g_should_stop s;
     g_parameter_queue := g_parameter_queue s; ctx := ctx s;
     backend := backend s; calls := calls s; leaked := leaked s |}.

Definition set_g_active_editors (l : list ptr) (s : state) : state :=
  {| g_terminal := g_terminal s; g_active_editors := l;
     g_render_thread := g_render_thread s; g_should_stop := g_should_stop s;
     g_parameter_queue := g_parameter_queue s; ctx := ctx s;
     backend := backend s; calls := calls s; leaked := leaked s |}.

Definition set_thread (running stop : bool) (s : state) : state :=
  {| g_terminal := g_terminal s; g_active_editors := g_active_editors s;
     g_render_thread := running; g_should_stop := stop;
     g_parameter_queue := g_parameter_queue s; ctx := ctx s;
     backend := backend s; calls := calls s; leaked := leaked s |}.

Definition set_g_parameter_queue (q : list parameter_update) (s : state) : state :=
  {| g_terminal := g_terminal s; g_active_editors := g_active_editors s;
     g_render_thread := g_render_thread s; g_should_stop := g_should_stop s;
     g_parameter_queue := q; ctx := ctx s;
     backend := backend s; calls := calls s; leaked := leaked s |}.

Definition set_ctx (m : gmap ptr FTXUIContext) (s : state) : state :=
  {| g_terminal := g_terminal s; g_active_editors := g_active_editors s;
     g_render_thread := g_render_thread s; g_should_stop := g_should_stop s;
     g_parameter_queue := g_parameter_queue s; ctx := m;
     backend := backend s; calls := calls s; leaked := leaked s |}.

Definition set_backend (g : statics) (s : state) : state :=
  {| g_terminal := g_terminal s; g_active_editors := g_active_editors s;
     g_render_thread := g_render_thread s; g_should_stop := g_should_stop s;
     g_parameter_queue := g_parameter_queue s; ctx := ctx s;
     backend := g; calls := calls s; leaked := leaked s |}.

Definition set_calls (l : list hook_call) (s : state) : state :=
  {| g_terminal := g_terminal s; g_active_editors := g_active_editors s;
     g_render_thread := g_render_thread s; g_should_stop := g_should_stop s;
     g_parameter_queue := g_parameter_queue s; ctx := ctx s;
     backend := backend s; calls := l; leaked := leaked s |}.

Definition set_leaked (l : list FTXUIContext) (s : state) : state :=
  {| g_terminal := g_terminal s; g_active_editors := g_active_editors s;
     g_render_thread := g_render_thread s; g_should_stop := g_should_stop s;
     g_parameter_queue := g_parameter_queue s; ctx := ctx s;
     backend := backend s; calls := calls s; leaked := l |}.

Definition call_hook (h : hook_call) (s : state) : state :=
  set_calls (calls s ++ [h]) s.

(** [std::to_string(reinterpret_cast<uintptr_t>(editor))] *)
Definition editor_id (editor : ptr) : string := pretty editor.

(** The first block of the body of [render_loop]: the loop
    [while (!g_parameter_queue.empty())] that pops the front of the queue and
    calls [onParameterUpdate] on its editor when that is not null.  Returns
    the queue and the call log when the loop ends. *)
Fixpoint process_parameter_updates (queue : list parameter_update)
    (log : list hook_call) : list parameter_update * list hook_call :=
  match queue with
  | [] => (queue, log)
  | update :: queue =>
      process_parameter_updates queue
        (if N.eqb (update_editor update) 0 then log
         else log ++ [onParameterUpdate (update_editor update)])
  end.

(** The body of the loop [for (auto editor : active_editors)] of
    [render_loop]. *)
Definition render_editor (w : world) (editor : ptr) (s : state) : state :=
  if N.eqb editor 0 then s else
  match ctx s !! editor with
  | None => s
  | Some c =>
      if visible c && negb (N.eqb (component c) 0) then
        let output := Screen_ToString w (component c) (cols c) (rows c) in
        match g_terminal s with
        | Some t =>
            let '(t, g) :=
              update_content (api w) (editor_id editor) output t (backend s) in
            set_backend g (set_g_terminal (Some t) s)
        | None => s
        end
      else s
  end.

(** One iteration of [while (!g_should_stop)] in [render_loop], up to the
    sleep. *)
Definition render_loop_iteration (w : world) (s : state) : state :=
  let '(queue, log) :=
    process_parameter_updates (g_parameter_queue s) (calls s) in
  let s := set_calls log (set_g_parameter_queue queue s) in
  let active_editors := g_active_editors s in
  foldl (λ s editor, render_editor w editor s) s active_editors.

(** [ftxui_clap_support::initialize].  [g_terminal.reset()] runs the
    destructor of the terminal, which is [shutdown].  When the constructor of
    [std::thread] throws, the [catch] returns [false]: the global terminal is
    set and the stop flag is cleared by then, and no thread runs.  The
    exception of the allocator is not modelled. *)
Definition initialize (w : world) (s : state) : bool * state :=
  match g_terminal s with
  | Some _ => (true, s)
  | None =>
      let '(ok, g) := Terminal.initialize (api w) (backend s) in
      if negb ok then
        let '(_, g) := Terminal.shutdown new g in
        (false, set_backend g s)
      else if thread_starts w then
        (true, set_thread true false (set_backend g (set_g_terminal (Some new) s)))
      else
        (false, set_thread (g_render_thread s) false
                  (set_backend g (set_g_terminal (Some new) s)))
  end.

(** [ftxui_clap_support::shutdown] *)
Definition shutdown (s : state) : state :=
  let s := set_thread false true s in
  let s := set_g_active_editors [] s in
  let s := set_g_parameter_queue [] s in
  match g_terminal s with
  | Some t =>
      let '(_, g) := Terminal.shutdown t (backend s) in
      set_backend g (set_g_terminal None s)
  | None => s
  end.

(** [ftxui_clap_support::register_editor] *)
Definition register_editor (editor : ptr) (s : state) : state :=
  set_g_active_editors (g_active_editors s ++ [editor]) s.

(** [ftxui_clap_support::unregister_editor]: [std::remove] and [erase] take
    out every element equal to [editor]. *)
Definition unregister_editor (editor : ptr) (s : state) : state :=
  set_g_active_editors (filter (λ e, e ≠ editor) (g_active_editors s)) s.

(** [ftxui_clap_support::queue_parameter_update] *)
Definition queue_parameter_update (param_id : N) (value : float)
    (editor : ptr) (s : state) : state :=
  set_g_parameter_queue
    (g_parameter_queue s
     ++ [{| param_id := param_id; value := value; update_editor := editor |}]) s.

(** The audio thread queues the updates of a list, first to last. *)
Definition queue_parameter_updates (updates : list parameter_update)
    (s : state) : state :=
  foldl (λ s u,
           queue_parameter_update (param_id u) (value u) (update_editor u) s)
        s updates.

(** The calls of [onParameterUpdate] that a list of updates asks for: one
    for each update whose editor is not null, in the order of the list. *)
Definition deliveries (updates : list parameter_update) : list hook_call :=
  onParameterUpdate <$> filter (λ e, e ≠ 0%N) (update_editor <$> updates).

(** [ftxui_clap_guiCreateWith]; [timer] and [options] are not read.
    [editor->ctx = ctx.release()] overwrites the pointer: a context that the
    editor had before stays allocated and is not reachable any more. *)
Definition ftxui_clap_guiCreateWith (w : world) (editor : ptr) (s : state)
  : bool * state :=
  if N.eqb editor 0 then (false, s) else
  let '(ok, s) := initialize w s in
  if negb ok then (false, s) else
  let s :=
    match ctx s !! editor with
    | Some old => set_leaked (leaked s ++ [old]) s
    | None => s
    end in
  let s := set_ctx (<[editor := FTXUIContext_new editor]> (ctx s)) s in
  let s := register_editor editor s in
  let s := call_hook (onGuiCreate editor) s in
  let s := call_hook (onCreateComponent editor) s in
  let s :=
    set_ctx (alter (set_component (Editor.onCreateComponent (obj editor)))
                   editor (ctx s)) s in
  (true, s).

(** [ftxui_clap_guiDestroyWith]; [delete ctx] runs the destructor of the
    terminal of the context, when it has one. *)
Definition ftxui_clap_guiDestroyWith (editor : ptr) (s : state) : state :=
  if N.eqb editor 0 then s else
  match ctx s !! editor with
  | None => s
  | Some c =>
      let s := call_hook (onGuiDestroy editor) s in
      let '(t, g) :=
        match terminal c with
        | Some t =>
            let '(t, g) := remove_editor (editor_id editor) t (backend s) in
            (Some t, g)
        | None => (None, backend s)
        end in
      let s := set_backend g s in
      let s := unregister_editor editor s in
      let g :=
        match t with
        | Some t => (Terminal.shutdown t (backend s)).2
        | None => backend s
        end in
      set_ctx (delete editor (ctx s)) (set_backend g s)
  end.

(** [ftxui_clap_guiSetParentWith]; [window] is [None] for a null pointer.
    The products [cols * 8] and [rows * 16] are those of the code while they
    are in [int_range]; beyond it the [int] product of the code overflows. *)
Definition ftxui_clap_guiSetParentWith (w : world) (editor : ptr)
    (window : option Editor.clap_window) (s : state) : bool * state :=
  if N.eqb editor 0 then (false, s) else
  match ctx s !! editor, window with
  | None, _ => (false, s)
  | Some _, None => (false, s)
  | Some c, Some window =>
      let '(ready, t, g) :=
        match terminal c with
        | Some t => (true, t, backend s)
        | None =>
            let '(ok, g) := Terminal.initialize (api w) (backend s) in
            (ok, new, g)
        end in
      if negb ready then
        (false, set_backend g
                  (set_ctx (<[editor := set_terminal (Some t) c]> (ctx s)) s))
      else
        let parent_handle := parent_handle_of window in
        if negb (N.eqb parent_handle 0) then
          let '(ok, t, g) :=
            create_window (api w) (editor_id editor) parent_handle 0 0
                          (cols c * 8) (rows c * 16) t g in
          (ok, set_backend g
                 (set_ctx (<[editor := set_terminal (Some t) c]> (ctx s)) s))
        else
          (false, set_backend g
                    (set_ctx (<[editor := set_terminal (Some t) c]> (ctx s)) s))
  end.

(** [ftxui_clap_guiSetSizeWith] *)
Definition ftxui_clap_guiSetSizeWith (editor : ptr) (width height : Z)
    (s : state) : bool * state :=
  if N.eqb editor 0 then (false, s) else
  match ctx s !! editor with
  | None => (false, s)
  | Some c =>
      let cols := width ÷ 8 in
      let rows := height ÷ 16 in
      let cols := Z.max 40 (Z.min 120 cols) in
      let rows := Z.max 10 (Z.min 40 rows) in
      let '(adjusted, (cols, rows)) := Editor.adjustSize (obj editor) cols rows in
      let '(cols, rows) :=
        if negb adjusted then Editor.getPreferredSize (obj editor) cols rows
        else (cols, rows) in
      (true, set_ctx (<[editor := set_cols_rows cols rows c]> (ctx s)) s)
  end.

(** [ftxui_clap_guiShowWith] *)
Definition ftxui_clap_guiShowWith (editor : ptr) (s : state) : bool * state :=
  if N.eqb editor 0 then (false, s) else
  match ctx s !! editor with
  | None => (false, s)
  | Some c => (true, set_ctx (<[editor := set_visible true c]> (ctx s)) s)
  end.

(** [ftxui_clap_guiHideWith] *)
Definition ftxui_clap_guiHideWith (editor : ptr) (s : state) : bool * state :=
  if N.eqb editor 0 then (false, s) else
  match ctx s !! editor with
  | None => (false, s)
  | Some c => (true, set_ctx (<[editor := set_visible false c]> (ctx s)) s)
  end.

(** [ftxui_clap_guiGetSizeWith]: [width] and [height] are the values that
    the two references hold before the call; the result has the values they
    hold after it.  The state is only read.  The products are those of the
    code while they are in [int_range]. *)
Definition ftxui_clap_guiGetSizeWith (editor : ptr) (width height : Z)
    (s : state) : bool * (Z * Z) :=
  if N.eqb editor 0 then (false, (width, height)) else
  match ctx s !! editor with
  | None => (false, (width, height))
  | Some c => (true, (cols c * 8, rows c * 16))
  end.

(** What can happen to the library: the host calls one of the seven boundary
    operations, the audio thread queues a parameter update, or the render
    thread runs one iteration of its loop. *)
Inductive call :=
| guiCreateWith (editor : ptr)
| guiDestroyWith (editor : ptr)
| guiSetParentWith (editor : ptr) (window : option Editor.clap_window)
| guiSetSizeWith (editor : ptr) (width height : Z)
| guiShowWith (editor : ptr)
| guiHideWith (editor : ptr)
| guiGetSizeWith (editor : ptr)
| queue_update (param_id : N) (value : float) (editor : ptr)
| render_loop.

(** The state after one call.  The render thread runs between its start in
    [initialize] and the stop flag. *)
Definition step (s : state) (wc : world * call) : state :=
  let '(w, c) := wc in
  match c with
  | guiCreateWith editor => (ftxui_clap_guiCreateWith w editor s).2
  | guiDestroyWith editor => ftxui_clap_guiDestroyWith editor s
  | guiSetParentWith editor window =>
      (ftxui_clap_guiSetParentWith w editor window s).2
  | guiSetSizeWith editor width height =>
      (ftxui_clap_guiSetSizeWith editor width height s).2
  | guiShowWith editor => (ftxui_clap_guiShowWith editor s).2
  | guiHideWith editor => (ftxui_clap_guiHideWith editor s).2
  | guiGetSizeWith editor => s
  | queue_update param_id value editor =>
      queue_parameter_update param_id value editor s
  | render_loop =>
      if g_render_thread s && negb (g_should_stop s)
      then render_loop_iteration w s else s
  end.

(** The state after a sequence of calls, each with the answers of the
    outside during it. *)
Definition run (trace : list (world * call)) (s : state) : state :=
  foldl step s trace.

(** The record that the global terminal keeps under an identifier. *)
Definition global_record (s : state) (id : string) : option editor_window :=
  match g_terminal s with
  | Some t => editors_ t !! id
  | None => None
  end.

(** The record that the terminal of the context of [editor] keeps under an
    identifier. *)
Definition context_record (s : state) (editor : ptr) (id : string)
  : option editor_window :=
  match ctx s !! editor with
  | Some c =>
      match terminal c with
      | Some t => editors_ t !! id
      | None => None
      end
  | None => None
  end.



(** What holds of every state that the calls reach: an active editor has a
    context, the null pointer has none, the global terminal keeps no window
    record, and the terminal of a context keeps records only under the
    identifier of its editor. *)
Definition consistent (s : state) : Prop :=
  (∀ e, e ∈ g_active_editors s → is_Some (ctx s !! e))
  ∧ ctx s !! 0%N = None
  ∧ (∀ t, g_terminal s = Some t → editors_ t = ∅)
  ∧ (∀ e c t id,
       ctx s !! e = Some c → terminal c = Some t →
       is_Some (editors_ t !! id) → id = editor_id e).

(** Whether every [guiCreateWith] of the trace is called on an editor that
    has no context at that point. *)
Fixpoint creates_without_context (trace : list (world * call)) (s : state)
  : bool :=
  match trace with
  | [] => true
  | (w, c) :: trace =>
      match c with
      | guiCreateWith editor => bool_decide (ctx s !! editor = None)
      | _ => true
      end && creates_without_context trace (step s (w, c))
  end.

End support.

End Support.

(** ** Concrete runs *)

Module Sample.

(** An X server that answers every request with success: root window 1, a
    new window has the identifier of its parent plus 100, windows are 640 by
    384 pixels, every font opens with an 8 by 16 cell. *)
Definition x11_up : X11.answers :=
  {| X11.XOpenDisplay := true;
     X11.DefaultRootWindow := 1%N;
     X11.XCreateSimpleWindow := λ parent, (parent + 100)%N;
     X11.XGetWindowAttributes := Some (640, 384);
     X11.XCreateGC := true;
     X11.XftDrawCreate := true;
     X11.XftFontOpenName := λ _, Some (8, 16) |}.

(** A Windows session in which every call succeeds. *)
Definition win32_up : Win32.answers :=
  {| Win32.RegisterClassEx := true;
     Win32.CreateWindowEx := λ parent, (parent + 100)%N;
     Win32.D2D1CreateFactory := true;
     Win32.DWriteCreateFactory := true;
     Win32.CreateTextFormat := λ _, true;
     Win32.CreateHwndRenderTarget := true;
     Win32.CreateSolidColorBrush := λ _, true;
     Win32.GetMetrics := None;
     Win32.MultiByteToWideChar := λ content, Z.of_nat (String.length content) + 1;
     Win32.CreateTextLayout := true |}.

(** Editors that keep the default [getPreferredSize] and [adjustSize] and
    whose factory returns the component at address 9. *)
Definition plain (editor : ptr) : Editor.ftxui_clap_editor :=
  {| Editor.onCreateComponent := 9%N;
     Editor.getPreferredSize := Editor.default_getPreferredSize;
     Editor.adjustSize := Editor.default_adjustSize |}.

(** FTXUI draws every component as the text "ui", and the render thread
    starts. *)
Definition linux : Support.world (P := X11.platform) :=
  {| Support.api := x11_up : Terminal.native (Platform := X11.platform);
     Support.Screen_ToString := λ _ _ _, "ui";
     Support.thread_starts := true |}.

(** A host window whose native handle is 7 on every platform. *)
Definition host_window : Editor.clap_window :=
  {| Editor.cocoa := 7%N; Editor.x11 := 7%N; Editor.win32 := 7%N |}.

(** The text of three lines "a", "b" and "c". *)
Definition abc : string :=
  String "a" (String X11.newline (String "b" (String X11.newline "c"))).

(** An initialised Linux renderer for window 107 of 640 by [height] pixels
    with a cell of 8 by 16 pixels. *)
Definition linux_renderer (height : Z) : X11.LinuxTerminalRenderer :=
  {| X11.window_ := 107%N; X11.xft_draw_ := true; X11.font_ := true;
     X11.gc_ := true; X11.char_width_ := 8; X11.char_height_ := 16;
     X11.width_ := 640; X11.height_ := height |}.

(** The Linux backend once the display is open. *)
Definition linux_open : X11.globals :=
  (X11.platform_initialize x11_up
     (Terminal.statics_init (Platform := X11.platform))).2.

(** The Windows backend once the window class is registered. *)
Definition windows_registered : Win32.globals :=
  (Win32.platform_initialize win32_up
     (Terminal.statics_init (Platform := Win32.platform))).2.

(** An initialised Windows renderer for window 107. *)
Definition windows_renderer : Win32.WindowsTerminalRenderer :=
  (Win32.renderer_initialize win32_up (Win32.renderer_new 107%N)).2.

(** An X server as [x11_up] on which no font opens. *)
Definition x11_no_font : X11.answers :=
  {| X11.XOpenDisplay := true;
     X11.DefaultRootWindow := 1%N;
     X11.XCreateSimpleWindow := λ parent, (parent + 100)%N;
     X11.XGetWindowAttributes := Some (640, 384);
     X11.XCreateGC := true;
     X11.XftDrawCreate := true;
     X11.XftFontOpenName := λ _, None |}.

(** The registry and the Linux backend after the window of identifier "1"
    is created under the host window 7. *)
Definition linux_window : bool * Terminal.embedded_terminal * X11.globals :=
  Terminal.create_window (P := X11.platform) x11_up "1" 7%N 0 0 640 384
    Terminal.new linux_open.


(** The library on Linux after editors 1 and 2 are created and editor 1 has
    its window under the host window. *)
Definition two_editors : Support.state (P := X11.platform) :=
  Support.run plain
    [(linux, Support.guiCreateWith 1%N);
     (linux, Support.guiCreateWith 2%N);
     (linux, Support.guiSetParentWith 1%N (Some host_window))]
    Support.init.

(** The library on Linux after editors 1 and 2 have their windows and
    editor 1 is destroyed. *)
Definition after_destroy : Support.state (P := X11.platform) :=
  Support.run plain
    [(linux, Support.guiSetParentWith 2%N (Some host_window));
     (linux, Support.guiDestroyWith 1%N)]
    two_editors.

End Sample.

(** * Properties *)

(** ** The window registry *)

Section registry_properties.
Context {P : Terminal.Platform}.
Import Terminal.

(** C4.  In every registry, with every state of the backend, each of
    [update_content], [resize_window], [show_window] and [remove_editor]
    called with an identifier that the map [editors_] does not hold returns
    and leaves the registry and the backend as they were. *)
Theorem unknown_identifier_is_noop (x : native) (t : embedded_terminal)
    (g : statics) (editor_id : string) :
  editors_ t !! editor_id = None →
  (∀ content, update_content x editor_id content t g = (t, g))
  ∧ (∀ width height, resize_window editor_id width height t g = (t, g))
  ∧ (∀ visible, show_window editor_id visible t g = (t, g))
  ∧ remove_editor editor_id t g = (t, g).
Proof.
  intros Hnone.
  unfold update_content, resize_window, show_window, remove_editor.
  rewrite Hnone. auto.
Qed.

(** After [remove_editor] the registry has no record under the
    identifier. *)
Lemma remove_editor_no_record (editor_id : string) (t : embedded_terminal)
    (g : statics) :
  editors_ (remove_editor editor_id t g).1 !! editor_id = None.
Proof.
  unfold remove_editor.
  destruct (editors_ t !! editor_id) as [w|] eqn:Hw; [|exact Hw].
  destruct (platform_destroy_window w g). simpl. apply lookup_delete_eq.
Qed.

End registry_properties.

(** A registry that holds a window for editor 1 does not know editor 2. *)
Lemma unknown_identifier_is_noop_witness :
  let t := {| Terminal.editors_ :=
                {[ "1" := {| Terminal.content := "ui";
                             Terminal.platform_handle := 107%N;
                             Terminal.width := 640; Terminal.height := 384;
                             Terminal.visible := false |} ]} |} in
  let g := Terminal.statics_init (Platform := X11.platform) in
  (∀ content,
     Terminal.update_content (P := X11.platform) Sample.x11_up "2" content t g
     = (t, g))
  ∧ (∀ width height,
       Terminal.resize_window (P := X11.platform) "2" width height t g = (t, g))
  ∧ (∀ visible,
       Terminal.show_window (P := X11.platform) "2" visible t g = (t, g))
  ∧ Terminal.remove_editor (P := X11.platform) "2" t g = (t, g).
Proof.
  intros t g.
  apply (unknown_identifier_is_noop (P := X11.platform)).
  reflexivity.
Defined.

(** ** The size negotiation *)

Section boundary_properties.
Context {P : Terminal.Platform}.
Variable obj : ptr → Editor.ftxui_clap_editor.
Import Support.

(** The default [adjustSize] answers [true] with a pair inside the bounds,
    and does not move a pair that is inside them. *)
Lemma default_adjustSize_bounds (cols rows : Z) :
  ∃ c r, Editor.default_adjustSize cols rows = (true, (c, r))
         ∧ 40 ≤ c ≤ 120 ∧ 10 ≤ r ≤ 40.
Proof.
  unfold Editor.default_adjustSize.
  eexists _, _. split; [reflexivity|].
  repeat case_match; lia.
Qed.

Lemma default_adjustSize_fixed (cols rows : Z) :
  40 ≤ cols ≤ 120 → 10 ≤ rows ≤ 40 →
  Editor.default_adjustSize cols rows = (true, (cols, rows)).
Proof.
  intros Hc Hr. unfold Editor.default_adjustSize.
  repeat case_match; repeat f_equal; lia.
Qed.

(** What [guiSetSizeWith] stores for an editor with the default
    [adjustSize]: the clamped quotients. *)
Lemma set_size_default (editor : ptr) (width height : Z) (s : state)
    (c : FTXUIContext) :
  editor ≠ 0%N →
  ctx s !! editor = Some c →
  (∀ cols rows,
     Editor.adjustSize (obj editor) cols rows
     = Editor.default_adjustSize cols rows) →
  ftxui_clap_guiSetSizeWith obj editor width height s
  = (true,
     set_ctx (<[editor := set_cols_rows (Z.max 40 (Z.min 120 (width ÷ 8)))
                                         (Z.max 10 (Z.min 40 (height ÷ 16))) c]>
                (ctx s)) s).
Proof.
  intros Hnz Hc Hadj. unfold ftxui_clap_guiSetSizeWith.
  apply N.eqb_neq in Hnz. rewrite Hnz, Hc, Hadj.
  rewrite default_adjustSize_fixed by lia. reflexivity.
Qed.

(** C1.  For an editor with a context whose [adjustSize] is the library
    default, [ftxui_clap_guiSetSizeWith] returns [true] for every pixel
    width and height, and the columns and rows stored afterwards lie in
    [[min_cols, max_cols]] = [[40, 120]] and [[min_rows, max_rows]] =
    [[10, 40]].  The default [adjustSize] returns [true], so
    [getPreferredSize] is not called, whatever it is. *)
Theorem set_size_within_bounds (editor : ptr) (width height : Z) (s : state)
    (c : FTXUIContext) :
  editor ≠ 0%N →
  ctx s !! editor = Some c →
  (∀ cols rows,
     Editor.adjustSize (obj editor) cols rows
     = Editor.default_adjustSize cols rows) →
  ∃ s' c',
    ftxui_clap_guiSetSizeWith obj editor width height s = (true, s')
    ∧ ctx s' !! editor = Some c'
    ∧ Editor.min_cols ≤ cols c' ≤ Editor.max_cols
    ∧ Editor.min_rows ≤ rows c' ≤ Editor.max_rows.
Proof.
  intros Hnz Hc Hadj.
  rewrite (set_size_default _ _ _ _ c) by assumption.
  eexists _, _. split; [reflexivity|]. split.
  - simpl. apply lookup_insert_eq.
  - unfold Editor.min_cols, Editor.max_cols, Editor.min_rows, Editor.max_rows.
    simpl. lia.
Qed.

(** C6.  For an editor whose [adjustSize] is the library default: after a
    [ftxui_clap_guiSetSizeWith] that returned [true],
    [ftxui_clap_guiGetSizeWith] returns [true] with a pixel size, and
    [ftxui_clap_guiSetSizeWith] with that pixel size returns [true] and
    leaves the stored columns and rows, and the whole state, as they
    were. *)
Theorem get_size_set_size_fixed_point (editor : ptr) (width height : Z)
    (w0 h0 : Z) (s s1 : state) :
  (∀ cols rows,
     Editor.adjustSize (obj editor) cols rows
     = Editor.default_adjustSize cols rows) →
  ftxui_clap_guiSetSizeWith obj editor width height s = (true, s1) →
  ∃ w h c1,
    ftxui_clap_guiGetSizeWith editor w0 h0 s1 = (true, (w, h))
    ∧ ctx s1 !! editor = Some c1
    ∧ ∃ s2 c2,
        ftxui_clap_guiSetSizeWith obj editor w h s1 = (true, s2)
        ∧ ctx s2 !! editor = Some c2
        ∧ (cols c2, rows c2) = (cols c1, rows c1)
        ∧ s2 = s1.
Proof.
  intros Hadj Hset.
  assert (editor ≠ 0%N) as Hnz.
  { intros ->. unfold ftxui_clap_guiSetSizeWith in Hset. simpl in Hset.
    discriminate. }
  destruct (ctx s !! editor) as [c|] eqn:Hc; cycle 1.
  { unfold ftxui_clap_guiSetSizeWith in Hset.
    apply N.eqb_neq in Hnz. rewrite Hnz, Hc in Hset. discriminate. }
  rewrite (set_size_default _ _ _ _ c) in Hset by assumption.
  injection Hset as <-.
  set (c1 := set_cols_rows _ _ c).
  assert (40 ≤ cols c1 ≤ 120 ∧ 10 ≤ rows c1 ≤ 40) as [Hcols Hrows]
    by (subst c1; simpl; lia).
  set (s1 := set_ctx _ s).
  assert (ctx s1 !! editor = Some c1) as Hc1 by apply lookup_insert_eq.
  exists (cols c1 * 8), (rows c1 * 16), c1. split; [|split; [exact Hc1|]].
  - unfold ftxui_clap_guiGetSizeWith.
    apply N.eqb_neq in Hnz. rewrite Hnz, Hc1. reflexivity.
  - assert (set_ctx (<[editor := c1]> (ctx s1)) s1 = s1) as Hsame.
    { rewrite insert_id by exact Hc1. destruct s; reflexivity. }
    exists s1, c1. split; [|auto].
    rewrite (set_size_default _ _ _ _ c1) by assumption.
    rewrite !Z.quot_mul by lia.
    rewrite (Z.min_r 120), (Z.max_r 40), (Z.min_r 40), (Z.max_r 10) by lia.
    replace (set_cols_rows (cols c1) (rows c1) c1) with c1
      by (destruct c1; reflexivity).
    rewrite Hsame. reflexivity.
Qed.

(** C10.  When the editor pointer is null, [guiCreateWith] returns [false];
    when the editor pointer is null or the editor has no context,
    [guiSetParentWith], [guiSetSizeWith], [guiShowWith] and [guiHideWith]
    return [false], [guiDestroyWith] returns, and all of them leave the
    whole state as it was; [guiGetSizeWith] returns [false] and leaves the
    two references at the values they had. *)
Theorem boundary_operations_guarded (w : world) (editor : ptr) (s : state) :
  editor = 0%N ∨ ctx s !! editor = None →
  (editor = 0%N → ftxui_clap_guiCreateWith obj w editor s = (false, s))
  ∧ ftxui_clap_guiDestroyWith editor s = s
  ∧ (∀ window, ftxui_clap_guiSetParentWith w editor window s = (false, s))
  ∧ (∀ width height,
       ftxui_clap_guiSetSizeWith obj editor width height s = (false, s))
  ∧ ftxui_clap_guiShowWith editor s = (false, s)
  ∧ ftxui_clap_guiHideWith editor s = (false, s)
  ∧ (∀ width height,
       ftxui_clap_guiGetSizeWith editor width height s
       = (false, (width, height))).
Proof.
  unfold ftxui_clap_guiCreateWith, ftxui_clap_guiDestroyWith,
    ftxui_clap_guiSetParentWith, ftxui_clap_guiSetSizeWith,
    ftxui_clap_guiShowWith, ftxui_clap_guiHideWith, ftxui_clap_guiGetSizeWith.
  intros [-> | Hnone].
  - simpl. repeat split; auto.
  - rewrite Hnone. repeat split; intros; try (subst; simpl); auto;
      destruct (N.eqb editor 0); reflexivity.
Qed.

End boundary_properties.

(** The editor 1 has a context after its [guiCreateWith] on Linux. *)
Lemma set_size_within_bounds_witness :
  let s := Support.run Sample.plain
             [(Sample.linux, Support.guiCreateWith 1%N)] Support.init in
  ∃ s' c',
    Support.ftxui_clap_guiSetSizeWith Sample.plain 1%N 100 50 s = (true, s')
    ∧ Support.ctx s' !! 1%N = Some c'
    ∧ Editor.min_cols ≤ Support.cols c' ≤ Editor.max_cols
    ∧ Editor.min_rows ≤ Support.rows c' ≤ Editor.max_rows.
Proof.
  intros s.
  apply (set_size_within_bounds Sample.plain 1%N 100 50 s
           (Support.set_component 9%N (Support.FTXUIContext_new 1%N))).
  - discriminate.
  - vm_compute. reflexivity.
  - reflexivity.
Defined.

(** The request of 100 by 50 pixels is stored as 40 by 10; the size reported
    for it, 320 by 160, is stored as 40 by 10 again. *)
Lemma get_size_set_size_fixed_point_witness :
  let s := Support.run Sample.plain
             [(Sample.linux, Support.guiCreateWith 1%N)] Support.init in
  let s1 := (Support.ftxui_clap_guiSetSizeWith Sample.plain 1%N 100 50 s).2 in
  ∃ w h c1,
    Support.ftxui_clap_guiGetSizeWith 1%N 0 0 s1 = (true, (w, h))
    ∧ Support.ctx s1 !! 1%N = Some c1
    ∧ ∃ s2 c2,
        Support.ftxui_clap_guiSetSizeWith Sample.plain 1%N w h s1 = (true, s2)
        ∧ Support.ctx s2 !! 1%N = Some c2
        ∧ (Support.cols c2, Support.rows c2) = (Support.cols c1, Support.rows c1)
        ∧ s2 = s1.
Proof.
  intros s s1.
  apply (get_size_set_size_fixed_point Sample.plain 1%N 100 50 0 0 s s1).
  - reflexivity.
  - vm_compute. reflexivity.
Defined.

(** The scenario of the specification: 640 by 384 pixels are 80 columns by
    24 rows, and 100 by 50 pixels are clamped to 40 by 10. *)
Example set_size_scenario :
  let s := Support.run Sample.plain
             [(Sample.linux, Support.guiCreateWith 1%N)] Support.init in
  let size s := (λ c, (Support.cols c, Support.rows c)) <$> Support.ctx s !! 1%N in
  size (Support.ftxui_clap_guiSetSizeWith Sample.plain 1%N 640 384 s).2
  = Some (80, 24)
  ∧ size (Support.ftxui_clap_guiSetSizeWith Sample.plain 1%N 100 50 s).2
    = Some (40, 10).
Proof. split; reflexivity. Qed.

(** The null pointer, before any editor is created. *)
Lemma boundary_operations_guarded_witness :
  let s := Support.init (P := X11.platform) in
  (0%N = 0%N →
   Support.ftxui_clap_guiCreateWith Sample.plain Sample.linux 0%N s = (false, s))
  ∧ Support.ftxui_clap_guiDestroyWith 0%N s = s
  ∧ (∀ window,
       Support.ftxui_clap_guiSetParentWith Sample.linux 0%N window s = (false, s))
  ∧ (∀ width height,
       Support.ftxui_clap_guiSetSizeWith Sample.plain 0%N width height s
       = (false, s))
  ∧ Support.ftxui_clap_guiShowWith 0%N s = (false, s)
  ∧ Support.ftxui_clap_guiHideWith 0%N s = (false, s)
  ∧ (∀ width height,
       Support.ftxui_clap_guiGetSizeWith 0%N width height s
       = (false, (width, height))).
Proof.
  intros s.
  apply (boundary_operations_guarded Sample.plain Sample.linux 0%N s).
  left. reflexivity.
Defined.

(** ** The parameter queue *)

Section queue_properties.
Context {P : Terminal.Platform}.
Import Support.

Lemma process_parameter_updates_spec (queue : list parameter_update)
    (log : list hook_call) :
  process_parameter_updates queue log = ([], log ++ deliveries queue).
Proof.
  revert log. induction queue as [|u queue IH]; intros log; simpl.
  - unfold deliveries. simpl. by rewrite app_nil_r.
  - rewrite IH. unfold deliveries. simpl.
    destruct (N.eqb_spec (update_editor u) 0) as [Hz|Hnz].
    + rewrite filter_cons_False by (intros H; apply H; exact Hz). reflexivity.
    + rewrite filter_cons_True by exact Hnz. simpl.
      by rewrite <- app_assoc.
Qed.

Lemma queue_parameter_updates_spec (updates : list parameter_update)
    (s : state) :
  queue_parameter_updates updates s
  = set_g_parameter_queue (g_parameter_queue s ++ updates) s.
Proof.
  unfold queue_parameter_updates.
  revert s. induction updates as [|u updates IH]; intros s; simpl.
  - rewrite app_nil_r. destruct s; reflexivity.
  - rewrite IH. unfold queue_parameter_update. simpl.
    rewrite <- app_assoc. destruct u; reflexivity.
Qed.

Lemma render_editor_queue_calls (w : world) (editor : ptr) (s : state) :
  g_parameter_queue (render_editor w editor s) = g_parameter_queue s
  ∧ calls (render_editor w editor s) = calls s.
Proof.
  unfold render_editor. repeat case_match; auto.
Qed.

Lemma render_editors_queue_calls (w : world) (editors : list ptr) (s : state) :
  g_parameter_queue (foldl (λ s editor, render_editor w editor s) s editors)
  = g_parameter_queue s
  ∧ calls (foldl (λ s editor, render_editor w editor s) s editors) = calls s.
Proof.
  revert s. induction editors as [|e editors IH]; intros s; simpl; [auto|].
  destruct (IH (render_editor w e s)) as [-> ->].
  apply render_editor_queue_calls.
Qed.

(** C2.  After the updates of any list are queued one after the other, the
    drain step of the render loop ends with an empty queue and has called
    [onParameterUpdate] once for each queued update whose editor is not
    null, those already in the queue first, each in the order of arrival;
    two updates of one parameter give two calls.  The whole iteration of the
    render loop leaves the same queue and the same calls. *)
Theorem parameter_updates_fifo (w : world) (updates : list parameter_update)
    (s : state) :
  let s1 := queue_parameter_updates updates s in
  let delivered := calls s ++ deliveries (g_parameter_queue s ++ updates) in
  process_parameter_updates (g_parameter_queue s1) (calls s1) = ([], delivered)
  ∧ g_parameter_queue (render_loop_iteration w s1) = []
  ∧ calls (render_loop_iteration w s1) = delivered.
Proof.
  intros s1 delivered. subst s1 delivered.
  rewrite queue_parameter_updates_spec. simpl.
  split; [apply process_parameter_updates_spec|].
  unfold render_loop_iteration. simpl.
  rewrite process_parameter_updates_spec.
  match goal with
  | |- context [foldl _ ?s0 ?l] =>
      destruct (render_editors_queue_calls w l s0) as [-> ->]
  end.
  simpl. auto.
Qed.

End queue_properties.

(** Parameter 7 of editor 1 is queued twice, with an update for the null
    editor in between: the render loop calls [onParameterUpdate] on editor 1
    twice and empties the queue. *)
Example same_parameter_twice :
  let s := Support.queue_parameter_update 7%N 0.5%float 1%N
             (Support.queue_parameter_update 3%N 1%float 0%N
                (Support.queue_parameter_update 7%N 0.25%float 1%N
                   (Support.init (P := X11.platform)))) in
  let s' := Support.render_loop_iteration Sample.linux s in
  Support.calls s' = [Support.onParameterUpdate 1%N; Support.onParameterUpdate 1%N]
  ∧ Support.g_parameter_queue s' = [].
Proof. split; reflexivity. Qed.

(** ** The backends *)

Section linux_render.
Import X11.

Lemma append_cons (x : ascii) (a b : string) :
  String x a +:+ b = String x (a +:+ b).
Proof. reflexivity. Qed.

Lemma append_assoc (a b c : string) : (a +:+ b) +:+ c = a +:+ (b +:+ c).
Proof.
  induction a as [|x a IH]; [reflexivity|].
  rewrite !append_cons. by rewrite IH.
Qed.

(** [getline] stops at the first newline, or at the end of the stream. *)
Lemma getline_spec (s : string) :
  has_newline (getline s).1 = false
  ∧ (s = (getline s).1 +:+ String newline (getline s).2
     ∨ (s = (getline s).1 ∧ (getline s).2 = "")).
Proof.
  induction s as [|c s [IH1 IH2]]; simpl.
  - split; [reflexivity|]. right. split; reflexivity.
  - destruct (Ascii.eqb_spec c newline) as [->|Hc]; simpl.
    + split; [reflexivity|]. left. reflexivity.
    + destruct (getline s) as [line rest]; simpl in *.
      apply Ascii.eqb_neq in Hc. rewrite Hc, IH1. split; [reflexivity|].
      rewrite append_cons.
      destruct IH2 as [IH2|[IH2 ->]]; [left|right]; rewrite <- IH2; auto.
Qed.

(** The lines that [parse_terminal_content] returns have no newline, and
    they are the content cut at its newlines: followed by a newline each,
    they give the content back, up to the newline after the last line. *)
Lemma parse_terminal_content_spec (content : string) :
  Forall (λ line, has_newline line = false) (parse_terminal_content content)
  ∧ (unlines (parse_terminal_content content) = content
     ∨ unlines (parse_terminal_content content)
       = content +:+ String newline "").
Proof.
  funelim (parse_terminal_content content).
  - split; [constructor|]. left. reflexivity.
  - destruct H as [Hall Hcat]. clear Heqcall.
    destruct (getline_spec (String c s)) as [Hline Hsplit].
    set (line := (getline (String c s)).1) in *.
    set (rest := (getline (String c s)).2) in *.
    clearbody line rest.
    split; [constructor; assumption|]. cbn [unlines].
    destruct Hsplit as [Hs|[Hs Hrest]].
    + destruct Hcat as [Hcat|Hcat]; rewrite Hcat, Hs; [left|right].
      * reflexivity.
      * rewrite append_assoc, append_cons. reflexivity.
    + right. subst rest. simp parse_terminal_content. cbn [unlines].
      rewrite <- Hs. reflexivity.
Qed.

(** The loop of [render] from line [n] on draws the lines before
    [lines_that_fit] and none after. *)
Lemma render_lines_spec (r : LinuxTerminalRenderer) (lines : list string)
    (n : nat) :
  0 < char_height_ r →
  render_lines r ((Z.of_nat n + 1) * char_height_ r) lines
  = concat (imap (λ i, draw_line r (n + i))
                 (take (lines_that_fit r - n) lines)).
Proof.
  intros Hch. revert n. induction lines as [|line lines IH]; intros n.
  - rewrite take_nil. reflexivity.
  - simpl render_lines. unfold lines_that_fit in *.
    destruct (Z.gtb_spec ((Z.of_nat n + 1) * char_height_ r) (height_ r))
      as [Hgt|Hle].
    + replace (Z.to_nat (height_ r / char_height_ r) - n)%nat with 0%nat.
      { reflexivity. }
      assert (height_ r / char_height_ r < Z.of_nat n + 1).
      { apply Z.div_lt_upper_bound; lia. }
      lia.
    + assert (Z.of_nat n + 1 ≤ height_ r / char_height_ r).
      { apply Z.div_le_lower_bound; lia. }
      replace (Z.to_nat (height_ r / char_height_ r) - n)%nat
        with (S (Z.to_nat (height_ r / char_height_ r) - S n)) by lia.
      simpl take. rewrite imap_cons. simpl concat.
      rewrite Nat.add_0_r. unfold draw_line at 1. f_equal.
      replace ((Z.of_nat n + 1) * char_height_ r + char_height_ r)
        with ((Z.of_nat (S n) + 1) * char_height_ r) by lia.
      rewrite IH. f_equal. apply imap_ext. intros i x _. simpl.
      f_equal. lia.
Qed.

End linux_render.

(** The calls of the Windows renderer: none without a render target; else
    the surface is cleared and, between [BeginDraw] and [EndDraw], at most
    one layout is drawn, at (5, 5) in a box of 1000 by 1000, of all the wide
    characters of the conversion of the content but the terminator. *)
Lemma windows_render_calls (x : Win32.answers)
    (r : Win32.WindowsTerminalRenderer) (content : string) :
  let h := Win32.hwnd_ r in
  let wide_size := Win32.MultiByteToWideChar x content in
  (Win32.render_target_ r = false → Win32.render x r content = [])
  ∧ (Win32.render_target_ r = true → 0 < wide_size →
     Win32.CreateTextLayout x = true →
     Win32.render x r content
     = [Win32.BeginDraw h; Win32.Clear h;
        Win32.DrawTextLayout h 5%float 5%float content (wide_size - 1)
          1000%float 1000%float;
        Win32.EndDraw h])
  ∧ (Win32.render_target_ r = true →
     wide_size ≤ 0 ∨ Win32.CreateTextLayout x = false →
     Win32.render x r content
     = [Win32.BeginDraw h; Win32.Clear h; Win32.EndDraw h]).
Proof.
  intros h wide_size. subst h wide_size. unfold Win32.render.
  split; [|split].
  - by intros ->.
  - intros -> Hsize ->. simpl.
    destruct (Z.gtb_spec (Win32.MultiByteToWideChar x content) 0);
      [reflexivity|lia].
  - intros -> Hnone. simpl.
    destruct (Z.gtb_spec (Win32.MultiByteToWideChar x content) 0);
      [|reflexivity].
    destruct Hnone as [Hsize| ->]; [lia|reflexivity].
Qed.

(** C5, as amended.  On the Linux backend, for every content string and
    every initialised renderer with a positive line height: the lines of
    [render] are the content cut at its newlines; [render] clears the
    window, then draws the lines from the top, line [i] (from 0) at the left
    margin 5 and at [(i + 1) * char_height_], an empty line drawing nothing,
    and only the first [height_ / char_height_] lines: the lines below the
    window are dropped.  When two lines fit, the content of the three lines
    "a", "b" and "c" draws "a" and "b" and not "c".  The Windows backend
    does not cut the content and checks no height: without a render target
    [render] makes no call; with one it clears the surface and, when the
    conversion of the content has [wide_size > 0] wide characters and the
    layout can be created, draws one text layout at (5, 5) in a box of 1000
    by 1000, of the [wide_size - 1] wide characters of the content (the
    content up to its first NUL character), the newlines included; else it
    draws no text. *)
Theorem render_draws_lines_that_fit (r : X11.LinuxTerminalRenderer)
    (content : string) (x : Win32.answers)
    (wr : Win32.WindowsTerminalRenderer) :
  X11.xft_draw_ r = true →
  X11.font_ r = true →
  0 < X11.char_height_ r →
  let lines := X11.parse_terminal_content content in
  (Forall (λ line, X11.has_newline line = false) lines
   ∧ (X11.unlines lines = content
      ∨ X11.unlines lines = content +:+ String X11.newline ""))
  ∧ X11.render r content
    = [X11.FillRectangle (X11.window_ r) 0 0 (X11.width_ r) (X11.height_ r)]
      ++ concat (imap (X11.draw_line r) (take (X11.lines_that_fit r) lines))
      ++ [X11.Flush]
  ∧ (X11.lines_that_fit r = 2%nat →
     X11.render r Sample.abc
     = [X11.FillRectangle (X11.window_ r) 0 0 (X11.width_ r) (X11.height_ r);
        X11.DrawStringUtf8 (X11.window_ r) 5 (X11.char_height_ r) "a";
        X11.DrawStringUtf8 (X11.window_ r) 5 (2 * X11.char_height_ r) "b";
        X11.Flush])
  ∧ (let h := Win32.hwnd_ wr in
     let wide_size := Win32.MultiByteToWideChar x content in
     (Win32.render_target_ wr = false → Win32.render x wr content = [])
     ∧ (Win32.render_target_ wr = true → 0 < wide_size →
        Win32.CreateTextLayout x = true →
        Win32.render x wr content
        = [Win32.BeginDraw h; Win32.Clear h;
           Win32.DrawTextLayout h 5%float 5%float content (wide_size - 1)
             1000%float 1000%float;
           Win32.EndDraw h])
     ∧ (Win32.render_target_ wr = true →
        wide_size ≤ 0 ∨ Win32.CreateTextLayout x = false →
        Win32.render x wr content
        = [Win32.BeginDraw h; Win32.Clear h; Win32.EndDraw h])).
Proof.
  intros Hdraw Hfont Hch lines.
  assert (∀ content,
    X11.render r content
    = [X11.FillRectangle (X11.window_ r) 0 0 (X11.width_ r) (X11.height_ r)]
      ++ concat (imap (X11.draw_line r)
                      (take (X11.lines_that_fit r)
                            (X11.parse_terminal_content content)))
      ++ [X11.Flush]) as Hrender.
  { intros content'. unfold X11.render. rewrite Hdraw, Hfont. simpl.
    do 2 f_equal.
    replace (X11.char_height_ r) with ((Z.of_nat 0 + 1) * X11.char_height_ r)
      at 1 by lia.
    rewrite render_lines_spec by exact Hch.
    rewrite Nat.sub_0_r. reflexivity. }
  split; [apply parse_terminal_content_spec|].
  split; [apply Hrender|].
  split; [|apply windows_render_calls].
  intros Hfit. rewrite Hrender, Hfit.
  change (X11.parse_terminal_content Sample.abc) with ["a"; "b"; "c"].
  unfold X11.draw_line. simpl. repeat f_equal; lia.
Qed.

(** A Linux window of 40 pixels, in which two lines of 16 pixels fit, and
    the initialised Windows renderer of window 107: the layout has the 5
    characters of the three lines. *)
Lemma render_draws_lines_that_fit_witness :
  let r := Sample.linux_renderer 40 in
  let lines := X11.parse_terminal_content Sample.abc in
  (Forall (λ line, X11.has_newline line = false) lines
   ∧ (X11.unlines lines = Sample.abc
      ∨ X11.unlines lines = Sample.abc +:+ String X11.newline ""))
  ∧ X11.render r Sample.abc
    = [X11.FillRectangle (X11.window_ r) 0 0 (X11.width_ r) (X11.height_ r)]
      ++ concat (imap (X11.draw_line r) (take (X11.lines_that_fit r) lines))
      ++ [X11.Flush]
  ∧ (X11.lines_that_fit r = 2%nat →
     X11.render r Sample.abc
     = [X11.FillRectangle (X11.window_ r) 0 0 (X11.width_ r) (X11.height_ r);
        X11.DrawStringUtf8 (X11.window_ r) 5 (X11.char_height_ r) "a";
        X11.DrawStringUtf8 (X11.window_ r) 5 (2 * X11.char_height_ r) "b";
        X11.Flush])
  ∧ Win32.render Sample.win32_up Sample.windows_renderer Sample.abc
    = [Win32.BeginDraw 107%N; Win32.Clear 107%N;
       Win32.DrawTextLayout 107%N 5%float 5%float Sample.abc 5
         1000%float 1000%float;
       Win32.EndDraw 107%N].
Proof.
  intros r lines.
  destruct (render_draws_lines_that_fit r Sample.abc Sample.win32_up
              Sample.windows_renderer eq_refl eq_refl eq_refl)
    as (Hlines & Hrender & Hfit & _ & Hlayout & _).
  split; [exact Hlines|]. split; [exact Hrender|]. split; [exact Hfit|].
  apply Hlayout; reflexivity.
Defined.

(** The same window, run: "a" and "b" are drawn, "c" is not. *)
Example linux_render_two_of_three :
  X11.drawn_text (X11.render (Sample.linux_renderer 40) Sample.abc)
  = ["a"; "b"].
Proof. reflexivity. Qed.

(** C5 as stated fails on the Windows backend: for the three lines "a", "b"
    and "c", whatever the height of the window, [render] draws no line "a"
    and no line "b" but one layout of the whole content, "c" included. *)
Lemma windows_render_does_not_split :
  Win32.drawn_text
    (Win32.render Sample.win32_up Sample.windows_renderer Sample.abc)
  = [Sample.abc]
  ∧ Win32.drawn_text
      (Win32.render Sample.win32_up Sample.windows_renderer Sample.abc)
    ≠ ["a"; "b"]
  ∧ Win32.render Sample.win32_up Sample.windows_renderer Sample.abc
    = [Win32.BeginDraw 107%N; Win32.Clear 107%N;
       Win32.DrawTextLayout 107%N 5%float 5%float Sample.abc 5
         1000%float 1000%float;
       Win32.EndDraw 107%N].
Proof. split; [reflexivity|split; [discriminate|reflexivity]]. Qed.

(** On Linux, a display that is open and answers that succeed create the
    window under the root window when the parent is null. *)
Lemma linux_create_window_null_parent (x : X11.answers) (editor_id : string)
    (px py width height : Z) (t : Terminal.embedded_terminal)
    (g : X11.globals) :
  X11.g_display g = true →
  X11.XCreateSimpleWindow x (X11.DefaultRootWindow x) ≠ 0%N →
  (X11.renderer_initialize x
     (X11.renderer_new (X11.XCreateSimpleWindow x (X11.DefaultRootWindow x)))).1
  = true →
  ∃ t' g',
    Terminal.create_window (P := X11.platform) x editor_id 0%N px py
      width height t g = (true, t', g')
    ∧ Terminal.editors_ t' !! editor_id
      = Some {| Terminal.content := "";
                Terminal.platform_handle :=
                  X11.XCreateSimpleWindow x (X11.DefaultRootWindow x);
                Terminal.width := width; Terminal.height := height;
                Terminal.visible := false |}
    ∧ X11.sent g'
      = X11.sent g
        ++ [X11.CreateSimpleWindow (X11.DefaultRootWindow x) px py width height
              (X11.XCreateSimpleWindow x (X11.DefaultRootWindow x));
            X11.SelectInput (X11.XCreateSimpleWindow x (X11.DefaultRootWindow x));
            X11.MapWindow (X11.XCreateSimpleWindow x (X11.DefaultRootWindow x));
            X11.Flush].
Proof.
  intros Hdisplay Hchild Hinit.
  unfold Terminal.create_window. simpl.
  unfold X11.platform_create_window. rewrite Hdisplay. simpl.
  apply N.eqb_neq in Hchild. rewrite Hchild.
  destruct (X11.renderer_initialize x _) as [ok renderer]. simpl in Hinit.
  subst ok. simpl.
  eexists _, _. split; [reflexivity|]. split.
  - simpl. apply lookup_insert_eq.
  - simpl. rewrite <- !app_assoc. reflexivity.
Qed.

(** On Windows a null parent is refused before anything is created. *)
Lemma windows_create_window_null_parent (x : Win32.answers)
    (editor_id : string) (px py width height : Z)
    (t : Terminal.embedded_terminal) (g : Win32.globals) :
  Terminal.create_window (P := Win32.platform) x editor_id 0%N px py
    width height t g = (false, t, g).
Proof. reflexivity. Qed.

(** [guiSetParentWith] does not pass a null parent on: it returns [false],
    and all it does is to make sure that the context of the editor has a
    terminal, initialising the backend for a terminal that it makes. *)
Lemma set_parent_null_handle {P : Terminal.Platform} (w : Support.world)
    (editor : ptr) (window : Editor.clap_window) (s : Support.state) :
  Terminal.parent_handle_of window = 0%N →
  Support.ftxui_clap_guiSetParentWith w editor (Some window) s
  = (false,
     if N.eqb editor 0 then s else
     match Support.ctx s !! editor with
     | None => s
     | Some c =>
         let '(t, g) :=
           match Support.terminal c with
           | Some t => (t, Support.backend s)
           | None =>
               (Terminal.new,
                (Terminal.initialize (Support.api w) (Support.backend s)).2)
           end in
         Support.set_backend g
           (Support.set_ctx
              (<[editor := Support.set_terminal (Some t) c]> (Support.ctx s))
              s)
     end).
Proof.
  intros Hnull. unfold Support.ftxui_clap_guiSetParentWith.
  rewrite Hnull. simpl.
  destruct (N.eqb editor 0); [reflexivity|].
  destruct (Support.ctx s !! editor) as [c|]; [|reflexivity].
  destruct (Support.terminal c) as [t|]; [reflexivity|].
  destruct (Terminal.initialize _ _) as [[] g]; reflexivity.
Qed.

(** With a null parent [guiSetParentWith] adds no window record to any
    terminal, and leaves the active editors and the call log alone. *)
Lemma set_parent_null_handle_records {P : Terminal.Platform}
    (w : Support.world) (editor : ptr) (window : Editor.clap_window)
    (s : Support.state) :
  Terminal.parent_handle_of window = 0%N →
  let s' := (Support.ftxui_clap_guiSetParentWith w editor (Some window) s).2 in
  (∀ e id, Support.context_record s' e id = Support.context_record s e id)
  ∧ (∀ id, Support.global_record s' id = Support.global_record s id)
  ∧ Support.g_active_editors s' = Support.g_active_editors s
  ∧ Support.calls s' = Support.calls s.
Proof.
  intros Hnull s'. subst s'. rewrite set_parent_null_handle by exact Hnull.
  simpl.
  destruct (N.eqb editor 0); [auto|].
  destruct (Support.ctx s !! editor) as [c|] eqn:Hc; [|auto].
  assert (∀ t g e id,
            (Support.terminal c = Some t
             ∨ Support.terminal c = None ∧ t = Terminal.new) →
            Support.context_record
              (Support.set_backend g
                 (Support.set_ctx
                    (<[editor := Support.set_terminal (Some t) c]>
                       (Support.ctx s)) s)) e id
            = Support.context_record s e id) as Hrec.
  { intros t g e id Ht. unfold Support.context_record. simpl.
    destruct (decide (e = editor)) as [->|Hne].
    - rewrite lookup_insert_eq, Hc. simpl.
      destruct Ht as [->|[-> ->]]; [reflexivity|apply lookup_empty].
    - by rewrite lookup_insert_ne. }
  destruct (Support.terminal c) as [t|] eqn:Ht; simpl.
  - repeat split; auto.
  - repeat split; auto.
Qed.

(** On Linux and on Windows the initialisation of the backend sends no
    request and leaves the renderers alone. *)
Lemma linux_initialize_sends_nothing (x : X11.answers) (g : X11.globals) :
  X11.sent (Terminal.initialize (P := X11.platform) x g).2 = X11.sent g
  ∧ X11.g_renderers (Terminal.initialize (P := X11.platform) x g).2
    = X11.g_renderers g.
Proof.
  unfold Terminal.initialize. simpl. unfold X11.platform_initialize.
  destruct (X11.g_display g); simpl; [auto|].
  destruct (X11.XOpenDisplay x); simpl; auto.
Qed.

Lemma windows_initialize_sends_nothing (x : Win32.answers)
    (g : Win32.globals) :
  Win32.sent (Terminal.initialize (P := Win32.platform) x g).2 = Win32.sent g
  ∧ Win32.g_renderers (Terminal.initialize (P := Win32.platform) x g).2
    = Win32.g_renderers g.
Proof.
  unfold Terminal.initialize. simpl. unfold Win32.platform_initialize.
  destruct (Win32.g_class_registered g); simpl; [auto|].
  destruct (Win32.RegisterClassEx x); simpl; auto.
Qed.

(** C7, as amended.  The Linux backend creates the child window of a null
    parent under the default root window: when the display is open, the
    server creates the window and the renderer initialises, [create_window]
    returns [true], has asked for a window under [DefaultRootWindow] and
    keeps its record.  The Windows backend refuses a null parent:
    [create_window] returns [false] and changes nothing.  On every platform
    [ftxui_clap_guiSetParentWith] returns [false] for a descriptor whose
    native handle is null and does not call [create_window]: the state
    after it is the state before it, but that the context of the editor,
    when it had no terminal, has a new, empty one, for which the backend was
    initialised; no terminal has a record that it did not have, and on
    Linux and on Windows no request is sent and no renderer is made. *)
Theorem create_window_null_parent (x : X11.answers) (editor_id : string)
    (px py width height : Z) (t : Terminal.embedded_terminal)
    (g : X11.globals) :
  X11.g_display g = true →
  X11.XCreateSimpleWindow x (X11.DefaultRootWindow x) ≠ 0%N →
  (X11.renderer_initialize x
     (X11.renderer_new (X11.XCreateSimpleWindow x (X11.DefaultRootWindow x)))).1
  = true →
  (∃ t' g',
     Terminal.create_window (P := X11.platform) x editor_id 0%N px py
       width height t g = (true, t', g')
     ∧ Terminal.editors_ t' !! editor_id
       = Some {| Terminal.content := "";
                 Terminal.platform_handle :=
                   X11.XCreateSimpleWindow x (X11.DefaultRootWindow x);
                 Terminal.width := width; Terminal.height := height;
                 Terminal.visible := false |}
     ∧ X11.sent g'
       = X11.sent g
         ++ [X11.CreateSimpleWindow (X11.DefaultRootWindow x) px py width
               height (X11.XCreateSimpleWindow x (X11.DefaultRootWindow x));
             X11.SelectInput
               (X11.XCreateSimpleWindow x (X11.DefaultRootWindow x));
             X11.MapWindow (X11.XCreateSimpleWindow x (X11.DefaultRootWindow x));
             X11.Flush])
  ∧ (∀ (y : Win32.answers) (t : Terminal.embedded_terminal)
       (g : Win32.globals),
       Terminal.create_window (P := Win32.platform) y editor_id 0%N px py
         width height t g = (false, t, g))
  ∧ (∀ (P : Terminal.Platform) (w : Support.world) (editor : ptr)
       (window : Editor.clap_window) (s : Support.state),
       Terminal.parent_handle_of window = 0%N →
       let r := Support.ftxui_clap_guiSetParentWith w editor (Some window) s in
       r.1 = false
       ∧ r.2
         = (if N.eqb editor 0 then s else
            match Support.ctx s !! editor with
            | None => s
            | Some c =>
                let '(t, g) :=
                  match Support.terminal c with
                  | Some t => (t, Support.backend s)
                  | None =>
                      (Terminal.new,
                       (Terminal.initialize (Support.api w)
                          (Support.backend s)).2)
                  end in
                Support.set_backend g
                  (Support.set_ctx
                     (<[editor := Support.set_terminal (Some t) c]>
                        (Support.ctx s)) s)
            end)
       ∧ (∀ e id,
            Support.context_record r.2 e id = Support.context_record s e id)
       ∧ (∀ id, Support.global_record r.2 id = Support.global_record s id))
  ∧ (∀ (w : Support.world (P := X11.platform)) (editor : ptr)
       (window : Editor.clap_window) (s : Support.state),
       Editor.x11 window = 0%N →
       let r := Support.ftxui_clap_guiSetParentWith w editor (Some window) s in
       X11.sent (Support.backend r.2) = X11.sent (Support.backend s)
       ∧ X11.g_renderers (Support.backend r.2)
         = X11.g_renderers (Support.backend s))
  ∧ (∀ (w : Support.world (P := Win32.platform)) (editor : ptr)
       (window : Editor.clap_window) (s : Support.state),
       Editor.win32 window = 0%N →
       let r := Support.ftxui_clap_guiSetParentWith w editor (Some window) s in
       Win32.sent (Support.backend r.2) = Win32.sent (Support.backend s)
       ∧ Win32.g_renderers (Support.backend r.2)
         = Win32.g_renderers (Support.backend s)).
Proof.
  intros Hdisplay Hchild Hinit. split; [|split; [|split; [|split]]].
  - by apply linux_create_window_null_parent.
  - intros. apply windows_create_window_null_parent.
  - intros P w editor window s Hnull r. subst r.
    destruct (set_parent_null_handle_records w editor window s Hnull)
      as (Hrec & Hglobal & _).
    rewrite (set_parent_null_handle w editor window s Hnull) in *.
    auto.
  - intros w editor window s Hnull r. subst r.
    rewrite (set_parent_null_handle (P := X11.platform) w editor window s)
      by exact Hnull.
    simpl. destruct (N.eqb editor 0); [auto|].
    destruct (Support.ctx s !! editor) as [c|]; [|auto].
    destruct (Support.terminal c); simpl; [auto|].
    apply linux_initialize_sends_nothing.
  - intros w editor window s Hnull r. subst r.
    rewrite (set_parent_null_handle (P := Win32.platform) w editor window s)
      by exact Hnull.
    simpl. destruct (N.eqb editor 0); [auto|].
    destruct (Support.ctx s !! editor) as [c|]; [|auto].
    destruct (Support.terminal c); simpl; [auto|].
    apply windows_initialize_sends_nothing.
Qed.

(** The open Linux display of [Sample]: the window 101 is created under the
    root window 1.  Editor 2 of [Sample.two_editors] is given a host window
    without a handle: the call returns [false], no request is sent and the
    editor has no window record. *)
Lemma create_window_null_parent_witness :
  (∃ t' g',
     Terminal.create_window (P := X11.platform) Sample.x11_up "1" 0%N 0 0
       640 384 Terminal.new Sample.linux_open = (true, t', g')
     ∧ Terminal.editors_ t' !! "1"
       = Some {| Terminal.content := ""; Terminal.platform_handle := 101%N;
                 Terminal.width := 640; Terminal.height := 384;
                 Terminal.visible := false |}
     ∧ X11.sent g'
       = [X11.CreateSimpleWindow 1%N 0 0 640 384 101%N;
          X11.SelectInput 101%N; X11.MapWindow 101%N; X11.Flush])
  ∧ (let r := Support.ftxui_clap_guiSetParentWith Sample.linux 2%N
                (Some {| Editor.cocoa := 0%N; Editor.x11 := 0%N;
                         Editor.win32 := 0%N |}) Sample.two_editors in
     r.1 = false
     ∧ X11.sent (Support.backend r.2)
       = X11.sent (Support.backend Sample.two_editors)
     ∧ Support.context_record r.2 2%N (Support.editor_id 2%N) = None).
Proof.
  destruct (create_window_null_parent Sample.x11_up "1" 0 0 640 384
              Terminal.new Sample.linux_open)
    as (Hlinux & _ & Hcall & Hsent & _);
    [reflexivity|discriminate|reflexivity|].
  split; [exact Hlinux|].
  set (window := {| Editor.cocoa := 0%N; Editor.x11 := 0%N;
                    Editor.win32 := 0%N |}).
  destruct (Hcall X11.platform Sample.linux 2%N window Sample.two_editors
              eq_refl) as (Hfalse & _ & Hrec & _).
  destruct (Hsent Sample.linux 2%N window Sample.two_editors eq_refl)
    as [Hnone _].
  split; [exact Hfalse|]. split; [exact Hnone|].
  cbv zeta. rewrite Hrec. reflexivity.
Defined.

(** C7 as stated fails on the Windows backend: with the window class
    registered and every call of the platform succeeding, [create_window]
    with a null parent returns [false] and keeps no record. *)
Lemma windows_null_parent_fails :
  Terminal.create_window (P := Win32.platform) Sample.win32_up "1" 0%N 0 0
    640 384 Terminal.new Sample.windows_registered
  = (false, Terminal.new, Sample.windows_registered)
  ∧ Win32.g_class_registered Sample.windows_registered = true.
Proof. split; reflexivity. Qed.

(** ** The render loop and the life cycle *)

Section lifecycle_properties.
Context {P : Terminal.Platform}.
Variable obj : ptr → Editor.ftxui_clap_editor.
Import Terminal Support.

Lemma editor_id_inj (e1 e2 : ptr) : editor_id e1 = editor_id e2 → e1 = e2.
Proof. unfold editor_id. apply (inj pretty). Qed.

(** [update_content] keeps the records under the other identifiers. *)
Lemma update_content_other (x : native) (id id' content : string)
    (t : embedded_terminal) (g : statics) :
  id ≠ id' →
  editors_ (update_content x id content t g).1 !! id' = editors_ t !! id'.
Proof.
  intros Hne. unfold update_content.
  destruct (editors_ t !! id); simpl; [|reflexivity].
  by rewrite lookup_insert_ne.
Qed.

(** A registry without records stays as it is. *)
Lemma update_content_empty (x : native) (id content : string)
    (t : embedded_terminal) (g : statics) :
  editors_ t = ∅ → update_content x id content t g = (t, g).
Proof.
  intros Hempty. unfold update_content. by rewrite Hempty, lookup_empty.
Qed.

(** The rendering of one editor touches the global terminal and the
    backend only. *)
Lemma render_editor_frame (w : world) (e : ptr) (s : state) :
  ctx (render_editor w e s) = ctx s
  ∧ g_active_editors (render_editor w e s) = g_active_editors s
  ∧ leaked (render_editor w e s) = leaked s
  ∧ g_render_thread (render_editor w e s) = g_render_thread s.
Proof.
  unfold render_editor. repeat case_match; simpl; auto.
Qed.

Lemma render_editors_frame (w : world) (editors : list ptr) (s : state) :
  let s' := foldl (λ s e, render_editor w e s) s editors in
  ctx s' = ctx s
  ∧ g_active_editors s' = g_active_editors s
  ∧ leaked s' = leaked s.
Proof.
  revert s. induction editors as [|e editors IH]; intros s; simpl; [auto|].
  destruct (render_editor_frame w e s) as (Hctx & Hact & Hleak & _).
  destruct (IH (render_editor w e s)) as (-> & -> & ->). auto.
Qed.

(** The rendering of one editor keeps the global record of an editor that
    is hidden, that has no component or that has no context. *)
Lemma render_editor_hidden (w : world) (e editor : ptr) (s : state) :
  (∀ c, ctx s !! editor = Some c → visible c = false ∨ component c = 0%N) →
  global_record (render_editor w e s) (editor_id editor)
  = global_record s (editor_id editor).
Proof.
  intros Hhidden. unfold render_editor.
  destruct (N.eqb e 0); [reflexivity|].
  destruct (ctx s !! e) as [c|] eqn:Hc; [|reflexivity].
  destruct (visible c && negb (N.eqb (component c) 0)) eqn:Hshown;
    [|reflexivity].
  unfold global_record.
  destruct (g_terminal s) as [t|] eqn:Ht; [|by rewrite Ht].
  destruct (update_content _ _ _ t _) as [t' g'] eqn:Hupd. simpl.
  replace t' with (update_content (api w) (editor_id e)
    (Screen_ToString w (component c) (cols c) (rows c)) t (backend s)).1
    by (rewrite Hupd; reflexivity).
  apply update_content_other. intros Heq. apply editor_id_inj in Heq.
  subst e. apply andb_prop in Hshown as [Hv Hk].
  destruct (Hhidden c Hc) as [Hv'|Hk']; [congruence|].
  rewrite Hk' in Hk. discriminate.
Qed.

Lemma render_editors_hidden (w : world) (editors : list ptr) (editor : ptr)
    (s : state) :
  (∀ c, ctx s !! editor = Some c → visible c = false ∨ component c = 0%N) →
  let s' := foldl (λ s e, render_editor w e s) s editors in
  global_record s' (editor_id editor) = global_record s (editor_id editor)
  ∧ ctx s' = ctx s
  ∧ g_active_editors s' = g_active_editors s
  ∧ leaked s' = leaked s.
Proof.
  revert s. induction editors as [|e editors IH]; intros s Hhidden; simpl;
    [auto|].
  destruct (render_editor_frame w e s) as (Hctx & Hact & Hleak & _).
  destruct (IH (render_editor w e s)) as (-> & -> & -> & ->).
  { rewrite Hctx. exact Hhidden. }
  rewrite render_editor_hidden by exact Hhidden. auto.
Qed.

(** C9.  One iteration of the render loop leaves the record that the
    global terminal keeps for an editor, its content included, as it was
    when, at the start of the iteration, the editor is hidden, has no
    component or has no context; the contexts of all editors, with their
    terminals and the records in them, are left as they were as well. *)
Theorem hidden_editor_record_unchanged (w : world) (s : state)
    (editor : ptr) :
  (∀ c, ctx s !! editor = Some c → visible c = false ∨ component c = 0%N) →
  let s' := render_loop_iteration w s in
  content <$> global_record s' (editor_id editor)
  = content <$> global_record s (editor_id editor)
  ∧ global_record s' (editor_id editor) = global_record s (editor_id editor)
  ∧ (∀ e id, context_record s' e id = context_record s e id)
  ∧ ctx s' = ctx s.
Proof.
  intros Hhidden s'. subst s'. unfold render_loop_iteration.
  destruct (process_parameter_updates _ _) as [queue log].
  match goal with
  | |- context [foldl _ ?s0 ?l] =>
      destruct (render_editors_hidden w l editor s0) as (Hrec & Hctx & _)
  end.
  { exact Hhidden. }
  assert (∀ (s1 s2 : state) e id,
            ctx s1 = ctx s2 → context_record s1 e id = context_record s2 e id)
    as Hcr by (intros s1 s2 e id H; unfold context_record; by rewrite H).
  rewrite Hrec. repeat split; auto.
Qed.

(** *** The states that the calls reach *)

Lemma init_consistent : consistent init.
Proof.
  unfold consistent, init. simpl. repeat split.
  - intros e He. by apply elem_of_nil in He.
  - intros t Ht. discriminate.
  - intros e c t id Hc. by rewrite lookup_empty in Hc.
Qed.

(** [initialize] leaves the editors alone, and a global terminal that it
    makes has no record. *)
Lemma initialize_frame (w : world) (s : state) :
  ctx (initialize w s).2 = ctx s
  ∧ g_active_editors (initialize w s).2 = g_active_editors s
  ∧ leaked (initialize w s).2 = leaked s
  ∧ (g_terminal (initialize w s).2 = g_terminal s
     ∨ g_terminal (initialize w s).2 = Some new).
Proof.
  unfold initialize.
  destruct (g_terminal s) eqn:Ht; simpl; [by rewrite Ht; auto|].
  destruct (Terminal.initialize _ _) as [[] g]; simpl.
  - destruct (thread_starts w); simpl; auto.
  - destruct (Terminal.shutdown new g). simpl. rewrite Ht. auto.
Qed.

(** [create_window] adds at most the record of the identifier it is given. *)
Lemma create_window_keys (x : native) (id id' : string) (parent : ptr)
    (px py width height : Z) (t : embedded_terminal) (g : statics) :
  is_Some (editors_ (create_window x id parent px py width height t g).1.2
           !! id') →
  id' = id ∨ is_Some (editors_ t !! id').
Proof.
  unfold create_window.
  destruct (platform_create_window _ _ _ _ _ _ _ _) as [[[] window] g'];
    simpl; [|auto].
  destruct (decide (id = id')) as [->|Hne]; [auto|].
  rewrite lookup_insert_ne by exact Hne. auto.
Qed.

(** The active editors after one call. *)
Lemma step_active (s : state) (w : world) (c : call) :
  g_active_editors (step obj s (w, c))
  = match c with
    | guiCreateWith e =>
        if (ftxui_clap_guiCreateWith obj w e s).1
        then g_active_editors s ++ [e] else g_active_editors s
    | guiDestroyWith e =>
        if N.eqb e 0 then g_active_editors s
        else match ctx s !! e with
             | Some _ => filter (λ x, x ≠ e) (g_active_editors s)
             | None => g_active_editors s
             end
    | _ => g_active_editors s
    end.
Proof.
  destruct c as [e|e|e window|e width height|e|e|e|pid v e|]; simpl.
  - unfold ftxui_clap_guiCreateWith.
    destruct (N.eqb e 0); [reflexivity|].
    destruct (initialize_frame w s) as (_ & Hact & _).
    destruct (initialize w s) as [[] s1]; simpl in *; [|exact Hact].
    destruct (ctx s1 !! e); simpl; by rewrite Hact.
  - unfold ftxui_clap_guiDestroyWith.
    destruct (N.eqb e 0); [reflexivity|].
    destruct (ctx s !! e) as [c|]; [|reflexivity].
    destruct (terminal c) as [t|]; [destruct (remove_editor _ _ _)|];
      reflexivity.
  - unfold ftxui_clap_guiSetParentWith.
    repeat case_match; reflexivity.
  - unfold ftxui_clap_guiSetSizeWith. repeat case_match; reflexivity.
  - unfold ftxui_clap_guiShowWith. repeat case_match; reflexivity.
  - unfold ftxui_clap_guiHideWith. repeat case_match; reflexivity.
  - reflexivity.
  - reflexivity.
  - destruct (g_render_thread s && negb (g_should_stop s)); [|reflexivity].
    unfold render_loop_iteration.
    destruct (process_parameter_updates _ _) as [queue log].
    match goal with
    | |- context [foldl _ ?s0 ?l] =>
        destruct (render_editors_frame w l s0) as (_ & Hact & _) end.
    rewrite Hact. reflexivity.
Qed.

(** Consistency looks at the contexts, the active editors and the global
    terminal only. *)
Lemma consistent_ext (s s' : state) :
  ctx s' = ctx s →
  g_active_editors s' = g_active_editors s →
  (g_terminal s' = g_terminal s ∨ g_terminal s' = Some new) →
  consistent s → consistent s'.
Proof.
  intros Hctx Hact Hterm (H1 & H2 & H3 & H4).
  unfold consistent. rewrite Hctx, Hact. repeat split; auto.
  intros t Ht. destruct Hterm as [Hterm|Hterm]; rewrite Hterm in Ht.
  - by apply H3.
  - by injection Ht as <-.
Qed.

(** Consistency when the context of one editor is replaced. *)
Lemma consistent_insert (s s' : state) (e : ptr) (c' : FTXUIContext) :
  e ≠ 0%N →
  ctx s' = <[e := c']> (ctx s) →
  (∀ x, x ∈ g_active_editors s' → x ∈ g_active_editors s ∨ x = e) →
  (g_terminal s' = g_terminal s ∨ g_terminal s' = Some new) →
  (∀ t id, terminal c' = Some t → is_Some (editors_ t !! id) →
           id = editor_id e) →
  consistent s → consistent s'.
Proof.
  intros Hnz Hctx Hact Hterm Hc' (H1 & H2 & H3 & H4).
  unfold consistent. rewrite Hctx. repeat split.
  - intros x Hx. destruct (decide (e = x)) as [->|Hne].
    + rewrite lookup_insert_eq. eauto.
    + rewrite lookup_insert_ne by exact Hne.
      destruct (Hact x Hx) as [Hin| ->]; [by apply H1|done].
  - by rewrite lookup_insert_ne.
  - intros t Ht. destruct Hterm as [Hterm|Hterm]; rewrite Hterm in Ht.
    + by apply H3.
    + by injection Ht as <-.
  - intros x c t id Hc Ht Hid. destruct (decide (e = x)) as [->|Hne].
    + rewrite lookup_insert_eq in Hc. injection Hc as <-. eauto.
    + rewrite lookup_insert_ne in Hc by exact Hne. eauto.
Qed.

(** Consistency when the context of one editor is deleted. *)
Lemma consistent_delete (s s' : state) (e : ptr) :
  ctx s' = delete e (ctx s) →
  (∀ x, x ∈ g_active_editors s' → x ∈ g_active_editors s ∧ x ≠ e) →
  g_terminal s' = g_terminal s →
  consistent s → consistent s'.
Proof.
  intros Hctx Hact Hterm (H1 & H2 & H3 & H4).
  unfold consistent. rewrite Hctx, Hterm. repeat split; auto.
  - intros x Hx. destruct (Hact x Hx) as [Hin Hne].
    rewrite lookup_delete_ne by done. by apply H1.
  - apply lookup_delete_None. auto.
  - intros x c t id Hc Ht Hid.
    apply lookup_delete_Some in Hc as [Hne Hc]. eauto.
Qed.

Lemma render_editor_consistent (w : world) (e : ptr) (s : state) :
  consistent s → consistent (render_editor w e s).
Proof.
  intros Hs. unfold render_editor. repeat case_match; try exact Hs.
  pose proof Hs as (_ & _ & Hglobal & _).
  match goal with
  | Ht : g_terminal s = Some ?t, Hu : update_content _ _ _ ?t _ = _ |- _ =>
      rewrite (update_content_empty _ _ _ t) in Hu by (by apply Hglobal);
      injection Hu as <- <-;
      apply (consistent_ext s); simpl; auto;
      repeat split; auto
  end.
Qed.

Lemma render_loop_iteration_consistent (w : world) (s : state) :
  consistent s → consistent (render_loop_iteration w s).
Proof.
  intros Hs. unfold render_loop_iteration.
  destruct (process_parameter_updates _ _) as [queue log].
  assert (consistent (set_calls log (set_g_parameter_queue queue s))) as Hs0
    by (apply (consistent_ext s); simpl; auto).
  revert Hs0. generalize (set_calls log (set_g_parameter_queue queue s)).
  intros s0. simpl. generalize (g_active_editors s0). intros editors.
  revert s0. induction editors as [|e editors IH]; intros s0 Hs0; simpl;
    [exact Hs0|].
  apply IH. by apply render_editor_consistent.
Qed.

(** Every call keeps the state consistent. *)
Lemma step_consistent (s : state) (wc : world * call) :
  consistent s → consistent (step obj s wc).
Proof.
  intros Hs. destruct wc as [w c].
  destruct c as [e|e|e window|e width height|e|e|e|pid v e|]; simpl.
  - unfold ftxui_clap_guiCreateWith.
    destruct (N.eqb_spec e 0) as [->|Hnz]; [exact Hs|].
    destruct (initialize_frame w s) as (Hctx & Hact & _ & Hterm).
    destruct (initialize w s) as [[] s1]; simpl in *.
    + apply (consistent_insert s _ e
               (set_component (Editor.onCreateComponent (obj e))
                              (FTXUIContext_new e))); auto.
      * destruct (ctx s1 !! e); simpl; rewrite Hctx;
          apply alter_insert_eq.
      * destruct (ctx s1 !! e); simpl; rewrite Hact;
          intros x [Hx|Hx%list_elem_of_singleton]%elem_of_app; auto.
      * destruct (ctx s1 !! e); simpl; exact Hterm.
      * simpl. discriminate.
    + by apply (consistent_ext s).
  - unfold ftxui_clap_guiDestroyWith.
    destruct (N.eqb_spec e 0) as [->|Hnz]; [exact Hs|].
    destruct (ctx s !! e) as [c|] eqn:Hc; [|exact Hs].
    apply (consistent_delete s _ e); auto.
    + destruct (terminal c) as [t|]; [destruct (remove_editor _ _ _)|];
        reflexivity.
    + destruct (terminal c) as [t|]; [destruct (remove_editor _ _ _)|];
        simpl; intros x Hx%list_elem_of_filter; tauto.
    + destruct (terminal c) as [t|]; [destruct (remove_editor _ _ _)|];
        reflexivity.
  - unfold ftxui_clap_guiSetParentWith.
    destruct (N.eqb_spec e 0) as [->|Hnz]; [exact Hs|].
    destruct (ctx s !! e) as [c|] eqn:Hc; [|exact Hs].
    destruct window as [window|]; [|exact Hs].
    assert (∀ t id, terminal c = Some t → is_Some (editors_ t !! id) →
                    id = editor_id e) as Hold.
    { destruct Hs as (_ & _ & _ & H4). intros t id. by apply H4. }
    assert (∀ t g,
      (terminal c = Some t ∨ t = new) →
      consistent (set_backend g
        (set_ctx (<[e := set_terminal (Some t) c]> (ctx s)) s))) as Hkeep.
    { intros t g Ht. apply (consistent_insert s _ e (set_terminal (Some t) c));
        auto.
      simpl. intros t' id [= <-] Hid. destruct Ht as [Ht| ->]; [eauto|].
      simpl in Hid. rewrite lookup_empty in Hid. by destruct Hid. }
    assert (∀ t g x,
      (terminal c = Some t ∨ t = new) →
      consistent (set_backend g
        (set_ctx (<[e := set_terminal
                           (Some (create_window x (editor_id e)
                                    (parent_handle_of window) 0 0
                                    (cols c * 8) (rows c * 16) t g).1.2) c]>
                    (ctx s)) s))) as Hmade.
    { intros t g x Ht.
      eapply (consistent_insert s _ e);
        [exact Hnz|reflexivity|auto|auto| |exact Hs].
      simpl. intros t' id [= <-] Hid.
      apply create_window_keys in Hid as [Hid|Hid]; [exact Hid|].
      destruct Ht as [Ht| ->]; [eauto|].
      simpl in Hid. rewrite lookup_empty in Hid. by destruct Hid. }
    destruct (terminal c) as [t|] eqn:Ht.
    + simpl. destruct (negb (N.eqb (parent_handle_of window) 0)).
      * specialize (Hmade t (backend s) (api w) (or_introl eq_refl)).
        destruct (create_window _ _ _ _ _ _ _ _ _) as [[ok t'] g'].
        simpl in *. exact Hmade.
      * simpl. by apply Hkeep; left.
    + destruct (Terminal.initialize (api w) (backend s)) as [[] g]; simpl.
      * destruct (negb (N.eqb (parent_handle_of window) 0)).
        -- specialize (Hmade new g (api w) (or_intror eq_refl)).
           destruct (create_window _ _ _ _ _ _ _ _ _) as [[ok t'] g'].
           simpl in *. exact Hmade.
        -- simpl. by apply Hkeep; right.
      * by apply Hkeep; right.
  - unfold ftxui_clap_guiSetSizeWith.
    destruct (N.eqb_spec e 0) as [->|Hnz]; [exact Hs|].
    destruct (ctx s !! e) as [c|] eqn:Hc; [|exact Hs].
    destruct (Editor.adjustSize _ _ _) as [adjusted [n m]].
    destruct (if negb adjusted then _ else _) as [n' m']. simpl.
    apply (consistent_insert s _ e (set_cols_rows n' m' c)); auto.
    destruct Hs as (_ & _ & _ & H4). simpl. intros t id. by apply H4.
  - unfold ftxui_clap_guiShowWith.
    destruct (N.eqb_spec e 0) as [->|Hnz]; [exact Hs|].
    destruct (ctx s !! e) as [c|] eqn:Hc; [|exact Hs]. simpl.
    apply (consistent_insert s _ e (set_visible true c)); auto.
    destruct Hs as (_ & _ & _ & H4). simpl. intros t id. by apply H4.
  - unfold ftxui_clap_guiHideWith.
    destruct (N.eqb_spec e 0) as [->|Hnz]; [exact Hs|].
    destruct (ctx s !! e) as [c|] eqn:Hc; [|exact Hs]. simpl.
    apply (consistent_insert s _ e (set_visible false c)); auto.
    destruct Hs as (_ & _ & _ & H4). simpl. intros t id. by apply H4.
  - exact Hs.
  - apply (consistent_ext s); simpl; auto.
  - destruct (g_render_thread s && negb (g_should_stop s)); [|exact Hs].
    by apply render_loop_iteration_consistent.
Qed.

Lemma run_consistent (trace : list (world * call)) (s : state) :
  consistent s → consistent (run obj trace s).
Proof.
  unfold run. revert s. induction trace as [|wc trace IH]; intros s Hs;
    simpl; [exact Hs|].
  apply IH. by apply step_consistent.
Qed.

(** *** Create and destroy *)




(** *** The active editors *)

Lemma run_cons (wc : world * call) (trace : list (world * call)) (s : state) :
  run obj (wc :: trace) s = run obj trace (step obj s wc).
Proof. reflexivity. Qed.

Lemma creates_without_context_cons (w : world) (c : call)
    (trace : list (world * call)) (s : state) :
  creates_without_context obj ((w, c) :: trace) s = true →
  (∀ e, c = guiCreateWith e → ctx s !! e = None)
  ∧ creates_without_context obj trace (step obj s (w, c)) = true.
Proof.
  intros Hfresh.
  change (match c with
          | guiCreateWith editor => bool_decide (ctx s !! editor = None)
          | _ => true
          end && creates_without_context obj trace (step obj s (w, c)) = true)
    in Hfresh.
  apply andb_prop in Hfresh as [Hc Hrest]. split; [|exact Hrest].
  intros e ->. by apply bool_decide_eq_true in Hc.
Qed.

Lemma creates_without_context_take (trace : list (world * call)) (n : nat)
    (s : state) :
  creates_without_context obj trace s = true →
  creates_without_context obj (take n trace) s = true.
Proof.
  revert n s. induction trace as [|[w c] trace IH]; intros n s Hfresh.
  - by rewrite take_nil.
  - destruct n as [|n]; [reflexivity|].
    apply creates_without_context_cons in Hfresh as [Hc Hrest].
    change (take (S n) ((w, c) :: trace)) with ((w, c) :: take n trace).
    change (match c with
            | guiCreateWith editor => bool_decide (ctx s !! editor = None)
            | _ => true
            end
            && creates_without_context obj (take n trace) (step obj s (w, c))
            = true).
    rewrite (IH n _ Hrest), andb_true_r.
    destruct c; try reflexivity.
    apply bool_decide_eq_true. by apply Hc.
Qed.

Lemma step_distinct (s : state) (w : world) (c : call) :
  consistent s → NoDup (g_active_editors s) →
  (∀ e, c = guiCreateWith e → ctx s !! e = None) →
  NoDup (g_active_editors (step obj s (w, c))).
Proof.
  intros (Hact & _) Hnodup Hfresh. rewrite step_active.
  destruct c as [e|e|e window|e width height|e|e|e|pid v e|]; try exact Hnodup.
  - destruct (ftxui_clap_guiCreateWith obj w e s).1; [|exact Hnodup].
    apply NoDup_app. repeat split; [exact Hnodup| |apply NoDup_singleton].
    intros x Hx Hxe%list_elem_of_singleton. subst x.
    apply Hact in Hx. rewrite (Hfresh e eq_refl) in Hx. by destruct Hx.
  - destruct (N.eqb e 0); [exact Hnodup|].
    destruct (ctx s !! e); [|exact Hnodup].
    by apply NoDup_filter.
Qed.

Lemma run_distinct (trace : list (world * call)) (s : state) :
  consistent s → NoDup (g_active_editors s) →
  creates_without_context obj trace s = true →
  NoDup (g_active_editors (run obj trace s)).
Proof.
  revert s.
  induction trace as [|[w c] trace IH]; intros s Hs Hnodup Hfresh;
    [exact Hnodup|].
  apply creates_without_context_cons in Hfresh as [Hc Hrest].
  rewrite run_cons.
  apply IH; [by apply step_consistent| |exact Hrest].
  by apply step_distinct.
Qed.

(** A [guiCreateWith] that returns [true] adds one entry for its editor at
    the end of the active editors, whether the editor has a context or
    not. *)
Lemma create_registers (w : world) (e : ptr) (s s' : state) :
  ftxui_clap_guiCreateWith obj w e s = (true, s') →
  g_active_editors s' = g_active_editors s ++ [e].
Proof.
  intros Hcreate.
  pose proof (step_active s w (guiCreateWith e)) as Hact.
  simpl in Hact. rewrite Hcreate in Hact. exact Hact.
Qed.

(** C8, as amended.  In a sequence of calls from the start of the library
    in which every [ftxui_clap_guiCreateWith] is called on an editor that
    has no context at that point, the active editors hold no editor twice
    at any point of the sequence.  [ftxui_clap_guiCreateWith] itself does
    not look for the editor among the active ones: when it returns [true]
    it has added one more entry for the editor. *)
Theorem active_editors_distinct (trace : list (world * call)) (n : nat) :
  creates_without_context obj trace init = true →
  NoDup (g_active_editors (run obj (take n trace) init))
  ∧ (∀ (w : world) (e : ptr) (s s' : state),
       ftxui_clap_guiCreateWith obj w e s = (true, s') →
       g_active_editors s' = g_active_editors s ++ [e]).
Proof.
  intros Hfresh. split; [|apply create_registers].
  apply run_distinct.
  - apply init_consistent.
  - apply NoDup_nil_2.
  - by apply creates_without_context_take.
Qed.



End lifecycle_properties.

(** Two editors are created and the first is shown: the second is hidden
    during the next iteration of the render loop. *)
Lemma hidden_editor_record_unchanged_witness :
  let s := Support.run Sample.plain
             [(Sample.linux, Support.guiCreateWith 1%N);
              (Sample.linux, Support.guiCreateWith 2%N);
              (Sample.linux, Support.guiShowWith 1%N)] Support.init in
  let s' := Support.render_loop_iteration Sample.linux s in
  Terminal.content <$> Support.global_record s' (Support.editor_id 2%N)
  = Terminal.content <$> Support.global_record s (Support.editor_id 2%N)
  ∧ Support.global_record s' (Support.editor_id 2%N)
    = Support.global_record s (Support.editor_id 2%N)
  ∧ (∀ e id, Support.context_record s' e id = Support.context_record s e id)
  ∧ Support.ctx s' = Support.ctx s.
Proof.
  intros s.
  apply (hidden_editor_record_unchanged Sample.linux s 2%N).
  intros c Hc. vm_compute in Hc. injection Hc as <-. left. reflexivity.
Defined.

(** Editor 1 is created, destroyed and created again, next to editor 2. *)
Lemma active_editors_distinct_witness :
  let trace :=
    [(Sample.linux, Support.guiCreateWith 1%N);
     (Sample.linux, Support.guiCreateWith 2%N);
     (Sample.linux, Support.guiDestroyWith 1%N);
     (Sample.linux, Support.guiCreateWith 1%N)] in
  NoDup (Support.g_active_editors
           (Support.run Sample.plain (take 4 trace) Support.init))
  ∧ (∀ (w : Support.world (P := X11.platform)) (e : ptr)
       (s s' : Support.state),
       Support.ftxui_clap_guiCreateWith Sample.plain w e s = (true, s') →
       Support.g_active_editors s' = Support.g_active_editors s ++ [e]).
Proof.
  intros trace.
  apply (active_editors_distinct Sample.plain trace 4).
  vm_compute. reflexivity.
Defined.

(** C8 as stated fails: after two [ftxui_clap_guiCreateWith] on editor 1,
    both of which return [true], the active editors are 1 and 1. *)
Lemma create_twice_duplicates :
  let s1 := Support.ftxui_clap_guiCreateWith Sample.plain Sample.linux 1%N
              Support.init in
  let s2 := Support.ftxui_clap_guiCreateWith Sample.plain Sample.linux 1%N
              s1.2 in
  s1.1 = true ∧ s2.1 = true
  ∧ Support.g_active_editors s2.2 = [1%N; 1%N]
  ∧ ¬ NoDup (Support.g_active_editors
               (Support.run Sample.plain
                  [(Sample.linux, Support.guiCreateWith 1%N);
                   (Sample.linux, Support.guiCreateWith 1%N)] Support.init)).
Proof.
  repeat split; try reflexivity.
  change (¬ NoDup [1%N; 1%N]).
  intros Hnodup. apply NoDup_cons in Hnodup as [Hnotin _].
  apply Hnotin. apply list_elem_of_singleton. reflexivity.
Qed.



(** A window of editor 1 is made, the editor is created a second time and
    then destroyed: the terminals that the library holds have no record for
    it, and the context of the first creation, which nothing points to any
    more, still has its terminal with the record. *)
Example create_twice_leaves_context :
  let s := Support.run Sample.plain
             [(Sample.linux, Support.guiCreateWith 1%N);
              (Sample.linux,
               Support.guiSetParentWith 1%N (Some Sample.host_window));
              (Sample.linux, Support.guiCreateWith 1%N);
              (Sample.linux, Support.guiDestroyWith 1%N)] Support.init in
  Support.ctx s = ∅
  ∧ Support.g_active_editors s = []
  ∧ (λ c, (λ t, Terminal.platform_handle <$> Terminal.editors_ t !! "1")
          <$> Support.terminal c) <$> Support.leaked s
    = [Some (Some 107%N)].
Proof. vm_compute. repeat split; reflexivity. Qed.

(** * Further properties *)

(** ** The Linux renderer *)

Section linux_renderer_properties.
Import X11.

Lemma parse_terminal_content_nonempty (c : ascii) (s : string) :
  parse_terminal_content (String c s)
  = (getline (String c s)).1 :: parse_terminal_content (getline (String c s)).2.
Proof. by simp parse_terminal_content. Qed.

(** [getline] on a line without newline that is followed by a newline gives
    the line and what comes after the newline. *)
Lemma getline_line (line rest : string) :
  has_newline line = false →
  getline (line +:+ String newline rest) = (line, rest).
Proof.
  intros Hline. induction line as [|c line IH].
  - reflexivity.
  - rewrite append_cons. simpl in *.
    apply orb_false_elim in Hline as [Hc Hline].
    rewrite Hc, (IH Hline). reflexivity.
Qed.

(** X1.  Cutting is the inverse of joining: for lines without newline, the
    text made of each line followed by a newline is cut by
    [parse_terminal_content] into these lines again. *)
Theorem parse_unlines_round_trip (lines : list string) :
  Forall (λ line, has_newline line = false) lines →
  parse_terminal_content (unlines lines) = lines.
Proof.
  induction 1 as [|line lines Hline _ IH]; [reflexivity|].
  cbn [unlines].
  destruct (line +:+ String newline (unlines lines)) as [|c s] eqn:Hs.
  - destruct line; discriminate.
  - rewrite parse_terminal_content_nonempty, <- Hs.
    rewrite (getline_line _ _ Hline). simpl. by rewrite IH.
Qed.

(** The loop of [render] draws lines of its list, in their order, none
    below the window. *)
Lemma render_lines_safe (r : LinuxTerminalRenderer) (y_offset : Z)
    (lines : list string) :
  Forall (λ line, has_newline line = false) lines →
  Forall (λ q, match q with
               | DrawStringUtf8 w x y text =>
                   w = window_ r ∧ x = 5 ∧ y ≤ height_ r
                   ∧ text ≠ "" ∧ has_newline text = false
               | _ => False
               end) (render_lines r y_offset lines)
  ∧ drawn_text (render_lines r y_offset lines) `sublist_of` lines.
Proof.
  intros Hlines. revert y_offset.
  induction Hlines as [|line lines Hline _ IH]; intros y_offset.
  - split; [constructor|]. simpl. constructor.
  - simpl. destruct (Z.gtb_spec y_offset (height_ r)) as [Hgt|Hle].
    + split; [constructor|]. apply sublist_nil_l.
    + destruct (IH (y_offset + char_height_ r)) as [Hall Hsub].
      destruct (String.eqb_spec line "") as [->|Hne]; simpl.
      * split; [exact Hall|]. by apply sublist_cons.
      * split; [|by apply sublist_skip].
        constructor; [|exact Hall]. repeat split; auto.
Qed.

(** X2.  Whatever the renderer and the content, [render] only clears the
    rectangle of the window, draws strings and flushes; every string it
    draws is a line of the content that is not empty, drawn in the window of
    the renderer at the left margin 5 and not below the height of the
    window; and the strings drawn are lines of the content in their order,
    each line at most once. *)
Theorem render_stays_in_window (r : LinuxTerminalRenderer) (content : string) :
  Forall (λ q, match q with
               | FillRectangle w x y wd ht =>
                   w = window_ r ∧ x = 0 ∧ y = 0
                   ∧ wd = width_ r ∧ ht = height_ r
               | DrawStringUtf8 w x y text =>
                   w = window_ r ∧ x = 5 ∧ y ≤ height_ r
                   ∧ text ≠ "" ∧ has_newline text = false
               | Flush => True
               | _ => False
               end) (render r content)
  ∧ drawn_text (render r content) `sublist_of` parse_terminal_content content.
Proof.
  unfold render.
  destruct (negb (xft_draw_ r) || negb (font_ r)).
  { split; [constructor|apply sublist_nil_l]. }
  destruct (parse_terminal_content_spec content) as [Hlines _].
  destruct (render_lines_safe r (char_height_ r) _ Hlines) as [Hall Hsub].
  split.
  - constructor; [auto|]. apply Forall_app. split.
    + eapply Forall_impl; [exact Hall|]. intros []; simpl; tauto.
    + constructor; [exact I|constructor].
  - unfold drawn_text in *. simpl. rewrite omap_app. simpl.
    by rewrite app_nil_r.
Qed.

(** The first font of the chain of [renderer_initialize] that opens. *)
Lemma renderer_initialize_spec (x : answers) (r : LinuxTerminalRenderer) :
  let font :=
    match XftFontOpenName x "monospace-12" with
    | Some f => Some f
    | None =>
        match XftFontOpenName x "fixed-12" with
        | Some f => Some f
        | None => XftFontOpenName x "fixed"
        end
    end in
  match XGetWindowAttributes x, font with
  | Some (w, h), Some (cw, ch) =>
      if XCreateGC x && XftDrawCreate x then
        renderer_initialize x r
        = (true, {| window_ := window_ r; xft_draw_ := true; font_ := true;
                    gc_ := true; char_width_ := cw; char_height_ := ch;
                    width_ := w; height_ := h |})
      else (renderer_initialize x r).1 = false
  | _, _ => (renderer_initialize x r).1 = false
  end.
Proof.
  unfold renderer_initialize.
  destruct (XGetWindowAttributes x) as [[w h]|]; [|reflexivity].
  destruct (XCreateGC x), (XftDrawCreate x); simpl;
    destruct (XftFontOpenName x "monospace-12") as [[]|];
    try reflexivity;
    destruct (XftFontOpenName x "fixed-12") as [[]|]; try reflexivity;
    destruct (XftFontOpenName x "fixed") as [[]|]; reflexivity.
Qed.

(** X3.  [LinuxTerminalRenderer::initialize] succeeds exactly when the
    attributes of the window are read, the graphics context and the Xft
    draw are made and one of the fonts "monospace-12", "fixed-12" and
    "fixed" opens.  The renderer is then ready to draw, has the size of the
    window, and has the cell of the first of these fonts that opens: that
    of "monospace-12" when it opens, else that of "fixed-12" when it opens,
    else that of "fixed". *)
Theorem renderer_initialize_font_chain (x : answers)
    (r : LinuxTerminalRenderer) :
  let r' := (renderer_initialize x r).2 in
  ((renderer_initialize x r).1 = true
   ↔ is_Some (XGetWindowAttributes x) ∧ XCreateGC x = true
     ∧ XftDrawCreate x = true
     ∧ (is_Some (XftFontOpenName x "monospace-12")
        ∨ is_Some (XftFontOpenName x "fixed-12")
        ∨ is_Some (XftFontOpenName x "fixed")))
  ∧ ((renderer_initialize x r).1 = true →
     xft_draw_ r' = true ∧ font_ r' = true ∧ gc_ r' = true
     ∧ window_ r' = window_ r
     ∧ XGetWindowAttributes x = Some (width_ r', height_ r')
     ∧ Some (char_width_ r', char_height_ r')
       = match XftFontOpenName x "monospace-12" with
         | Some f => Some f
         | None =>
             match XftFontOpenName x "fixed-12" with
             | Some f => Some f
             | None => XftFontOpenName x "fixed"
             end
         end).
Proof.
  intros r'. subst r'. pose proof (renderer_initialize_spec x r) as Hspec.
  simpl in Hspec.
  destruct (XGetWindowAttributes x) as [[w h]|]; cycle 1.
  { rewrite Hspec. split; [|discriminate].
    split; [discriminate|]. intros [[? [=]] _]. }
  destruct (XftFontOpenName x "monospace-12") as [[cw ch]|] eqn:H1;
    [|destruct (XftFontOpenName x "fixed-12") as [[cw ch]|] eqn:H2;
      [|destruct (XftFontOpenName x "fixed") as [[cw ch]|] eqn:H3]].
  4: { rewrite Hspec. split; [|discriminate].
       split; [discriminate|].
       intros (_ & _ & _ & [[? [=]]|[[? [=]]|[? [=]]]]). }
  all: destruct (XCreateGC x), (XftDrawCreate x); simpl in Hspec;
    rewrite Hspec; simpl;
    (split; [split; [intros; repeat split; eauto | try done;
                     intros (_ & ? & ? & _); discriminate]
            | try discriminate; intros _; repeat split; reflexivity]).
Qed.

End linux_renderer_properties.

(** A text of three lines, the second empty. *)
Lemma parse_unlines_round_trip_witness :
  X11.parse_terminal_content (X11.unlines ["a"; ""; "b"]) = ["a"; ""; "b"].
Proof.
  apply (parse_unlines_round_trip ["a"; ""; "b"]).
  repeat constructor.
Defined.

(** ** The registry, on every backend *)

Section registry_frame.
Context {P : Terminal.Platform}.
Import Terminal.

(** X4.  On a registered identifier, [update_content], [resize_window] and
    [show_window] store what they are given in the record of that
    identifier, keep the other fields of the record, and leave the records
    of all other identifiers as they were. *)
Theorem registered_window_updates (x : native) (id : string)
    (w : editor_window) (t : embedded_terminal) (g : statics) :
  editors_ t !! id = Some w →
  (∀ text,
     editors_ (update_content x id text t g).1 !! id
     = Some {| content := text; platform_handle := platform_handle w;
               width := width w; height := height w; visible := visible w |}
     ∧ ∀ id', id' ≠ id →
         editors_ (update_content x id text t g).1 !! id' = editors_ t !! id')
  ∧ (∀ wd ht,
       editors_ (resize_window id wd ht t g).1 !! id
       = Some {| content := content w; platform_handle := platform_handle w;
                 width := wd; height := ht; visible := visible w |}
       ∧ ∀ id', id' ≠ id →
           editors_ (resize_window id wd ht t g).1 !! id' = editors_ t !! id')
  ∧ (∀ v,
       editors_ (show_window id v t g).1 !! id
       = Some {| content := content w; platform_handle := platform_handle w;
                 width := width w; height := height w; visible := v |}
       ∧ ∀ id', id' ≠ id →
           editors_ (show_window id v t g).1 !! id' = editors_ t !! id').
Proof.
  intros Hw. unfold update_content, resize_window, show_window.
  rewrite Hw. simpl.
  repeat split; intros; try apply lookup_insert_eq;
    by apply lookup_insert_ne.
Qed.

(** X5.  [remove_editor] takes out the record of its identifier and no
    other, whether the identifier is registered or not, and a second
    [remove_editor] of the same identifier changes nothing: neither the
    registry nor the backend. *)
Theorem remove_editor_only_that (id : string) (t : embedded_terminal)
    (g : statics) :
  let t' := (remove_editor id t g).1 in
  let g' := (remove_editor id t g).2 in
  editors_ t' !! id = None
  ∧ (∀ id', id' ≠ id → editors_ t' !! id' = editors_ t !! id')
  ∧ remove_editor id t' g' = (t', g').
Proof.
  intros t' g'. subst t' g'.
  assert (editors_ (remove_editor id t g).1 !! id = None) as Hgone.
  { unfold remove_editor.
    destruct (editors_ t !! id) as [w|] eqn:Hw; [|exact Hw].
    destruct (platform_destroy_window w g). simpl. apply lookup_delete_eq. }
  split; [exact Hgone|]. split.
  - intros id' Hne. unfold remove_editor.
    destruct (editors_ t !! id) as [w|]; [|reflexivity].
    destruct (platform_destroy_window w g). simpl.
    by apply lookup_delete_ne.
  - unfold remove_editor at 1. rewrite Hgone.
    by destruct (remove_editor id t g).
Qed.


End registry_frame.

(** A registry with the window of editor 1 and an identifier "2" beside
    it. *)
Lemma registered_window_updates_witness :
  let w := {| Terminal.content := "ui"; Terminal.platform_handle := 107%N;
              Terminal.width := 640; Terminal.height := 384;
              Terminal.visible := false |} in
  let t := {| Terminal.editors_ := {[ "1" := w ]} |} in
  Terminal.editors_
    (Terminal.update_content (P := X11.platform) Sample.x11_up "1" "text" t
       Sample.linux_open).1 !! "1"
  = Some {| Terminal.content := "text"; Terminal.platform_handle := 107%N;
            Terminal.width := 640; Terminal.height := 384;
            Terminal.visible := false |}
  ∧ Terminal.editors_
      (Terminal.update_content (P := X11.platform) Sample.x11_up "1" "text" t
         Sample.linux_open).1 !! "2"
    = None.
Proof.
  intros w t.
  destruct (registered_window_updates (P := X11.platform) Sample.x11_up "1" w
              t Sample.linux_open eq_refl) as [Hupdate _].
  destruct (Hupdate "text") as [Hsame Hother].
  split; [exact Hsame|].
  rewrite (Hother "2") by discriminate. reflexivity.
Defined.

(** ** The backends: initialisation and shutdown *)

(** X7.  On Linux and on Windows [platform_initialize] asks the platform
    once: when it has succeeded, every later call returns [true] without
    asking and without changing anything; when it fails, it has changed
    nothing.  It sends no request and touches no renderer. *)
Theorem platform_initialize_once :
  (∀ (x x' : X11.answers) (g : X11.globals),
     let r := X11.platform_initialize x g in
     (r.1 = true →
      X11.g_display r.2 = true ∧ X11.platform_initialize x' r.2 = (true, r.2))
     ∧ (r.1 = false → r.2 = g ∧ X11.g_display g = false)
     ∧ X11.sent r.2 = X11.sent g
     ∧ X11.g_renderers r.2 = X11.g_renderers g)
  ∧ (∀ (x x' : Win32.answers) (g : Win32.globals),
       let r := Win32.platform_initialize x g in
       (r.1 = true →
        Win32.g_class_registered r.2 = true
        ∧ Win32.platform_initialize x' r.2 = (true, r.2))
       ∧ (r.1 = false → r.2 = g ∧ Win32.g_class_registered g = false)
       ∧ Win32.sent r.2 = Win32.sent g
       ∧ Win32.g_renderers r.2 = Win32.g_renderers g).
Proof.
  split.
  - intros x x' [rs d l]. unfold X11.platform_initialize. simpl.
    destruct d; simpl; [repeat split; auto; discriminate|].
    destruct (X11.XOpenDisplay x); simpl; repeat split; auto; discriminate.
  - intros x x' [rs d l]. unfold Win32.platform_initialize. simpl.
    destruct d; simpl; [repeat split; auto; discriminate|].
    destruct (Win32.RegisterClassEx x); simpl; repeat split; auto;
      discriminate.
Qed.

Section linux_shutdown.
Import Terminal.

(** The loop of [shutdown] over the windows, on Linux. *)
Lemma linux_destroy_windows (l : list (string * editor_window))
    (g : X11.globals) :
  let g' := foldr (λ kw g, (X11.platform_destroy_window kw.2 g).2) g l in
  X11.g_display g' = X11.g_display g
  ∧ (X11.g_display g = false → g' = g)
  ∧ (∃ more, X11.sent g' = X11.sent g ++ more
             ∧ (X11.g_display g = true →
                ∀ kw, kw ∈ l → platform_handle kw.2 ≠ 0%N →
                      X11.DestroyWindow (platform_handle kw.2) ∈ more)).
Proof.
  induction l as [|kw l IH]; simpl.
  - split; [reflexivity|]. split; [reflexivity|].
    exists []. rewrite app_nil_r. split; [reflexivity|].
    intros _ kw Hkw. by apply elem_of_nil in Hkw.
  - destruct IH as (Hd & Hoff & more & Hsent & Hmore).
    set (g1 := foldr _ g l) in *.
    unfold X11.platform_destroy_window.
    destruct (N.eqb_spec (platform_handle kw.2) 0) as [Hz|Hnz]; simpl.
    + split; [exact Hd|]. split; [exact Hoff|].
      exists more. split; [exact Hsent|].
      intros Hon kw' [->|Hin]%elem_of_cons Hh; [congruence|].
      by apply Hmore.
    + destruct (X11.g_display g1) eqn:Hd1; simpl.
      * split; [congruence|]. split; [intros Hg; congruence|].
        exists (more ++ [X11.DestroyWindow (platform_handle kw.2); X11.Flush]).
        split; [by rewrite Hsent, app_assoc|].
        intros Hon kw' [->|Hin]%elem_of_cons Hh.
        -- apply elem_of_app. right. apply elem_of_cons. by left.
        -- apply elem_of_app. left. by apply Hmore.
      * split; [congruence|]. split; [exact Hoff|].
        exists more. split; [exact Hsent|].
        intros Hon. congruence.
Qed.

(** X8.  [embedded_terminal::shutdown] on Linux leaves no record, no
    renderer and no display connection, and a second [shutdown] changes
    nothing.  When the display was open, it has asked for the destruction
    of every registered window that has a native handle, and its last
    request closes the display; when the display was not open, it has sent
    nothing. *)
Theorem linux_shutdown_leaves_nothing (t : embedded_terminal)
    (g : X11.globals) :
  let t' := (shutdown (P := X11.platform) t g).1 in
  let g' := (shutdown (P := X11.platform) t g).2 in
  editors_ t' = ∅
  ∧ X11.g_renderers g' = ∅
  ∧ X11.g_display g' = false
  ∧ shutdown (P := X11.platform) t' g' = (t', g')
  ∧ (X11.g_display g = true →
     last (X11.sent g') = Some X11.CloseDisplay
     ∧ ∀ id w, editors_ t !! id = Some w → platform_handle w ≠ 0%N →
               X11.DestroyWindow (platform_handle w) ∈ X11.sent g')
  ∧ (X11.g_display g = false → X11.sent g' = X11.sent g).
Proof.
  intros t' g'. subst t' g'. unfold shutdown. simpl.
  destruct (linux_destroy_windows (map_to_list (editors_ t)) g)
    as (Hd & Hoff & more & Hsent & Hmore).
  set (g1 := foldr _ g _) in *.
  unfold X11.platform_shutdown. simpl. rewrite Hd.
  destruct (X11.g_display g) eqn:Hg; simpl.
  - split; [reflexivity|]. split; [reflexivity|]. split; [reflexivity|].
    split; [by rewrite map_to_list_empty|].
    split; [|discriminate]. intros _. split.
    + rewrite last_snoc. reflexivity.
    + intros id w Hw Hh. rewrite Hsent.
      apply elem_of_app. left. apply elem_of_app. right.
      apply (Hmore eq_refl (id, w)); [|exact Hh].
      by apply elem_of_map_to_list.
  - rewrite (Hoff eq_refl), Hg. simpl.
    split; [reflexivity|]. split; [reflexivity|]. split; [reflexivity|].
    split; [|split; [discriminate|reflexivity]].
    rewrite map_to_list_empty. simpl. by rewrite Hg.
Qed.

End linux_shutdown.

(** ** The Linux backend: windows *)

Section linux_windows.
Import Terminal.

(** X9.  A [create_window] that fails on Linux leaves nothing half made:
    the registry, the renderers and the display connection are as they
    were, and what it has sent is nothing (the display is not open), or the
    request for a window that the server refused, or the request for a
    window followed by the destruction of that window. *)
Theorem linux_create_window_unwinds (x : X11.answers) (id : string)
    (parent : ptr) (px py wd ht : Z) (t : embedded_terminal)
    (g : X11.globals) :
  let r := create_window (P := X11.platform) x id parent px py wd ht t g in
  let p := if N.eqb parent 0 then X11.DefaultRootWindow x else parent in
  let child := X11.XCreateSimpleWindow x p in
  r.1.1 = false →
  r.1.2 = t
  ∧ X11.g_renderers r.2 = X11.g_renderers g
  ∧ X11.g_display r.2 = X11.g_display g
  ∧ ((X11.g_display g = false ∧ X11.sent r.2 = X11.sent g)
     ∨ (child = 0%N
        ∧ X11.sent r.2
          = X11.sent g ++ [X11.CreateSimpleWindow p px py wd ht 0%N])
     ∨ (child ≠ 0%N
        ∧ X11.sent r.2
          = X11.sent g
            ++ [X11.CreateSimpleWindow p px py wd ht child;
                X11.SelectInput child; X11.MapWindow child;
                X11.DestroyWindow child])).
Proof.
  intros r p child. subst r p child.
  unfold create_window. simpl. unfold X11.platform_create_window.
  destruct (X11.g_display g) eqn:Hd; simpl; [|auto 10].
  set (p := if N.eqb parent 0 then _ else _).
  destruct (N.eqb_spec (X11.XCreateSimpleWindow x p) 0) as [Hz|Hnz]; simpl.
  - intros _. rewrite Hz. auto 10.
  - destruct (X11.renderer_initialize x _) as [[] renderer]; simpl;
      [discriminate|].
    intros _. repeat split; auto. right. right. split; [exact Hnz|].
    by rewrite <- !app_assoc.
Qed.

(** X10.  After a [create_window] that succeeds on Linux, the registry has
    the record of the identifier, with the handle of the new window, the
    size asked for, no content and not visible; the backend has the
    initialised renderer of that window; and every [update_content] of the
    identifier stores the text and sends what that renderer renders for
    it, and nothing else. *)
Theorem linux_create_then_update (x : X11.answers) (id : string)
    (parent : ptr) (px py wd ht : Z) (t t' : embedded_terminal)
    (g g' : X11.globals) :
  create_window (P := X11.platform) x id parent px py wd ht t g
  = (true, t', g') →
  let child :=
    X11.XCreateSimpleWindow x
      (if N.eqb parent 0 then X11.DefaultRootWindow x else parent) in
  ∃ r,
    X11.renderer_initialize x (X11.renderer_new child) = (true, r)
    ∧ child ≠ 0%N
    ∧ X11.g_renderers g' !! child = Some r
    ∧ editors_ t' !! id
      = Some {| content := ""; platform_handle := child; width := wd;
                height := ht; visible := false |}
    ∧ ∀ (x' : X11.answers) (text : string),
        let u := update_content (P := X11.platform) x' id text t' g' in
        editors_ u.1 !! id
        = Some {| content := text; platform_handle := child; width := wd;
                  height := ht; visible := false |}
        ∧ X11.sent u.2 = X11.sent g' ++ X11.render r text
        ∧ X11.g_renderers u.2 = X11.g_renderers g'.
Proof.
  unfold create_window. simpl. unfold X11.platform_create_window.
  destruct (X11.g_display g); simpl; [|discriminate].
  set (p := if N.eqb parent 0 then _ else _).
  destruct (N.eqb_spec (X11.XCreateSimpleWindow x p) 0) as [Hz|Hnz]; simpl;
    [discriminate|].
  destruct (X11.renderer_initialize x _) as [[] r] eqn:Hinit; simpl;
    [|discriminate].
  intros [= <- <-]. exists r. simpl.
  split; [reflexivity|]. split; [exact Hnz|].
  split; [apply lookup_insert_eq|]. split; [apply lookup_insert_eq|].
  intros x' text. unfold update_content. simpl.
  rewrite lookup_insert_eq. simpl.
  unfold X11.platform_update_window. simpl.
  rewrite !lookup_insert_eq. simpl. auto.
Qed.

(** X11.  On Linux, with the display open, [resize_window] of a registered
    window that has a handle and a renderer gives the new size to the
    record and to the renderer, and sends the resize request and a flush:
    it draws nothing.  The next [update_content] sends what the resized
    renderer renders, which, for a renderer that is ready, starts with the
    clearing of the rectangle of the new size. *)
Theorem linux_resize_then_update (id : string) (w : editor_window)
    (r : X11.LinuxTerminalRenderer) (wd ht : Z) (t : embedded_terminal)
    (g : X11.globals) :
  editors_ t !! id = Some w →
  platform_handle w ≠ 0%N →
  X11.g_display g = true →
  X11.g_renderers g !! platform_handle w = Some r →
  let s := resize_window (P := X11.platform) id wd ht t g in
  editors_ s.1 !! id
  = Some {| content := content w; platform_handle := platform_handle w;
            width := wd; height := ht; visible := visible w |}
  ∧ X11.g_renderers s.2 !! platform_handle w = Some (X11.resize r wd ht)
  ∧ X11.sent s.2
    = X11.sent g ++ [X11.ResizeWindow (platform_handle w) wd ht; X11.Flush]
  ∧ ∀ (x : X11.answers) (text : string),
      X11.sent (update_content (P := X11.platform) x id text s.1 s.2).2
      = X11.sent s.2 ++ X11.render (X11.resize r wd ht) text
      ∧ (X11.xft_draw_ r = true → X11.font_ r = true →
         head (X11.render (X11.resize r wd ht) text)
         = Some (X11.FillRectangle (X11.window_ r) 0 0 wd ht)).
Proof.
  intros Hw Hh Hd Hr s. subst s.
  unfold resize_window. rewrite Hw. simpl.
  unfold X11.platform_resize_window. simpl.
  apply N.eqb_neq in Hh. rewrite Hh, Hd, Hr. simpl.
  split; [apply lookup_insert_eq|]. split; [apply lookup_insert_eq|].
  split; [by rewrite <- app_assoc|].
  intros x text. split.
  - unfold update_content. simpl. rewrite lookup_insert_eq. simpl.
    unfold X11.platform_update_window. simpl.
    rewrite lookup_insert_eq. reflexivity.
  - intros Hdraw Hfont. unfold X11.render. simpl.
    rewrite Hdraw, Hfont. reflexivity.
Qed.

End linux_windows.

(** The server makes the window 107 and no font opens. *)
Lemma linux_create_window_unwinds_witness :
  let r := Terminal.create_window (P := X11.platform) Sample.x11_no_font "1"
             7%N 0 0 640 384 Terminal.new Sample.linux_open in
  r.1.2 = Terminal.new
  ∧ X11.g_renderers r.2 = X11.g_renderers Sample.linux_open
  ∧ X11.g_display r.2 = X11.g_display Sample.linux_open
  ∧ ((X11.g_display Sample.linux_open = false
      ∧ X11.sent r.2 = X11.sent Sample.linux_open)
     ∨ (107%N = 0%N
        ∧ X11.sent r.2
          = X11.sent Sample.linux_open
            ++ [X11.CreateSimpleWindow 7%N 0 0 640 384 0%N])
     ∨ (107%N ≠ 0%N
        ∧ X11.sent r.2
          = X11.sent Sample.linux_open
            ++ [X11.CreateSimpleWindow 7%N 0 0 640 384 107%N;
                X11.SelectInput 107%N; X11.MapWindow 107%N;
                X11.DestroyWindow 107%N])).
Proof.
  intros r.
  apply (linux_create_window_unwinds Sample.x11_no_font "1" 7%N 0 0 640 384
           Terminal.new Sample.linux_open).
  reflexivity.
Defined.

(** The window of [Sample.linux_window]. *)
Lemma linux_create_then_update_witness :
  ∃ r,
    X11.renderer_initialize Sample.x11_up (X11.renderer_new 107%N) = (true, r)
    ∧ 107%N ≠ 0%N
    ∧ X11.g_renderers Sample.linux_window.2 !! 107%N = Some r
    ∧ Terminal.editors_ Sample.linux_window.1.2 !! "1"
      = Some {| Terminal.content := ""; Terminal.platform_handle := 107%N;
                Terminal.width := 640; Terminal.height := 384;
                Terminal.visible := false |}
    ∧ ∀ (x' : X11.answers) (text : string),
        let u := Terminal.update_content (P := X11.platform) x' "1" text
                   Sample.linux_window.1.2 Sample.linux_window.2 in
        Terminal.editors_ u.1 !! "1"
        = Some {| Terminal.content := text; Terminal.platform_handle := 107%N;
                  Terminal.width := 640; Terminal.height := 384;
                  Terminal.visible := false |}
        ∧ X11.sent u.2 = X11.sent Sample.linux_window.2 ++ X11.render r text
        ∧ X11.g_renderers u.2 = X11.g_renderers Sample.linux_window.2.
Proof.
  apply (linux_create_then_update Sample.x11_up "1" 7%N 0 0 640 384
           Terminal.new Sample.linux_window.1.2 Sample.linux_open
           Sample.linux_window.2).
  reflexivity.
Defined.

(** The window of [Sample.linux_window] is resized to 800 by 600. *)
Lemma linux_resize_then_update_witness :
  let w := {| Terminal.content := ""; Terminal.platform_handle := 107%N;
              Terminal.width := 640; Terminal.height := 384;
              Terminal.visible := false |} in
  let r := (X11.renderer_initialize Sample.x11_up (X11.renderer_new 107%N)).2 in
  let s := Terminal.resize_window (P := X11.platform) "1" 800 600
             Sample.linux_window.1.2 Sample.linux_window.2 in
  Terminal.editors_ s.1 !! "1"
  = Some {| Terminal.content := ""; Terminal.platform_handle := 107%N;
            Terminal.width := 800; Terminal.height := 600;
            Terminal.visible := false |}
  ∧ X11.g_renderers s.2 !! 107%N = Some (X11.resize r 800 600)
  ∧ X11.sent s.2
    = X11.sent Sample.linux_window.2
      ++ [X11.ResizeWindow 107%N 800 600; X11.Flush]
  ∧ ∀ (x : X11.answers) (text : string),
      X11.sent (Terminal.update_content (P := X11.platform) x "1" text
                  s.1 s.2).2
      = X11.sent s.2 ++ X11.render (X11.resize r 800 600) text
      ∧ (X11.xft_draw_ r = true → X11.font_ r = true →
         head (X11.render (X11.resize r 800 600) text)
         = Some (X11.FillRectangle (X11.window_ r) 0 0 800 600)).
Proof.
  intros w r s.
  apply (linux_resize_then_update "1" w r 800 600 Sample.linux_window.1.2
           Sample.linux_window.2);
    [reflexivity|discriminate|reflexivity|reflexivity].
Defined.

(** ** The library: start, stop and registration *)

Section support_lifecycle.
Context {P : Terminal.Platform}.
Variable obj : ptr → Editor.ftxui_clap_editor.
Import Terminal Support.

(** Taking an editor out of a list that does not hold it, and out of that
    list followed by the editor. *)
Lemma filter_not_elem (e : ptr) (l : list ptr) :
  e ∉ l → filter (λ x, x ≠ e) l = l.
Proof.
  induction l as [|x l IH]; intros Hnot; [reflexivity|].
  apply not_elem_of_cons in Hnot as [Hne Hnot].
  rewrite filter_cons_True by congruence. by rewrite IH.
Qed.

Lemma filter_snoc_fresh (e : ptr) (l : list ptr) :
  e ∉ l → filter (λ x, x ≠ e) (l ++ [e]) = l.
Proof.
  intros Hnot. rewrite filter_app, filter_not_elem by exact Hnot.
  rewrite filter_cons_False by (intros H; by apply H).
  apply app_nil_r.
Qed.

(** An [initialize] that returns [true] has set the global terminal, and
    [initialize] makes no hook call. *)
Lemma initialize_started (w : world) (s : state) :
  ((initialize w s).1 = true → is_Some (g_terminal (initialize w s).2))
  ∧ calls (initialize w s).2 = calls s.
Proof.
  unfold initialize.
  destruct (g_terminal s) as [t|] eqn:Ht; simpl; [rewrite Ht; eauto|].
  destruct (Terminal.initialize (api w) (backend s)) as [[] g]; simpl.
  - destruct (thread_starts w); simpl; eauto.
  - destruct (Terminal.shutdown new g). simpl.
    split; [discriminate|reflexivity].
Qed.

(** X12.  [ftxui_clap_support::initialize] makes the global terminal once.
    With the global terminal set it returns [true] and changes nothing,
    whatever the platform answers and whether or not a render thread runs.
    With the global terminal null it returns [true] exactly when the
    platform initializes and the render thread starts, and the global
    terminal is set afterwards exactly when the platform initializes: when
    the platform fails, it returns [false] and leaves the global terminal
    null and the thread flags as they were; when the platform initializes
    and the thread starts, it returns [true] with a new terminal, the thread
    running and the stop flag cleared; when the platform initializes and the
    constructor of the thread throws, it returns [false] with the new
    terminal set all the same, the stop flag cleared and no thread started,
    and every later [initialize] returns [true] without starting one.  So a
    result [true] means that the global terminal is set, and the converse
    holds when the thread starts.  It never changes the contexts, the active
    editors, the queue or the call log. *)
Theorem initialize_once (w w' : world) (s : state) :
  let r := initialize w s in
  let ok := (Terminal.initialize (api w) (backend s)).1 in
  (r.1 = true → is_Some (g_terminal r.2))
  ∧ (thread_starts w = true → is_Some (g_terminal r.2) → r.1 = true)
  ∧ (is_Some (g_terminal s) → r = (true, s))
  ∧ (is_Some (g_terminal r.2) → initialize w' r.2 = (true, r.2))
  ∧ (g_terminal s = None →
     r.1 = ok && thread_starts w
     ∧ g_terminal r.2 = (if ok then Some new else None)
     ∧ g_render_thread r.2
       = (if ok && thread_starts w then true else g_render_thread s)
     ∧ g_should_stop r.2 = (if ok then false else g_should_stop s))
  ∧ ctx r.2 = ctx s
  ∧ g_active_editors r.2 = g_active_editors s
  ∧ g_parameter_queue r.2 = g_parameter_queue s
  ∧ calls r.2 = calls s.
Proof.
  intros r ok. subst r ok. unfold initialize.
  destruct (g_terminal s) as [t|] eqn:Ht.
  - simpl. rewrite Ht. repeat split; eauto; try discriminate.
  - destruct (Terminal.initialize (api w) (backend s)) as [[] g]; simpl.
    + destruct (thread_starts w); simpl;
        repeat split; eauto; try discriminate; intros [? [=]].
    + destruct (Terminal.shutdown new g) as [t' g']. simpl. rewrite Ht.
      repeat split; eauto; try discriminate;
        first [intros [? [=]] | intros _ [? [=]]].
Qed.

(** X13.  [ftxui_clap_support::shutdown] leaves no active editor, an empty
    queue, no global terminal and a stopped render thread.  The updates
    that were queued are dropped without a call of [onParameterUpdate].
    The contexts of the editors are left in place.  After it the render
    loop does not run, and a second [shutdown] changes nothing. *)
Theorem shutdown_stops_everything (w : world) (s : state) :
  let s' := shutdown s in
  g_active_editors s' = []
  ∧ g_parameter_queue s' = []
  ∧ g_terminal s' = None
  ∧ g_render_thread s' = false
  ∧ g_should_stop s' = true
  ∧ calls s' = calls s
  ∧ ctx s' = ctx s
  ∧ step obj s' (w, render_loop) = s'
  ∧ shutdown s' = s'.
Proof.
  intros s'. subst s'. unfold shutdown. simpl.
  destruct (g_terminal s) as [t|] eqn:Ht.
  - destruct (Terminal.shutdown t (backend s)) as [t' g'].
    simpl. repeat split; reflexivity.
  - simpl. rewrite Ht. repeat split; reflexivity.
Qed.

(** X14.  [unregister_editor] takes every entry of the editor out of the
    active editors and keeps the entries of all other editors; on a state
    in which the editor is not active, [register_editor] followed by
    [unregister_editor] gives the state back; and a second
    [unregister_editor] changes nothing. *)
Theorem unregister_after_register (e : ptr) (s : state) :
  (e ∉ g_active_editors (unregister_editor e s))
  ∧ (∀ x, x ≠ e →
       (x ∈ g_active_editors (unregister_editor e s) ↔ x ∈ g_active_editors s))
  ∧ (e ∉ g_active_editors s →
     unregister_editor e (register_editor e s) = s)
  ∧ unregister_editor e (unregister_editor e s) = unregister_editor e s.
Proof.
  unfold unregister_editor, register_editor. simpl.
  split; [|split; [|split]].
  - intros [Hne _]%list_elem_of_filter. by apply Hne.
  - intros x Hne. rewrite list_elem_of_filter. tauto.
  - intros Hnot. rewrite filter_snoc_fresh by exact Hnot.
    by destruct s.
  - unfold set_g_active_editors. simpl. f_equal.
    apply filter_not_elem.
    intros [Hne _]%list_elem_of_filter. by apply Hne.
Qed.

(** X15.  When the library is started and an editor has no context and is
    not active, [ftxui_clap_guiCreateWith] followed by
    [ftxui_clap_guiDestroyWith] gives the state back, apart from the three
    hook calls that were made: [onGuiCreate], [onCreateComponent] and
    [onGuiDestroy], in this order. *)
Theorem create_then_destroy (w : world) (e : ptr) (s : state) :
  e ≠ 0%N →
  is_Some (g_terminal s) →
  ctx s !! e = None →
  e ∉ g_active_editors s →
  (ftxui_clap_guiCreateWith obj w e s).1 = true
  ∧ ftxui_clap_guiDestroyWith e (ftxui_clap_guiCreateWith obj w e s).2
    = set_calls
        (calls s ++ [onGuiCreate e; onCreateComponent e; onGuiDestroy e]) s.
Proof.
  intros Hnz [t Ht] Hnone Hnot.
  unfold ftxui_clap_guiCreateWith, initialize.
  apply N.eqb_neq in Hnz. rewrite Hnz, Ht. simpl. rewrite Hnone.
  split; [reflexivity|].
  unfold ftxui_clap_guiDestroyWith. rewrite Hnz. simpl.
  rewrite lookup_alter_eq, lookup_insert_eq. simpl.
  unfold unregister_editor. simpl.
  rewrite filter_snoc_fresh by exact Hnot.
  rewrite alter_insert_eq, delete_insert_eq, delete_id by exact Hnone.
  unfold call_hook, set_calls. simpl. rewrite <- !app_assoc.
  by destruct s.
Qed.

(** X16.  After a [ftxui_clap_guiCreateWith] that returns [true], the
    editor is not null, the library is started, the editor has a context of
    80 by 24 cells that is hidden, has no terminal and has the component
    that [onCreateComponent] returned; [ftxui_clap_guiGetSizeWith] reports
    640 by 384 pixels; and [onGuiCreate] was called before
    [onCreateComponent], both once. *)
Theorem create_makes_default_context (w : world) (e : ptr) (s s' : state) :
  ftxui_clap_guiCreateWith obj w e s = (true, s') →
  e ≠ 0%N
  ∧ is_Some (g_terminal s')
  ∧ ctx s' !! e
    = Some {| editor := e;
              component := Editor.onCreateComponent (obj e);
              terminal := None; cols := 80; rows := 24; visible := false |}
  ∧ (∀ w0 h0, ftxui_clap_guiGetSizeWith e w0 h0 s' = (true, (640, 384)))
  ∧ calls s' = calls s ++ [onGuiCreate e; onCreateComponent e].
Proof.
  unfold ftxui_clap_guiCreateWith.
  destruct (N.eqb_spec e 0) as [Hz|Hnz]; [discriminate|].
  pose proof (initialize_started w s) as (Hiff & Hcalls).
  destruct (initialize w s) as [[] s1]; simpl in *; [|discriminate].
  intros [= <-]. split; [exact Hnz|].
  apply N.eqb_neq in Hnz.
  destruct (ctx s1 !! e) eqn:Hold; unfold ftxui_clap_guiGetSizeWith;
    simpl; rewrite Hnz, lookup_alter_eq, lookup_insert_eq, Hcalls,
             <- app_assoc; simpl;
    (split; [by apply Hiff|]; repeat split; reflexivity).
Qed.

End support_lifecycle.

(** Editor 1 is created in the library that the creation of editor 2 has
    started. *)
Lemma create_then_destroy_witness :
  let s := Support.run Sample.plain
             [(Sample.linux, Support.guiCreateWith 2%N)] Support.init in
  (Support.ftxui_clap_guiCreateWith Sample.plain Sample.linux 1%N s).1 = true
  ∧ Support.ftxui_clap_guiDestroyWith 1%N
      (Support.ftxui_clap_guiCreateWith Sample.plain Sample.linux 1%N s).2
    = Support.set_calls
        (Support.calls s
         ++ [Support.onGuiCreate 1%N; Support.onCreateComponent 1%N;
             Support.onGuiDestroy 1%N]) s.
Proof.
  intros s.
  apply (create_then_destroy Sample.plain Sample.linux 1%N s).
  - discriminate.
  - vm_compute. eauto.
  - vm_compute. reflexivity.
  - vm_compute. intros Hin. apply list_elem_of_singleton in Hin. discriminate.
Defined.

(** The first editor of the library on Linux. *)
Lemma create_makes_default_context_witness :
  let s' := (Support.ftxui_clap_guiCreateWith Sample.plain Sample.linux 1%N
               Support.init).2 in
  1%N ≠ 0%N
  ∧ is_Some (Support.g_terminal s')
  ∧ Support.ctx s' !! 1%N
    = Some {| Support.editor := 1%N; Support.component := 9%N;
              Support.terminal := None; Support.cols := 80;
              Support.rows := 24; Support.visible := false |}
  ∧ (∀ w0 h0,
       Support.ftxui_clap_guiGetSizeWith 1%N w0 h0 s' = (true, (640, 384)))
  ∧ Support.calls s'
    = Support.calls (Support.init (P := X11.platform))
      ++ [Support.onGuiCreate 1%N; Support.onCreateComponent 1%N].
Proof.
  intros s'.
  apply (create_makes_default_context Sample.plain Sample.linux 1%N
           Support.init s').
  reflexivity.
Defined.

(** ** The library: what the calls leave alone *)

Section support_frames.
Context {P : Terminal.Platform}.
Variable obj : ptr → Editor.ftxui_clap_editor.
Import Terminal Support.

(** A context that is replaced by one with the same terminal. *)
Lemma replace_context_keeps_windows (e : ptr) (c c' : FTXUIContext)
    (s : state) :
  ctx s !! e = Some c → terminal c' = terminal c →
  let s' := set_ctx (<[e := c']> (ctx s)) s in
  backend s' = backend s
  ∧ g_terminal s' = g_terminal s
  ∧ g_active_editors s' = g_active_editors s
  ∧ calls s' = calls s
  ∧ (∀ e' id, context_record s' e' id = context_record s e' id)
  ∧ (∀ e', e' ≠ e → ctx s' !! e' = ctx s !! e').
Proof.
  intros Hc Hterm s'. subst s'. simpl. repeat split.
  - intros e' id. unfold context_record. simpl.
    destruct (decide (e = e')) as [<-|Hne].
    + by rewrite lookup_insert_eq, Hc, Hterm.
    + by rewrite lookup_insert_ne.
  - intros e' Hne. by apply lookup_insert_ne.
Qed.

(** X17.  [ftxui_clap_guiSetSizeWith], [ftxui_clap_guiShowWith] and
    [ftxui_clap_guiHideWith] only write the context of their editor: they
    send nothing to the window system, and leave the global terminal, the
    window records of all terminals, the contexts of the other editors, the
    active editors and the call log as they were.  So the size that is set
    does not reach the native window, and a hidden editor keeps its window
    as it is.  On an editor with a context, show and hide set the
    visibility flag and nothing else of the context, and hide after show is
    hide. *)
Theorem size_and_visibility_keep_windows (e : ptr) (wd ht : Z) (s : state) :
  let unchanged (s' : state) :=
    backend s' = backend s
    ∧ g_terminal s' = g_terminal s
    ∧ g_active_editors s' = g_active_editors s
    ∧ calls s' = calls s
    ∧ (∀ e' id, context_record s' e' id = context_record s e' id)
    ∧ (∀ e', e' ≠ e → ctx s' !! e' = ctx s !! e') in
  unchanged (ftxui_clap_guiSetSizeWith obj e wd ht s).2
  ∧ unchanged (ftxui_clap_guiShowWith e s).2
  ∧ unchanged (ftxui_clap_guiHideWith e s).2
  ∧ (∀ c, e ≠ 0%N → ctx s !! e = Some c →
       ctx (ftxui_clap_guiShowWith e s).2 !! e = Some (set_visible true c)
       ∧ ctx (ftxui_clap_guiHideWith e s).2 !! e = Some (set_visible false c))
  ∧ (ftxui_clap_guiHideWith e (ftxui_clap_guiShowWith e s).2).2
    = (ftxui_clap_guiHideWith e s).2.
Proof.
  intros unchanged.
  assert (unchanged s) as Hs by (subst unchanged; simpl; auto 10).
  unfold ftxui_clap_guiSetSizeWith, ftxui_clap_guiShowWith,
    ftxui_clap_guiHideWith.
  destruct (N.eqb_spec e 0) as [Hz|Hnz]; simpl.
  { split; [exact Hs|]. split; [exact Hs|]. split; [exact Hs|].
    split; [intros c0 Hnz'; congruence|reflexivity]. }
  destruct (ctx s !! e) as [c|] eqn:Hc; simpl.
  2: { split; [exact Hs|]. split; [exact Hs|]. split; [exact Hs|].
       split; [discriminate|].
       by rewrite Hc. }
  destruct (Editor.adjustSize _ _ _) as [adjusted [n m]].
  destruct (if negb adjusted then _ else _) as [n' m']. simpl.
  split; [by apply (replace_context_keeps_windows e c)|].
  split; [by apply (replace_context_keeps_windows e c)|].
  split; [by apply (replace_context_keeps_windows e c)|].
  split.
  - intros c0 _ [= <-]. by rewrite !lookup_insert_eq.
  - rewrite lookup_insert_eq. simpl.
    by rewrite insert_insert_eq.
Qed.

(** In a consistent state the rendering of an editor changes nothing. *)
Lemma render_editor_idle (w : world) (e : ptr) (s : state) :
  consistent s → render_editor w e s = s.
Proof.
  intros (_ & _ & Hglobal & _). unfold render_editor.
  destruct (N.eqb e 0); [reflexivity|].
  destruct (ctx s !! e) as [c|]; [|reflexivity].
  destruct (visible c && negb (N.eqb (component c) 0)); [|reflexivity].
  destruct (g_terminal s) as [t|] eqn:Ht; [|reflexivity].
  rewrite update_content_empty by (by apply Hglobal).
  destruct s. simpl in *. by subst.
Qed.

(** X18.  In every state that the calls reach from the start of the
    library, one iteration of the render loop drains the parameter queue
    and does nothing else: the text that is rendered for a visible editor
    goes to the global terminal, which has no window, so no record is
    written and no request is sent to the window system. *)
Theorem render_loop_only_drains (trace : list (world * call)) (w : world) :
  let s := run obj trace init in
  render_loop_iteration w s
  = set_calls (calls s ++ deliveries (g_parameter_queue s))
      (set_g_parameter_queue [] s).
Proof.
  intros s.
  assert (consistent s) as Hs by apply run_consistent, init_consistent.
  unfold render_loop_iteration.
  rewrite process_parameter_updates_spec.
  assert (consistent (set_calls (calls s ++ deliveries (g_parameter_queue s))
                        (set_g_parameter_queue [] s))) as Hs0
    by (apply (consistent_ext s); simpl; auto).
  revert Hs0. generalize (set_calls (calls s ++ deliveries (g_parameter_queue s))
                            (set_g_parameter_queue [] s)).
  intros s0 Hs0. generalize (g_active_editors s0). intros editors.
  induction editors as [|e editors IH]; simpl; [reflexivity|].
  by rewrite render_editor_idle.
Qed.

(** X19.  [ftxui_clap_guiDestroyWith] leaves the other editors alone: the
    context of every other editor is as it was, every other editor is
    active exactly when it was, the global terminal is as it was, and
    [onGuiDestroy] is called once when the editor has a context and not at
    all when it has none. *)
Theorem destroy_keeps_other_editors (e : ptr) (s : state) :
  let s' := ftxui_clap_guiDestroyWith e s in
  (∀ e', e' ≠ e → ctx s' !! e' = ctx s !! e')
  ∧ (∀ e', e' ≠ e → (e' ∈ g_active_editors s' ↔ e' ∈ g_active_editors s))
  ∧ g_terminal s' = g_terminal s
  ∧ g_parameter_queue s' = g_parameter_queue s
  ∧ calls s'
    = calls s
      ++ (if N.eqb e 0 then []
          else match ctx s !! e with
               | Some _ => [onGuiDestroy e]
               | None => []
               end).
Proof.
  intros s'. subst s'. unfold ftxui_clap_guiDestroyWith.
  destruct (N.eqb e 0); [by rewrite app_nil_r|].
  destruct (ctx s !! e) as [c|]; [|by rewrite app_nil_r].
  destruct (terminal c) as [t|]; [destruct (remove_editor _ _ _)|]; simpl;
    (split; [intros e' Hne; by apply lookup_delete_ne|]);
    (split; [intros e' Hne; rewrite list_elem_of_filter; tauto|]);
    auto.
Qed.

End support_frames.

(** ** The library on Linux *)

Section support_linux.
Variable obj : ptr → Editor.ftxui_clap_editor.
Import Terminal Support.

(** On Linux [shutdown] of a terminal leaves no renderer and no display. *)
Lemma linux_shutdown_closes (t : embedded_terminal) (g : X11.globals) :
  X11.g_display (Terminal.shutdown (P := X11.platform) t g).2 = false
  ∧ X11.g_renderers (Terminal.shutdown (P := X11.platform) t g).2 = ∅.
Proof.
  unfold Terminal.shutdown. simpl. unfold X11.platform_shutdown. simpl.
  set (g1 := foldr _ g _).
  destruct (X11.g_display g1) eqn:Hd; simpl; auto.
Qed.

(** X20.  On Linux, [ftxui_clap_guiDestroyWith] of an editor whose context
    has a terminal closes the display connection and drops every renderer,
    those of the windows of other editors included: the destructor of the
    terminal of the context shuts the backend down.  The destruction of an
    editor whose context has no terminal sends nothing and leaves the
    backend as it was. *)
Theorem linux_destroy_closes_display (e : ptr) (c : FTXUIContext)
    (s : state (P := X11.platform)) :
  e ≠ 0%N →
  ctx s !! e = Some c →
  let s' := ftxui_clap_guiDestroyWith e s in
  (is_Some (terminal c) →
   X11.g_display (backend s') = false ∧ X11.g_renderers (backend s') = ∅)
  ∧ (terminal c = None → backend s' = backend s).
Proof.
  intros Hnz Hc s'. subst s'. unfold ftxui_clap_guiDestroyWith.
  apply N.eqb_neq in Hnz. rewrite Hnz, Hc.
  destruct (terminal c) as [t|].
  - split; [|discriminate]. intros _.
    destruct (remove_editor _ _ _) as [t' g']. simpl.
    apply linux_shutdown_closes.
  - split; [intros [? [=]]|reflexivity].
Qed.

(** X21.  When the products [cols * 8] and [rows * 16] of the size of the
    context of the editor are values of an [int], and
    [ftxui_clap_guiSetParentWith] returns [true] on Linux: the handle of the
    host window is not null, the terminal of the context of the editor has a
    record under the identifier of the editor, for a new child window of the
    host window, of [cols * 8] by [rows * 16] pixels, and the backend has a
    renderer for that window; the size, the visibility and the component of
    the context are as they were. *)
Theorem linux_set_parent_makes_window (w : world (P := X11.platform))
    (e : ptr) (window : Editor.clap_window)
    (s s' : state (P := X11.platform)) :
  (∀ c, ctx s !! e = Some c →
        int_range (cols c * 8) ∧ int_range (rows c * 16)) →
  ftxui_clap_guiSetParentWith w e (Some window) s = (true, s') →
  let child := X11.XCreateSimpleWindow (api w) (Editor.x11 window) in
  ∃ c c',
    ctx s !! e = Some c
    ∧ ctx s' !! e = Some c'
    ∧ Editor.x11 window ≠ 0%N
    ∧ child ≠ 0%N
    ∧ context_record s' e (editor_id e)
      = Some {| Terminal.content := ""; Terminal.platform_handle := child;
                Terminal.width := cols c * 8; Terminal.height := rows c * 16;
                Terminal.visible := false |}
    ∧ is_Some (X11.g_renderers (backend s') !! child)
    ∧ (cols c', rows c', visible c', component c')
      = (cols c, rows c, visible c, component c).
Proof.
  intros _. unfold ftxui_clap_guiSetParentWith.
  destruct (N.eqb e 0); [discriminate|].
  destruct (ctx s !! e) as [c|] eqn:Hc; [|discriminate].
  intros Hcall. cbv zeta. exists c.
  destruct (terminal c) as [t|];
    [|destruct (Terminal.initialize (api w) (backend s)) as [[] g];
      [|discriminate]];
    simpl in Hcall.
  all: destruct (N.eqb_spec (Editor.x11 window) 0) as [Hz|Hnz];
    simpl in Hcall; [discriminate|].
  all: unfold create_window in Hcall; simpl in Hcall;
    unfold X11.platform_create_window in Hcall.
  all: match type of Hcall with context [X11.g_display ?g0] =>
         destruct (X11.g_display g0) end; simpl in Hcall; [|discriminate].
  all: apply N.eqb_neq in Hnz as Hnz'; rewrite Hnz' in Hcall.
  all: destruct (N.eqb_spec
                   (X11.XCreateSimpleWindow (api w) (Editor.x11 window)) 0)
         as [Hcz|Hcnz]; simpl in Hcall; [discriminate|].
  all: destruct (X11.renderer_initialize (api w) _) as [[] r];
    simpl in Hcall; [|discriminate].
  all: injection Hcall as <-; eexists; simpl.
  all: split; [reflexivity|]; split; [apply lookup_insert_eq|].
  all: split; [exact Hnz|]; split; [exact Hcnz|].
  all: unfold context_record; simpl; rewrite !lookup_insert_eq; simpl.
  all: rewrite lookup_insert_eq; eauto.
Qed.

End support_linux.

(** The window of editor 1 in [Sample.two_editors], with the window of
    editor 2 not made. *)
Lemma linux_destroy_closes_display_witness :
  let s' := Support.ftxui_clap_guiDestroyWith 1%N Sample.two_editors in
  X11.g_display (Support.backend s') = false
  ∧ X11.g_renderers (Support.backend s') = ∅.
Proof.
  intros s'.
  assert (∃ c, Support.ctx Sample.two_editors !! 1%N = Some c
               ∧ is_Some (Support.terminal c)) as (c & Hc & Ht).
  { vm_compute. eauto. }
  destruct (linux_destroy_closes_display 1%N c Sample.two_editors) as [Hclose _];
    [discriminate|exact Hc|].
  exact (Hclose Ht).
Defined.

(** The host window 7 is given to editor 2 of [Sample.two_editors], whose
    context has 80 columns and 24 rows. *)
Lemma linux_set_parent_makes_window_witness :
  let s' := (Support.ftxui_clap_guiSetParentWith Sample.linux 2%N
               (Some Sample.host_window) Sample.two_editors).2 in
  ∃ c c',
    Support.ctx Sample.two_editors !! 2%N = Some c
    ∧ int_range (Support.cols c * 8) ∧ int_range (Support.rows c * 16)
    ∧ Support.ctx s' !! 2%N = Some c'
    ∧ Editor.x11 Sample.host_window ≠ 0%N
    ∧ 107%N ≠ 0%N
    ∧ Support.context_record s' 2%N (Support.editor_id 2%N)
      = Some {| Terminal.content := ""; Terminal.platform_handle := 107%N;
                Terminal.width := Support.cols c * 8;
                Terminal.height := Support.rows c * 16;
                Terminal.visible := false |}
    ∧ is_Some (X11.g_renderers (Support.backend s') !! 107%N)
    ∧ (Support.cols c', Support.rows c', Support.visible c',
       Support.component c')
      = (Support.cols c, Support.rows c, Support.visible c,
         Support.component c).
Proof.
  intros s'.
  assert (∀ c, Support.ctx Sample.two_editors !! 2%N = Some c →
               int_range (Support.cols c * 8)
               ∧ int_range (Support.rows c * 16)) as Hrange.
  { intros c Hc. vm_compute in Hc. injection Hc as <-.
    unfold int_range. simpl. lia. }
  destruct (linux_set_parent_makes_window Sample.linux 2%N Sample.host_window
              Sample.two_editors s' Hrange)
    as (c & c' & Hc & H); [vm_compute; reflexivity|].
  destruct (Hrange c Hc) as [Hcols Hrows].
  exists c, c'. auto.
Defined.

(** ** The size negotiation, further *)

Section size_further.
Context {P : Terminal.Platform}.
Variable obj : ptr → Editor.ftxui_clap_editor.
Import Support.

(** X22.  The default [adjustSize] is the clamp of the columns to 40..120
    and of the rows to 10..40; it always answers [true]; and applied to its
    own result it changes nothing. *)
Theorem default_adjustSize_clamps (cols rows : Z) :
  Editor.default_adjustSize cols rows
  = (true, (Z.max 40 (Z.min 120 cols), Z.max 10 (Z.min 40 rows)))
  ∧ (let '(c, r) := (Editor.default_adjustSize cols rows).2 in
     Editor.default_adjustSize c r = Editor.default_adjustSize cols rows).
Proof.
  unfold Editor.default_adjustSize. simpl.
  split; repeat case_match; repeat f_equal; lia.
Qed.

(** X23.  With the default [adjustSize], the columns that
    [ftxui_clap_guiSetSizeWith] stores are 40 for every width below 328
    pixels, negative widths included, 120 from 960 pixels on, and an
    eighth of the width, rounded down, in between; the rows are 10 below
    176 pixels, 40 from 640 pixels on, and a sixteenth of the height in
    between.  A pixel size that is larger in both directions never gives
    fewer columns or rows.  The visibility, the component and the terminal
    of the context are kept. *)
Theorem set_size_thresholds (e : ptr) (wd ht : Z) (s : state)
    (c : FTXUIContext) :
  e ≠ 0%N →
  ctx s !! e = Some c →
  (∀ cols rows,
     Editor.adjustSize (obj e) cols rows
     = Editor.default_adjustSize cols rows) →
  ∃ c',
    ctx (ftxui_clap_guiSetSizeWith obj e wd ht s).2 !! e = Some c'
    ∧ (wd < 328 → cols c' = 40)
    ∧ (328 ≤ wd < 960 → cols c' = wd / 8)
    ∧ (960 ≤ wd → cols c' = 120)
    ∧ (ht < 176 → rows c' = 10)
    ∧ (176 ≤ ht < 640 → rows c' = ht / 16)
    ∧ (640 ≤ ht → rows c' = 40)
    ∧ (visible c', component c', terminal c')
      = (visible c, component c, terminal c)
    ∧ ∀ wd2 ht2, wd ≤ wd2 → ht ≤ ht2 →
        ∃ c2,
          ctx (ftxui_clap_guiSetSizeWith obj e wd2 ht2 s).2 !! e = Some c2
          ∧ cols c' ≤ cols c2 ∧ rows c' ≤ rows c2.
Proof.
  intros Hnz Hc Hadj.
  rewrite (set_size_default obj e wd ht s c) by assumption. simpl.
  rewrite lookup_insert_eq. eexists. split; [reflexivity|]. simpl.
  assert (∀ a b, 0 < b → a ≤ 0 → a ÷ b ≤ 0) as Hneg.
  { intros a b Hb Ha. rewrite <- (Z.opp_involutive a), Z.quot_opp_l by lia.
    pose proof (Z.quot_pos (- a) b ltac:(lia) Hb). lia. }
  assert (∀ a b, 0 < b → 0 ≤ a → a ÷ b = a / b) as Hpos.
  { intros a b Hb Ha. apply Z.quot_div_nonneg; lia. }
  repeat split.
  - intros Hw. destruct (Z.le_gt_cases 0 wd) as [H0|H0].
    + rewrite Hpos by lia.
      assert (wd / 8 < 41) by (apply Z.div_lt_upper_bound; lia). lia.
    + pose proof (Hneg wd 8 ltac:(lia) ltac:(lia)). lia.
  - intros Hw. rewrite Hpos by lia.
    assert (wd / 8 < 120) by (apply Z.div_lt_upper_bound; lia).
    assert (41 ≤ wd / 8) by (apply Z.div_le_lower_bound; lia). lia.
  - intros Hw. rewrite Hpos by lia.
    assert (120 ≤ wd / 8) by (apply Z.div_le_lower_bound; lia). lia.
  - intros Hh. destruct (Z.le_gt_cases 0 ht) as [H0|H0].
    + rewrite Hpos by lia.
      assert (ht / 16 < 11) by (apply Z.div_lt_upper_bound; lia). lia.
    + pose proof (Hneg ht 16 ltac:(lia) ltac:(lia)). lia.
  - intros Hh. rewrite Hpos by lia.
    assert (ht / 16 < 40) by (apply Z.div_lt_upper_bound; lia).
    assert (11 ≤ ht / 16) by (apply Z.div_le_lower_bound; lia). lia.
  - intros Hh. rewrite Hpos by lia.
    assert (40 ≤ ht / 16) by (apply Z.div_le_lower_bound; lia). lia.
  - intros wd2 ht2 Hw Hh.
    rewrite (set_size_default obj e wd2 ht2 s c) by assumption. simpl.
    rewrite lookup_insert_eq. eexists. split; [reflexivity|]. simpl.
    pose proof (Z.quot_le_mono wd wd2 8 ltac:(lia) Hw).
    pose proof (Z.quot_le_mono ht ht2 16 ltac:(lia) Hh). lia.
Qed.


End size_further.

(** A width of 500 pixels and a height of 300 pixels, on editor 1 of
    [Sample.two_editors]. *)
Lemma set_size_thresholds_witness :
  ∃ c',
    Support.ctx
      (Support.ftxui_clap_guiSetSizeWith Sample.plain 1%N 500 300
         Sample.two_editors).2 !! 1%N = Some c'
    ∧ Support.cols c' = 62 ∧ Support.rows c' = 18.
Proof.
  assert (∃ c, Support.ctx Sample.two_editors !! 1%N = Some c) as [c Hc]
    by (vm_compute; eauto).
  destruct (set_size_thresholds Sample.plain 1%N 500 300 Sample.two_editors c)
    as (c' & Hc' & _ & Hcols & _ & _ & Hrows & _);
    [discriminate|exact Hc|reflexivity|].
  exists c'. split; [exact Hc'|].
  rewrite Hcols, Hrows by lia. split; reflexivity.
Defined.


(** ** The Windows backend *)

(** X25.  [WindowsTerminalRenderer::initialize] succeeds exactly when the
    two factories are made, the text format is made for "Consolas" or else
    for "Courier New", and the render target and the two brushes are made.
    The renderer then has its render target, so that [render] draws; and a
    failure of the measuring of "M" does not make it fail: the cell keeps
    the size it had. *)
Theorem windows_renderer_initialize_chain (x : Win32.answers)
    (r : Win32.WindowsTerminalRenderer) :
  let r' := (Win32.renderer_initialize x r).2 in
  ((Win32.renderer_initialize x r).1 = true
   ↔ Win32.D2D1CreateFactory x = true
     ∧ Win32.DWriteCreateFactory x = true
     ∧ (Win32.CreateTextFormat x "Consolas" = true
        ∨ Win32.CreateTextFormat x "Courier New" = true)
     ∧ Win32.CreateHwndRenderTarget x = true
     ∧ Win32.CreateSolidColorBrush x "White" = true
     ∧ Win32.CreateSolidColorBrush x "Black" = true)
  ∧ ((Win32.renderer_initialize x r).1 = true →
     Win32.render_target_ r' = true
     ∧ Win32.hwnd_ r' = Win32.hwnd_ r
     ∧ (Win32.GetMetrics x = None →
        Win32.char_width_ r' = Win32.char_width_ r
        ∧ Win32.char_height_ r' = Win32.char_height_ r)
     ∧ (∀ mw mh, Win32.GetMetrics x = Some (mw, mh) →
                 Win32.char_width_ r' = mw ∧ Win32.char_height_ r' = mh)).
Proof.
  intros r'. subst r'. unfold Win32.renderer_initialize.
  destruct (Win32.D2D1CreateFactory x); simpl; [|split; [|discriminate];
    split; [discriminate|intros (? & _); discriminate]].
  destruct (Win32.DWriteCreateFactory x); simpl; [|split; [|discriminate];
    split; [discriminate|intros (_ & ? & _); discriminate]].
  destruct (Win32.CreateTextFormat x "Consolas") eqn:H1; simpl;
    [|destruct (Win32.CreateTextFormat x "Courier New") eqn:H2; simpl;
      [|split; [|discriminate];
        split; [discriminate|intros (_ & _ & [?|?] & _); discriminate]]].
  all: destruct (Win32.CreateHwndRenderTarget x); simpl; [|split; [|discriminate];
    split; [discriminate|intros (_ & _ & _ & ? & _); discriminate]].
  all: destruct (Win32.CreateSolidColorBrush x "White"); simpl;
    [|split; [|discriminate];
      split; [discriminate|intros (_ & _ & _ & _ & ? & _); discriminate]].
  all: destruct (Win32.CreateSolidColorBrush x "Black"); simpl;
    [|split; [|discriminate];
      split; [discriminate|intros (_ & _ & _ & _ & _ & ?); discriminate]].
  all: destruct (Win32.GetMetrics x) as [[mw mh]|]; simpl.
  all: split; [split; [intros _; repeat split; auto|reflexivity]|].
  all: intros _; repeat split; try reflexivity; try discriminate.
  all: congruence.
Qed.

(** X26.  [WindowsTerminalRenderer::render] does nothing without a render
    target.  With one, it always begins the draw, clears the window and
    ends the draw, and between these it draws at most one text layout: the
    whole content, at (5, 5), in a box of 1000 by 1000.  When the content
    cannot be converted or the layout cannot be made, the window is cleared
    and nothing is drawn. *)
Theorem windows_render_always_clears (x : Win32.answers)
    (r : Win32.WindowsTerminalRenderer) (text : string) :
  (Win32.render_target_ r = false → Win32.render x r text = [])
  ∧ (Win32.render_target_ r = true →
     let h := Win32.hwnd_ r in
     let n := Win32.MultiByteToWideChar x text in
     (0 < n → Win32.CreateTextLayout x = true →
      Win32.render x r text
      = [Win32.BeginDraw h; Win32.Clear h;
         Win32.DrawTextLayout h 5%float 5%float text (n - 1)
           1000%float 1000%float;
         Win32.EndDraw h])
     ∧ (n ≤ 0 ∨ Win32.CreateTextLayout x = false →
        Win32.render x r text
        = [Win32.BeginDraw h; Win32.Clear h; Win32.EndDraw h])).
Proof.
  unfold Win32.render. split; intros ->; [reflexivity|]. simpl.
  destruct (Z.gtb_spec (Win32.MultiByteToWideChar x text) 0) as [Hn|Hn];
    destruct (Win32.CreateTextLayout x); simpl;
    (split; [intros; first [reflexivity|lia|discriminate]
            |intros [?|?]; first [reflexivity|lia|discriminate]]).
Qed.

(** ** Windows that cannot be made again, and the Windows backend *)

Section set_parent_further.
Import Terminal Support.

(** X27.  On Linux, [ftxui_clap_guiSetParentWith] on an editor whose
    context already has a terminal does not open the display: while the
    display connection is closed it returns [false], whatever the server
    would answer, and sends nothing.  The connection is closed, for one,
    after the destruction of another editor that had a terminal. *)
Theorem linux_set_parent_no_retry (w : world (P := X11.platform)) (e : ptr)
    (window : Editor.clap_window) (c : FTXUIContext) (t : embedded_terminal)
    (s : state (P := X11.platform)) :
  e ≠ 0%N →
  ctx s !! e = Some c →
  terminal c = Some t →
  X11.g_display (backend s) = false →
  (ftxui_clap_guiSetParentWith w e (Some window) s).1 = false
  ∧ backend (ftxui_clap_guiSetParentWith w e (Some window) s).2 = backend s.
Proof.
  intros Hnz Hc Ht Hd. unfold ftxui_clap_guiSetParentWith.
  apply N.eqb_neq in Hnz. rewrite Hnz, Hc, Ht. simpl.
  destruct (N.eqb (Editor.x11 window) 0); simpl; [auto|].
  unfold create_window. simpl. unfold X11.platform_create_window.
  rewrite Hd. simpl. auto.
Qed.

(** X28.  After a [create_window] that succeeds on Windows, the parent
    handle is not null, the one call that was made creates the child
    window, the registry has the record of the identifier with the handle
    of the child and the size asked for, the backend has the initialised
    renderer of the child, and every [update_content] of the identifier
    stores the text and makes the calls of that renderer for it, followed
    by the invalidation of the window. *)
Theorem windows_create_then_update (x : Win32.answers) (id : string)
    (parent : ptr) (px py wd ht : Z) (t t' : embedded_terminal)
    (g g' : Win32.globals) :
  create_window (P := Win32.platform) x id parent px py wd ht t g
  = (true, t', g') →
  let child := Win32.CreateWindowEx x parent in
  ∃ r,
    Win32.renderer_initialize x (Win32.renderer_new child) = (true, r)
    ∧ parent ≠ 0%N
    ∧ child ≠ 0%N
    ∧ Win32.g_renderers g' !! child = Some r
    ∧ Win32.sent g'
      = Win32.sent g ++ [Win32.CreateChildWindow parent px py wd ht child]
    ∧ editors_ t' !! id
      = Some {| Terminal.content := ""; Terminal.platform_handle := child;
                Terminal.width := wd; Terminal.height := ht;
                Terminal.visible := false |}
    ∧ ∀ (x' : Win32.answers) (text : string),
        let u := update_content (P := Win32.platform) x' id text t' g' in
        editors_ u.1 !! id
        = Some {| Terminal.content := text; Terminal.platform_handle := child;
                  Terminal.width := wd; Terminal.height := ht;
                  Terminal.visible := false |}
        ∧ Win32.sent u.2
          = Win32.sent g' ++ Win32.render x' r text
            ++ [Win32.InvalidateRect child].
Proof.
  unfold create_window. simpl. unfold Win32.platform_create_window.
  destruct (N.eqb_spec parent 0) as [Hpz|Hpnz]; simpl; [discriminate|].
  destruct (N.eqb_spec (Win32.CreateWindowEx x parent) 0) as [Hz|Hnz]; simpl;
    [discriminate|].
  destruct (Win32.renderer_initialize x _) as [[] r] eqn:Hinit; simpl;
    [|discriminate].
  intros [= <- <-]. exists r. simpl.
  split; [reflexivity|]. split; [exact Hpnz|]. split; [exact Hnz|].
  split; [apply lookup_insert_eq|]. split; [reflexivity|].
  split; [apply lookup_insert_eq|].
  intros x' text. unfold update_content. simpl.
  rewrite lookup_insert_eq. simpl.
  unfold Win32.platform_update_window. simpl.
  rewrite !lookup_insert_eq. simpl. auto.
Qed.

End set_parent_further.

(** Editor 2 of [Sample.after_destroy] has its terminal, and the
    destruction of editor 1 has closed the display. *)
Lemma linux_set_parent_no_retry_witness :
  (Support.ftxui_clap_guiSetParentWith Sample.linux 2%N
     (Some Sample.host_window) Sample.after_destroy).1 = false
  ∧ Support.backend
      (Support.ftxui_clap_guiSetParentWith Sample.linux 2%N
         (Some Sample.host_window) Sample.after_destroy).2
    = Support.backend Sample.after_destroy.
Proof.
  assert (∃ c t, Support.ctx Sample.after_destroy !! 2%N = Some c
                 ∧ Support.terminal c = Some t) as (c & t & Hc & Ht).
  { vm_compute. eauto. }
  apply (linux_set_parent_no_retry Sample.linux 2%N Sample.host_window c t
           Sample.after_destroy);
    [discriminate|exact Hc|exact Ht|reflexivity].
Defined.

(** The window 107 under the parent 7 on Windows. *)
Lemma windows_create_then_update_witness :
  let r := Terminal.create_window (P := Win32.platform) Sample.win32_up "1"
             7%N 0 0 640 384 Terminal.new Sample.windows_registered in
  ∃ rd,
    Win32.renderer_initialize Sample.win32_up (Win32.renderer_new 107%N)
    = (true, rd)
    ∧ 7%N ≠ 0%N
    ∧ 107%N ≠ 0%N
    ∧ Win32.g_renderers r.2 !! 107%N = Some rd
    ∧ Win32.sent r.2
      = Win32.sent Sample.windows_registered
        ++ [Win32.CreateChildWindow 7%N 0 0 640 384 107%N]
    ∧ Terminal.editors_ r.1.2 !! "1"
      = Some {| Terminal.content := ""; Terminal.platform_handle := 107%N;
                Terminal.width := 640; Terminal.height := 384;
                Terminal.visible := false |}
    ∧ ∀ (x' : Win32.answers) (text : string),
        let u := Terminal.update_content (P := Win32.platform) x' "1" text
                   r.1.2 r.2 in
        Terminal.editors_ u.1 !! "1"
        = Some {| Terminal.content := text; Terminal.platform_handle := 107%N;
                  Terminal.width := 640; Terminal.height := 384;
                  Terminal.visible := false |}
        ∧ Win32.sent u.2
          = Win32.sent r.2 ++ Win32.render x' rd text
            ++ [Win32.InvalidateRect 107%N].
Proof.
  intros r.
  apply (windows_create_then_update Sample.win32_up "1" 7%N 0 0 640 384
           Terminal.new r.1.2 Sample.windows_registered r.2).
  reflexivity.
Defined.

(** ** What holds in every state that is reached *)

Section reachable_states.
Context {P : Terminal.Platform}.
Variable obj : ptr → Editor.ftxui_clap_editor.
Import Terminal Support.

(** Every call keeps the editors that have a context among the active
    ones. *)
Lemma step_context_active (s : state) (wc : world * call) :
  consistent s →
  (∀ x, is_Some (ctx s !! x) → x ∈ g_active_editors s) →
  ∀ x, is_Some (ctx (step obj s wc) !! x) → x ∈ g_active_editors (step obj s wc).
Proof.
  intros Hs Hctx x. destruct wc as [w c]. rewrite step_active.
  destruct c as [e|e|e window|e width height|e|e|e|pid v e|]; simpl.
  - unfold ftxui_clap_guiCreateWith.
    destruct (N.eqb e 0); [apply Hctx|].
    destruct (initialize_frame w s) as (Hc & _).
    destruct (initialize w s) as [[] s1]; simpl in *;
      [|rewrite Hc; apply Hctx].
    intros Hx. apply elem_of_app.
    destruct (decide (e = x)) as [->|Hne];
      [right; by apply list_elem_of_singleton|left].
    apply Hctx. rewrite <- Hc.
    destruct (ctx s1 !! e); simpl in Hx;
      by rewrite lookup_alter_ne, lookup_insert_ne in Hx.
  - unfold ftxui_clap_guiDestroyWith.
    destruct (N.eqb e 0); [apply Hctx|].
    destruct (ctx s !! e) as [c|]; [|apply Hctx].
    intros Hx. apply list_elem_of_filter.
    assert (is_Some (delete e (ctx s) !! x)) as Hx'.
    { destruct (terminal c); [destruct (remove_editor _ _ _)|]; exact Hx. }
    apply lookup_delete_is_Some in Hx' as [Hne Hx']. auto.
  - unfold ftxui_clap_guiSetParentWith.
    destruct (N.eqb e 0); [apply Hctx|].
    destruct (ctx s !! e) as [c|] eqn:Hc; [|apply Hctx].
    destruct window as [window|]; [|apply Hctx].
    intros Hx. apply Hctx.
    destruct (decide (e = x)) as [<-|Hne]; [by rewrite Hc|].
    repeat case_match; simpl in Hx; simplify_eq/=;
      by rewrite lookup_insert_ne in Hx.
  - unfold ftxui_clap_guiSetSizeWith.
    destruct (N.eqb e 0); [apply Hctx|].
    destruct (ctx s !! e) as [c|] eqn:Hc; [|apply Hctx].
    intros Hx. apply Hctx.
    destruct (decide (e = x)) as [<-|Hne]; [by rewrite Hc|].
    repeat case_match; simpl in Hx; by rewrite lookup_insert_ne in Hx.
  - unfold ftxui_clap_guiShowWith.
    destruct (N.eqb e 0); [apply Hctx|].
    destruct (ctx s !! e) as [c|] eqn:Hc; [|apply Hctx].
    intros Hx. apply Hctx.
    destruct (decide (e = x)) as [<-|Hne]; [by rewrite Hc|].
    simpl in Hx. by rewrite lookup_insert_ne in Hx.
  - unfold ftxui_clap_guiHideWith.
    destruct (N.eqb e 0); [apply Hctx|].
    destruct (ctx s !! e) as [c|] eqn:Hc; [|apply Hctx].
    intros Hx. apply Hctx.
    destruct (decide (e = x)) as [<-|Hne]; [by rewrite Hc|].
    simpl in Hx. by rewrite lookup_insert_ne in Hx.
  - apply Hctx.
  - apply Hctx.
  - destruct (g_render_thread s && negb (g_should_stop s)); [|apply Hctx].
    unfold render_loop_iteration.
    destruct (process_parameter_updates _ _) as [queue log].
    match goal with
    | |- context [foldl _ ?s0 ?l] =>
        destruct (render_editors_frame w l s0) as (-> & _) end.
    apply Hctx.
Qed.

Lemma run_context_active (trace : list (world * call)) (s : state) :
  consistent s →
  (∀ x, is_Some (ctx s !! x) → x ∈ g_active_editors s) →
  ∀ x, is_Some (ctx (run obj trace s) !! x) →
       x ∈ g_active_editors (run obj trace s).
Proof.
  revert s. induction trace as [|wc trace IH]; intros s Hs Hctx; [exact Hctx|].
  rewrite run_cons. apply IH; [by apply step_consistent|].
  by apply step_context_active.
Qed.

(** X29.  In every state that boundary calls, queued updates and
    iterations of the render loop reach from the start of the library: the
    active editors are exactly the editors that have a context; the null
    pointer is not among them; the global terminal has no window record;
    and the terminal of the context of an editor has no record under an
    identifier other than that of the editor. *)
Theorem reachable_states_consistent (trace : list (world * call)) :
  let s := run obj trace init in
  (∀ e, e ∈ g_active_editors s ↔ is_Some (ctx s !! e))
  ∧ (0%N ∉ g_active_editors s)
  ∧ (∀ id, global_record s id = None)
  ∧ (∀ e id, id ≠ editor_id e → context_record s e id = None).
Proof.
  intros s.
  assert (consistent s) as Hs by apply run_consistent, init_consistent.
  pose proof Hs as (Hact & Hnull & Hglobal & Hkeys).
  split; [|split; [|split]].
  - intros e. split; [apply Hact|].
    apply run_context_active; [apply init_consistent|].
    intros x Hx. simpl in Hx. rewrite lookup_empty in Hx. by destruct Hx.
  - intros Hin. apply Hact in Hin. rewrite Hnull in Hin. by destruct Hin.
  - intros id. unfold global_record.
    destruct (g_terminal s) as [t|] eqn:Ht; [|reflexivity].
    by rewrite (Hglobal t eq_refl), lookup_empty.
  - intros e id Hne. unfold context_record.
    destruct (ctx s !! e) as [c|] eqn:Hc; [|reflexivity].
    destruct (terminal c) as [t|] eqn:Htc; [|reflexivity].
    destruct (editors_ t !! id) eqn:Hid; [|reflexivity].
    exfalso. apply Hne. apply (Hkeys e c t id Hc Htc). by rewrite Hid.
Qed.

(** X30.  [ftxui_clap_guiSetParentWith] writes the terminal of the context
    of its editor and the backend, and nothing else: the size, the
    visibility and the component of that context, the contexts of the
    other editors, the active editors, the global terminal, the queue and
    the call log are as they were, whether it returns [true] or
    [false]. *)
Theorem set_parent_keeps_the_rest (w : world) (e : ptr)
    (window : option Editor.clap_window) (s : state) :
  let s' := (ftxui_clap_guiSetParentWith w e window s).2 in
  (∀ e', e' ≠ e → ctx s' !! e' = ctx s !! e')
  ∧ (∀ c, ctx s !! e = Some c →
       ∃ t, ctx s' !! e = Some (set_terminal t c))
  ∧ (ctx s !! e = None → ctx s' !! e = None)
  ∧ g_active_editors s' = g_active_editors s
  ∧ g_terminal s' = g_terminal s
  ∧ g_parameter_queue s' = g_parameter_queue s
  ∧ calls s' = calls s.
Proof.
  intros s'. subst s'. unfold ftxui_clap_guiSetParentWith.
  assert (∀ c, ctx s !! e = Some c → ∃ t, ctx s !! e = Some (set_terminal t c))
    as Hsame.
  { intros c Hc. exists (terminal c). rewrite Hc. by destruct c. }
  destruct (N.eqb e 0); [by repeat split|].
  destruct (ctx s !! e) as [c|] eqn:Hc; [|by repeat split].
  destruct window as [window|].
  2: { simpl. rewrite Hc. repeat split; try discriminate.
       intros c0 [= <-]. exists (terminal c). by destruct c. }
  assert (∀ t g,
    let s1 := set_backend g
                (set_ctx (<[e:=set_terminal (Some t) c]> (ctx s)) s) in
    (∀ e', e' ≠ e → ctx s1 !! e' = ctx s !! e')
    ∧ (∀ c0, Some c = Some c0 →
         ∃ t0, ctx s1 !! e = Some (set_terminal t0 c0))
    ∧ (Some c = None → ctx s1 !! e = None)
    ∧ g_active_editors s1 = g_active_editors s
    ∧ g_terminal s1 = g_terminal s
    ∧ g_parameter_queue s1 = g_parameter_queue s
    ∧ calls s1 = calls s) as Hput.
  { intros t g. simpl. repeat split; try discriminate.
    - intros e' Hne. by apply lookup_insert_ne.
    - intros c0 [= <-]. exists (Some t). apply lookup_insert_eq. }
  destruct (terminal c) as [t|];
    [|destruct (Terminal.initialize (api w) (backend s)) as [[] g]]; simpl;
    try apply Hput.
  all: destruct (negb (N.eqb (parent_handle_of window) 0)); try apply Hput.
  all: try (match goal with
            | |- context [create_window ?x ?i ?p ?a ?b ?k ?l ?t ?g] =>
                destruct (create_window x i p a b k l t g) as [[ok t'] g']
            end; apply Hput).
  all: simpl; eapply (Hput _ (backend s)).
Qed.

End reachable_states.
